(** * Chimera: adaptive injections and proactive initiations

    A shallow embedding of [injection_system.py] and of the scheduling,
    dispatch and response-correlation parts of [proactive_initiation.py],
    with the settings commands of [proactive_commands.py], the daily
    clean-up of [cron_jobs.py], and the history read and the injection step
    of [ltm_database.py].

    Conventions of the embedding.
    - Python [int] is [Z]; Python [float] (and [numpy.float64]) is Rocq's
      primitive binary64 [float], so every arithmetic step rounds as it does
      in the interpreter.  NumPy's reductions are the exception: their
      order of summation depends on the build, and a statement about their
      value is made for every [Np.Reductions].
    - Python [str] is a [string] holding the UTF-8 bytes of the text; lengths
      and slices count code points ([Py.len], [Py.take]).
    - Redis is one key space, a [gmap] from key to value and time-to-live;
      PostgreSQL tables are [gmap]s from primary key to row.  Both stores are
      reliable: connection failures are outside the model.
    - An exception that leaves a function is [None]; an exception that the
      source catches is modelled by what the handler does. *)

From Stdlib Require Import ZArith QArith String Ascii List Bool Lia.
From Stdlib Require Import PrimFloat FloatOps SpecFloat.
From Stdlib Require FloatAxioms.
From Stdlib Require Import DecimalString DecimalZ DecimalPos.
From stdpp Require Import gmap strings list sorting.

Set Warnings "-inexact-float".
Local Open Scope string_scope.
Local Open Scope Z_scope.

(** ** Python builtins used by the sources *)

Module Py.

(** [str(n)] and [f"{n}"] for an integer. *)
Definition str_of_int (n : Z) : string :=
  NilZero.string_of_int (Z.to_int n).

(** [int(s)] on decimal text; [None] is [ValueError].  Only the plain
    decimal numerals that Redis itself writes are recognised. *)
Definition int_of_str (s : string) : option Z :=
  Z.of_int <$> NilZero.int_of_string s.

(** Conversion of an [int] operand in mixed arithmetic with a float. *)
Definition float_of_int (n : Z) : float :=
  SF2Prim (binary_normalize prec emax n 0 false).

(** [int(x)] for a float: truncation toward zero; [None] is the
    [ValueError]/[OverflowError] raised on NaN and infinities. *)
Definition int_of_float (x : float) : option Z :=
  match Prim2SF x with
  | S754_zero _ => Some 0
  | S754_finite sign m e =>
      let magnitude :=
        if 0 <=? e then Z.pos m * 2 ^ e else Z.pos m / 2 ^ (- e) in
      Some (if sign then - magnitude else magnitude)
  | S754_infinity _ | S754_nan => None
  end.

(** Truth value of a string: non-empty. *)
Definition truthy (s : string) : bool :=
  match s with EmptyString => false | String _ _ => true end.

(** Truth value of an optional string ([None] or a [str]). *)
Definition truthy_opt (o : option string) : bool :=
  match o with Some s => truthy s | None => false end.

(** [sub in s]. *)
Definition contains (sub s : string) : bool :=
  match String.index 0 sub s with Some _ => true | None => false end.

(** [sep.join(parts)]. *)
Fixpoint join (sep : string) (parts : list string) : string :=
  match parts with
  | [] => ""
  | [p] => p
  | p :: rest => p ++ sep ++ join sep rest
  end.

(** A UTF-8 continuation byte, [10xxxxxx]. *)
Definition is_continuation (c : ascii) : bool :=
  match c with Ascii _ _ _ _ _ _ b6 b7 => b7 && negb b6 end.

(** [len(s)]: the number of code points. *)
Fixpoint len (s : string) : Z :=
  match s with
  | EmptyString => 0
  | String c rest => (if is_continuation c then 0 else 1) + len rest
  end.

(** [s[:n]]: the first [n] code points. *)
Fixpoint take (n : nat) (s : string) {struct s} : string :=
  match s with
  | EmptyString => EmptyString
  | String c rest =>
      if is_continuation c then String c (take n rest)
      else match n with
           | O => EmptyString
           | S n' => String c (take n' rest)
           end
  end.

(** [l[-n:]] for a positive [n]. *)
Definition last_n {A} (n : nat) (l : list A) : list A :=
  drop (length l - n)%nat l.

(** [min(a, b)] and [max(a, b)] on floats: the first argument wins ties
    and unordered comparisons. *)
Definition min (a b : float) : float := if (b <? a)%float then b else a.
Definition max (a b : float) : float := if (a <? b)%float then b else a.

End Py.

(** ** The NumPy operations used by the sources, on binary64 *)

Module Np.
Local Open Scope float_scope.

(** Reductions accumulate from left to right.  NumPy adds pairwise and,
    for [np.dot], through BLAS: the two agree whenever every partial sum is
    exact (vectors of zeros, whole numbers below 2^53) and may differ in
    the last digits otherwise; see [Reductions] below. *)
Definition sum (xs : list float) : float := fold_left PrimFloat.add xs 0.

Definition mean (xs : list float) : float :=
  sum xs / Py.float_of_int (Z.of_nat (length xs)).

Definition var (xs : list float) : float :=
  let m := mean xs in
  mean (map (fun x => (x - m) * (x - m)) xs).

Definition std (xs : list float) : float := PrimFloat.sqrt (var xs).

Definition dot (xs ys : list float) : float :=
  sum (map (fun p => fst p * snd p) (combine xs ys)).

(** [np.linalg.norm] of a vector. *)
Definition norm (xs : list float) : float := PrimFloat.sqrt (dot xs xs).

(** [np.clip(x, lo, hi)]; a NaN passes through. *)
Definition clip (x lo hi : float) : float :=
  if x <? lo then lo else if hi <? x then hi else x.

Definition clip_vec (xs : list float) (lo hi : float) : list float :=
  map (fun x => clip x lo hi) xs.

Definition add_vec (xs ys : list float) : list float :=
  map (fun p => fst p + snd p) (combine xs ys).

Definition scale_vec (xs : list float) (k : float) : list float :=
  map (fun x => x * k) xs.

Definition zeros (n : nat) : list float := repeat 0 n.

(** [np.log]: the platform's logarithm.  It maps 1 to +0 (IEEE 754, C
    Annex F); every other argument is left to [libm_log]. *)
Definition log (libm_log : float -> float) (x : float) : float :=
  if x =? 1 then 0 else libm_log x.

(** The reductions that [calculate_style_volatility] calls.  [np.dot] and
    [np.linalg.norm] go through BLAS and [np.std] through pairwise
    summation: in which order they add, and whether they fuse a product
    with a sum, depends on the build, and so do their last digits.  What
    holds for every [Reductions] holds for the NumPy at hand;
    [left_to_right] is the one made of [dot], [norm] and [std] above. *)
Record Reductions := {
  dot_of : list float -> list float -> float;
  norm_of : list float -> float;
  std_of : list float -> float
}.

Definition left_to_right : Reductions :=
  {| dot_of := dot; norm_of := norm; std_of := std |}.

End Np.

(** ** Redis: one key space of string values with a time-to-live *)

Module Redis.

Record entry := Entry { value : string; ttl : option Z }.

Definition int64_min : Z := - 2 ^ 63.
Definition int64_max : Z := 2 ^ 63 - 1.

(** [GET key]. *)
Definition get (key : string) (s : gmap string entry) : option string :=
  value <$> s !! key.

(** The server keeps the deadline of a key in milliseconds of its own
    clock, in 64 bits.  The store has no clock: [latest_clock_ms] stands
    for the latest instant at which a server runs, 2^53 ms after the
    epoch. *)
Definition latest_clock_ms : Z := 2 ^ 53.

(** Whether [SETEX] takes an expiry in seconds.  The server answers
    "invalid expire time" to a non-positive expiry and to one whose
    deadline, [seconds * 1000] added to its clock, does not fit 64 bits
    (Redis 6.2 and later).  An expiry accepted here is accepted at every
    instant up to [latest_clock_ms]; within [latest_clock_ms] of the limit
    an expiry counts as refused although a server may still take it. *)
Definition accepts_expiry (seconds : Z) : bool :=
  (0 <? seconds) && (seconds * 1000 + latest_clock_ms <=? int64_max).

(** [SETEX key seconds value]; [None] is the error reply for an expiry
    that the server does not take. *)
Definition setex (key : string) (seconds : Z) (v : string)
    (s : gmap string entry) : option (gmap string entry) :=
  if accepts_expiry seconds
  then Some (<[key := Entry v (Some seconds)]> s) else None.

(** [INCR key]; [None] is the error reply for a value that is not an
    integer or that would overflow 64 bits. *)
Definition incr (key : string) (s : gmap string entry)
    : option (gmap string entry) :=
  match s !! key with
  | None => Some (<[key := Entry (Py.str_of_int 1) None]> s)
  | Some e =>
      match Py.int_of_str (value e) with
      | Some n =>
          if (int64_min <=? n) && (n <? int64_max)
          then Some (<[key := Entry (Py.str_of_int (n + 1)) (ttl e)]> s)
          else None
      | None => None
      end
  end.

(** [EXPIRE key seconds]. *)
Definition expire (key : string) (seconds : Z) (s : gmap string entry)
    : gmap string entry :=
  alter (fun e => Entry (value e) (Some seconds)) key s.

(** [DEL key]. *)
Definition del (key : string) (s : gmap string entry) : gmap string entry :=
  delete key s.

End Redis.

(** ** injection_system.py *)

Module Injection.
Local Open Scope float_scope.

(** [InjectionPriority]: the enum and its values. *)
Inductive InjectionPriority := CORE | MODE | EMOTION | PERSONAL.

Definition priority_value (p : InjectionPriority) : Z :=
  match p with
  | CORE => 100
  | MODE => 80
  | EMOTION => 60
  | PERSONAL => 40
  end.

Record InjectionConfig := {
  max_tokens : Z;
  cache_ttl : Z;
  max_injections_per_dialogue : Z;
  entropy_threshold : float;
  latency_budget_ms : Z
}.

(** The dataclass defaults. *)
Definition default_config : InjectionConfig := {|
  max_tokens := 65;
  cache_ttl := 3600;
  max_injections_per_dialogue := 2;
  entropy_threshold := 0.7;
  latency_budget_ms := 120
|}.

(** One record of the interaction history: [msg['role']] is always
    present, [msg.get('content')] and [msg.get('bot_mode')] may be
    missing. *)
Record Message := {
  role : string;
  content : option string;
  bot_mode : option string
}.

(** The style markers of a long-term memory: the truth value of
    [markers.get('магреализм')] and the list [markers.get('балканизмы')]. *)
Record StyleMarkers := {
  magrealism : bool;
  balkanisms : list string
}.

(** A long-term memory as [get_ltm_anchor] reads it; [None] is a missing
    or empty [style_markers]. *)
Record LtmMemory := { style_markers : option StyleMarkers }.

(** *** InjectionCache *)

Definition prefix : string := "himera:injections:".

(** The Redis client: [decode_responses] decides whether [GET] hands back
    [str] (true) or [bytes] (false). *)
Record AdaptiveInjectionSystem := {
  config : InjectionConfig;
  decode_responses : bool
}.

(** With a decoding client [cached.decode] raises [AttributeError] on the
    [str] it got; the handler logs it and the read yields [None]. *)
Definition get_cached_injection (self : AdaptiveInjectionSystem)
    (cache_key : string) (s : gmap string Redis.entry) : option string :=
  match Redis.get (prefix ++ cache_key) s with
  | Some cached =>
      if Py.truthy cached
      then (if decode_responses self then None else Some cached)
      else None
  | None => None
  end.

(** Every failure inside the [try] leaves the store as it was: [np.log]
    raises [TypeError] on a Python [int] of 2^64 or more (it fits no
    integer type of NumPy), [int] raises on a product that is not finite,
    and Redis may refuse the expiry. *)
Definition cache_injection (libm_log : float -> float)
    (cache_key injection : string) (ttl user_activity : Z)
    (s : gmap string Redis.entry) : gmap string Redis.entry :=
  if (Z.max 1 user_activity <? 2 ^ 64)%Z then
    match Py.int_of_float
            (Py.float_of_int ttl
             * (1 + Np.log libm_log
                      (Py.float_of_int (Z.max 1 user_activity))))
    with
    | Some dynamic_ttl =>
        match Redis.setex (prefix ++ cache_key) dynamic_ttl injection s with
        | Some s' => s'
        | None => s
        end
    | None => s
    end
  else s.

(** *** VectorAnchorSystem *)

Definition STYLE_playful : list float := [0.8; 0.2; 0.6; 0.9].
Definition STYLE_analytical : list float := [0.3; 0.9; 0.4; 0.2].
Definition STYLE_mystical : list float := [0.5; 0.4; 0.3; 0.95].
Definition STYLE_ironic : list float := [0.6; 0.3; 0.95; 0.4].
Definition STYLE_neutral : list float := [0.5; 0.5; 0.5; 0.5].

Definition mode_is (msg : Message) (m : string) : bool :=
  match bot_mode msg with Some b => String.eqb b m | None => false end.

Definition encode_user_style (user_history : list Message) : list float :=
  match user_history with
  | [] => STYLE_neutral
  | _ =>
      let step (style_scores : list float) (msg : Message) :=
        if mode_is msg "talk"
        then Np.add_vec style_scores (Np.scale_vec STYLE_playful 0.1)
        else if mode_is msg "expert"
        then Np.add_vec style_scores (Np.scale_vec STYLE_analytical 0.1)
        else if mode_is msg "writer"
        then Np.add_vec style_scores (Np.scale_vec STYLE_mystical 0.1)
        else style_scores in
      Np.clip_vec (fold_left step (Py.last_n 10 user_history) (Np.zeros 4))
                  0 1
  end.

(** The vectors of the user turns among the last ten records. *)
Definition user_turn_vectors (user_history : list Message)
    : list (list float) :=
  map (fun msg => encode_user_style [msg])
      (filter (fun msg => String.eqb (role msg) "user" = true)
              (Py.last_n 10 user_history)).

(** The body of the distance loop for index [i]. *)
Definition distance_at (vectors : list (list float)) (i : nat) : float :=
  let a := nth i vectors [] in
  let b := nth (i + 1) vectors [] in
  let cos_sim := Np.dot a b / (Np.norm a * Np.norm b + 1e-8) in
  1 - cos_sim.

Definition calculate_style_volatility (user_history : list Message)
    : float :=
  if (length user_history <? 5)%nat then 0.5
  else
    let vectors := user_turn_vectors user_history in
    if (length vectors <? 2)%nat then 0.5
    else
      let distances :=
        map (distance_at vectors) (seq 0 (length vectors - 1)) in
      match distances with
      | _ :: _ => Np.clip (Np.std distances * 2) 0 1
      | [] => 0.5
      end.

Definition vector_to_micro_prompt (vector : list float) : string :=
  let playful := nth 0 vector 0 in
  let ironic := nth 2 vector 0 in
  let magical := nth 3 vector 0 in
  let traits :=
    ((if 0.7 <? playful then ["игривость"] else [])
     ++ (if 0.7 <? ironic then ["ирония"] else [])
     ++ (if 0.8 <? magical then ["магреализм"] else []))%list in
  match traits with
  | [] => "Баланс всех качеств."
  | _ => "Акцент: " ++ Py.join ", " (firstn 2 traits) ++ "."
  end.

Definition get_ltm_anchor (user_id : Z) (ltm_memories : list LtmMemory)
    : option string :=
  match ltm_memories with
  | [] => None
  | _ =>
      let keywords_of (memory : LtmMemory) : list string :=
        match style_markers memory with
        | Some markers =>
            ((if magrealism markers then ["мистика"] else [])
             ++ firstn 1 (balkanisms markers))%list
        | None => []
        end in
      let style_keywords := concat (map keywords_of (firstn 3 ltm_memories)) in
      match style_keywords with
      | [] => None
      | _ => Some ("Помни: " ++ Py.join ", " (firstn 2 style_keywords) ++ ".")
      end
  end.

(** *** calculate_dialogue_entropy *)

Definition mode_or_auto (msg : Message) : string :=
  default "auto" (bot_mode msg).

Definition count_mode_changes (messages : list Message) : Z :=
  match messages with
  | [] => 0%Z
  | first :: rest =>
      fst (fold_left
             (fun (acc : Z * string) msg =>
                let curr_mode := mode_or_auto msg in
                (if String.eqb curr_mode (snd acc)
                 then fst acc else (fst acc + 1)%Z,
                 curr_mode))
             rest (0%Z, mode_or_auto first))
  end.

Definition user_message_lengths (messages : list Message) : list float :=
  map (fun msg => Py.float_of_int (Py.len (default "" (content msg))))
      (filter (fun msg => String.eqb (role msg) "user" = true) messages).

Definition calculate_dialogue_entropy (messages : list Message) : float :=
  if (length messages <? 3)%nat then 0
  else
    let mode_changes := count_mode_changes messages in
    let lengths := user_message_lengths messages in
    let length_variance :=
      match lengths with
      | _ :: _ => Np.var lengths / (Np.mean lengths + 1)
      | [] => 0
      end in
    Py.min 1
      (Py.float_of_int mode_changes
         / Py.float_of_int (Z.of_nat (length messages)) * 0.5
       + Py.min 1 (length_variance / 1000) * 0.5).

(** *** AdaptiveInjectionSystem *)

Definition CORE_TEMPLATES (key : string) : option string :=
  if String.eqb key "base" then Some "Ты — Химера."
  else if String.eqb key "format_violation"
  then Some "Химера пишет сплошным текстом."
  else if String.eqb key "character_drift"
  then Some "Вернись к своей сути."
  else None.

Definition MODE_BOOSTERS (key : string) : option string :=
  if String.eqb key "talk" then Some "Твое оружие - живая речь."
  else if String.eqb key "expert"
  then Some "Анализ с блеском эрудиции и поэзии."
  else if String.eqb key "writer" then Some "Говори изнутри текста."
  else None.

Definition EMOTION_MODS (key : string) : option string :=
  if String.eqb key "joy" then Some "Игривость уместна."
  else if String.eqb key "sadness" then Some "Чуткость без слащавости."
  else if String.eqb key "surprise" then Some "Удивление питает остроумие."
  else if String.eqb key "neutral" then Some "Баланс глубины и легкости."
  else None.

Definition injection_count_key (user_id : Z) : string :=
  "himera:injection_count:" ++ Py.str_of_int user_id.

Definition last_emotion_key (user_id : Z) : string :=
  "himera:last_emotion:" ++ Py.str_of_int user_id.

Definition user_activity_key (user_id : Z) : string :=
  "himera:user_activity:" ++ Py.str_of_int user_id.

(** [int(count) if count else 0]; a value that does not parse raises
    inside the [try] and the handler answers 0. *)
Definition _get_injection_count (user_id : Z) (s : gmap string Redis.entry)
    : Z :=
  match Redis.get (injection_count_key user_id) s with
  | Some count =>
      if Py.truthy count then default 0%Z (Py.int_of_str count) else 0%Z
  | None => 0%Z
  end.

Definition should_inject (self : AdaptiveInjectionSystem) (user_id : Z)
    (dialogue_entropy : float) (s : gmap string Redis.entry) : bool :=
  let user_count := _get_injection_count user_id s in
  if (max_injections_per_dialogue (config self) <=? user_count)%Z then false
  else if dialogue_entropy <? entropy_threshold (config self) then false
  else true.

(** [INCR] then [EXPIRE]; an error reply is logged and nothing changes. *)
Definition _increment_injection_count (user_id : Z)
    (s : gmap string Redis.entry) : gmap string Redis.entry :=
  let key := injection_count_key user_id in
  match Redis.incr key s with
  | Some s' => Redis.expire key 86400 s'
  | None => s
  end.

Definition _get_user_activity (user_id : Z) (s : gmap string Redis.entry)
    : Z :=
  match Redis.get (user_activity_key user_id) s with
  | Some activity =>
      if Py.truthy activity
      then default 1%Z (Py.int_of_str activity) else 1%Z
  | None => 1%Z
  end.

Definition reset_user_counter (user_id : Z) (s : gmap string Redis.entry)
    : gmap string Redis.entry :=
  Redis.del (injection_count_key user_id) s.

(** Step 2 of [generate_injection]: the components in the order they are
    appended, and the final [tokens_used]. *)
Definition select_components (self : AdaptiveInjectionSystem) (user_id : Z)
    (mode emotion : string) (user_history : list Message)
    (violation_type : option string) (is_authorized : bool)
    (ltm_memories : option (list LtmMemory))
    : list (InjectionPriority * string) * Z :=
  let core :=
    match violation_type with
    | Some v =>
        if Py.truthy v
        then default "Ты — Химера." (CORE_TEMPLATES v)
        else "Ты — Химера."
    | None => "Ты — Химера."
    end in
  let components := [(CORE, core)] in
  let tokens_used := 15%Z in
  let '(components, tokens_used) :=
    if (tokens_used + 20 <=? max_tokens (config self))%Z then
      let mode_boost := default "" (MODE_BOOSTERS mode) in
      if Py.truthy mode_boost
      then ((components ++ [(MODE, mode_boost)])%list, (tokens_used + 20)%Z)
      else (components, tokens_used)
    else (components, tokens_used) in
  let '(components, tokens_used) :=
    if (tokens_used + 15 <=? max_tokens (config self))%Z then
      let emotion_mod :=
        default "Баланс глубины и легкости." (EMOTION_MODS emotion) in
      ((components ++ [(EMOTION, emotion_mod)])%list, (tokens_used + 15)%Z)
    else (components, tokens_used) in
  if is_authorized && (tokens_used + 20 <=? max_tokens (config self))%Z then
    let ltm_anchor :=
      match ltm_memories with
      | Some (m :: ms) => get_ltm_anchor user_id (m :: ms)
      | _ => None
      end in
    if Py.truthy_opt ltm_anchor then
      ((components ++ [(PERSONAL, default "" ltm_anchor)])%list,
       (tokens_used + 20)%Z)
    else
      let user_vector := encode_user_style user_history in
      let personal_anchor := vector_to_micro_prompt user_vector in
      ((components ++ [(PERSONAL, personal_anchor)])%list,
       (tokens_used + 20)%Z)
  else (components, tokens_used).

(** [components.sort(key=lambda x: x[0].value, reverse=True)]: a stable
    sort by decreasing priority value. *)
Fixpoint insert_component (c : InjectionPriority * string)
    (sorted : list (InjectionPriority * string))
    : list (InjectionPriority * string) :=
  match sorted with
  | [] => [c]
  | d :: rest =>
      if (priority_value (fst d) <=? priority_value (fst c))%Z
      then c :: d :: rest
      else d :: insert_component c rest
  end.

Definition sort_components (components : list (InjectionPriority * string))
    : list (InjectionPriority * string) :=
  fold_right insert_component [] components.

(** The invalidation triggers of [generate_injection]. *)
Definition should_ignore_cache (self : AdaptiveInjectionSystem)
    (user_id : Z) (emotion : string) (user_history : list Message)
    (violation_type : option string) (volatility : float)
    (s : gmap string Redis.entry) : bool :=
  let last_emotion := Redis.get (last_emotion_key user_id) s in
  (* 1: the emotion changed; [bytes != str] holds for every pair *)
  (match last_emotion with
   | Some e =>
       Py.truthy e
       && (if decode_responses self then negb (String.eqb e emotion)
           else true)
   | None => false
   end)
  (* 2: high volatility *)
  || (0.4 <? volatility)
  (* 3: a violation, or a chaotic dialogue *)
  || (Py.truthy_opt violation_type
      || ((3 <? length user_history)%nat
          && (0.8 <? calculate_dialogue_entropy user_history))).

Section Methods.
(** [hashlib.md5(text.encode()).hexdigest()[:16]]. *)
Variable md5_hex16 : string -> string.
(** The logarithm of the C library behind [np.log]. *)
Variable libm_log : float -> float.

Definition _generate_cache_key (user_id : Z) (mode emotion : string)
    (violation : option string) : string :=
  let components :=
    ([Py.str_of_int (user_id mod 100); mode; emotion]
     ++ (if Py.truthy_opt violation then [default "" violation] else []))%list
  in
  md5_hex16 (Py.join ":" components).

(** [generate_injection]; [latency] is the wall-clock reading the call
    reports.  [None] is an exception that leaves the call (the TTL
    product is not finite). *)
Definition generate_injection (self : AdaptiveInjectionSystem)
    (user_id : Z) (mode emotion : string) (user_history : list Message)
    (violation_type : option string) (is_authorized : bool)
    (ltm_memories : option (list LtmMemory)) (latency : Z)
    (s : gmap string Redis.entry)
    : option (string * Z * gmap string Redis.entry) :=
  let cache_key := _generate_cache_key user_id mode emotion violation_type in
  let volatility := calculate_style_volatility user_history in
  let ignore :=
    should_ignore_cache self user_id emotion user_history violation_type
                        volatility s in
  let cached := get_cached_injection self cache_key s in
  if Py.truthy_opt cached && negb is_authorized && negb ignore
  then Some (default "" cached, latency, s)
  else
    let '(components, _) :=
      select_components self user_id mode emotion user_history
                        violation_type is_authorized ltm_memories in
    let injection :=
      "## НАПОМИНАНИЕ ## "
      ++ Py.join " " (map snd (sort_components components)) in
    let cached_state :=
      if negb is_authorized then
        let dynamic_ttl_factor := 0.3 + 0.7 * (1 - volatility) in
        match Py.int_of_float
                (Py.float_of_int (cache_ttl (config self))
                 * dynamic_ttl_factor)
        with
        | Some dynamic_ttl =>
            let user_activity := _get_user_activity user_id s in
            let s1 :=
              cache_injection libm_log cache_key injection dynamic_ttl
                              user_activity s in
            Redis.setex (last_emotion_key user_id) 86400 emotion s1
        | None => None
        end
      else Some s in
    match cached_state with
    | Some s2 =>
        Some (injection, latency, _increment_injection_count user_id s2)
    | None => None
    end.

End Methods.

End Injection.

(** ** VectorAnchorSystem.calculate_style_volatility over any NumPy

    The same method, with the three reductions taken from [np]:
    [Injection.calculate_style_volatility] is its instance at
    [Np.left_to_right].  The vectors themselves are built with elementwise
    operations only, which round the same way everywhere. *)

Module VectorAnchorSystem.
Import Injection.
Local Open Scope float_scope.

Section Numpy.
Variable np : Np.Reductions.

(** The body of the distance loop for index [i]. *)
Definition distance_at (vectors : list (list float)) (i : nat) : float :=
  let a := nth i vectors [] in
  let b := nth (i + 1) vectors [] in
  let cos_sim :=
    Np.dot_of np a b / (Np.norm_of np a * Np.norm_of np b + 1e-8) in
  1 - cos_sim.

Definition calculate_style_volatility (user_history : list Message)
    : float :=
  if (length user_history <? 5)%nat then 0.5
  else
    let vectors := user_turn_vectors user_history in
    if (length vectors <? 2)%nat then 0.5
    else
      let distances :=
        map (distance_at vectors) (seq 0 (length vectors - 1)) in
      match distances with
      | _ :: _ => Np.clip (Np.std_of np distances * 2) 0 1
      | [] => 0.5
      end.

End Numpy.

End VectorAnchorSystem.

(** ** proactive_initiation.py *)

Module Proactive.
Local Open Scope float_scope.

Inductive InitiationType := CONTINUATION | INSIGHT | SUPPORTIVE.

Inductive InitiationStatus := PENDING | SENT | CANCELLED | FAILED.

#[global] Instance InitiationStatus_eq_dec : EqDecision InitiationStatus.
Proof. solve_decision. Defined.

Definition status_eqb (a b : InitiationStatus) : bool :=
  match a, b with
  | PENDING, PENDING | SENT, SENT | CANCELLED, CANCELLED | FAILED, FAILED =>
      true
  | _, _ => false
  end.

(** The settings of [config.py] that the engine reads (each comes from
    the environment, with a default). *)
Record Settings := {
  MAX_INITIATIONS_PER_DAY : Z;
  MIN_INITIATION_INTERVAL_HOURS : Z;
  INITIATION_MIN_QUALITY_SCORE : float;
  SILENCE_AFTER_IGNORED_COUNT : Z;
  SILENCE_MIN_RESPONSE_LENGTH : Z;
  SILENCE_INACTIVITY_DAYS : Z
}.

Definition default_settings : Settings := {|
  MAX_INITIATIONS_PER_DAY := 4;
  MIN_INITIATION_INTERVAL_HOURS := 3;
  INITIATION_MIN_QUALITY_SCORE := 0.6;
  SILENCE_AFTER_IGNORED_COUNT := 2;
  SILENCE_MIN_RESPONSE_LENGTH := 10;
  SILENCE_INACTIVITY_DAYS := 7
|}.

(** *** The persistent store

    Instants ([timestamptz], [datetime]) are microseconds since the epoch;
    one operation reads the clock once. *)

Definition MINUTE : Z := 60 * 1000000.
Definition HOUR : Z := 60 * MINUTE.
Definition DAY : Z := 24 * HOUR.

(** Modelled from the spec: the [CREATE TABLE] statements of the five
    tables are not in the sources; the columns are those the queries name,
    the flags are not null and default to false, and each table is keyed
    by its primary key. *)
Record UserRow := { is_authorized : bool }.

Record ProactivityRow := {
  is_enabled : bool;
  paused_until : option Z;
  ab_test_group : option string
}.

Record ScheduleRow := {
  sched_user_id : Z;
  scheduled_at : Z;
  sched_initiation_type : string;
  status : InitiationStatus;
  sent_at : option Z;
  error_message : option string;
  user_response_received : bool
}.

Record LogRow := {
  log_user_id : Z;
  initiation_id : option Z;
  message_content : string;
  log_initiation_type : string;
  log_created_at : Z;
  user_responded : bool;
  user_response : option string;
  user_response_emotion : option string;
  user_response_sentiment : option float;
  user_response_length : option Z;
  response_time_minutes : option Z
}.

Record HistoryRow := {
  h_user_id : Z;
  h_role : string;
  h_content : string;
  emotion_primary : option string;
  h_bot_mode : string;
  h_created_at : Z
}.

Record DB := {
  users : gmap Z UserRow;
  user_proactivity_settings : gmap Z ProactivityRow;
  initiation_schedule : gmap Z ScheduleRow;
  initiation_logs : gmap Z LogRow;
  history : gmap Z HistoryRow
}.

(** The next value of a serial primary key. *)
Definition next_id {A} (table : gmap Z A) : Z :=
  1 + map_fold (fun k _ acc => Z.max k acc) 0%Z table.

(** [ORDER BY key DESC] and [ORDER BY key]: stable insertion sorts. *)
Fixpoint insert_desc {A} (key : A -> Z) (x : A) (sorted : list A) : list A :=
  match sorted with
  | [] => [x]
  | y :: rest =>
      if (key y <=? key x)%Z then x :: y :: rest
      else y :: insert_desc key x rest
  end.

Definition order_by_desc {A} (key : A -> Z) (rows : list A) : list A :=
  fold_right (insert_desc key) [] rows.

Fixpoint insert_asc {A} (key : A -> Z) (x : A) (sorted : list A) : list A :=
  match sorted with
  | [] => [x]
  | y :: rest =>
      if (key x <=? key y)%Z then x :: y :: rest
      else y :: insert_asc key x rest
  end.

Definition order_by_asc {A} (key : A -> Z) (rows : list A) : list A :=
  fold_right (insert_asc key) [] rows.

(** [AVG(column)]: nulls are skipped, no row gives [NULL]. *)
Definition sql_avg (values : list (option Z)) : option Q :=
  match omap id values with
  | [] => None
  | v :: vs =>
      Some (Qmake (fold_right Z.add 0%Z (v :: vs))
                  (Pos.of_nat (length (v :: vs))))
  end.

(** *** _get_eligible_users *)

Definition eligible_row (db : DB) (now : Z) (user_id : Z)
    (ups : ProactivityRow) : bool :=
  match users db !! user_id with
  | Some u =>
      is_enabled ups
      && (match paused_until ups with
          | None => true
          | Some t => (t <? now)%Z
          end)
      && is_authorized u
      && (match ab_test_group ups with
          | Some g => String.eqb g "A"
          | None => false
          end)
  | None => false
  end.

Definition _get_eligible_users (db : DB) (now : Z) : list Z :=
  fst <$> map_to_list
            (filter (fun kv => eligible_row db now (fst kv) (snd kv) = true)
                    (user_proactivity_settings db)).

(** *** _is_in_silence_mode *)

Definition ignored_recently (user_id now : Z) (kv : Z * LogRow) : Prop :=
  log_user_id (snd kv) = user_id
  /\ (now - 7 * DAY < log_created_at (snd kv))%Z
  /\ user_responded (snd kv) = false.

Definition answered_recently (user_id now : Z) (kv : Z * LogRow) : Prop :=
  log_user_id (snd kv) = user_id
  /\ (now - 7 * DAY < log_created_at (snd kv))%Z
  /\ user_responded (snd kv) = true.

Definition ignored_count (db : DB) (user_id now : Z) : Z :=
  Z.of_nat (size (filter (ignored_recently user_id now) (initiation_logs db))).

Definition avg_length (db : DB) (user_id now : Z) : option Q :=
  sql_avg (map (fun kv => user_response_length (snd kv))
               (map_to_list (filter (answered_recently user_id now)
                                    (initiation_logs db)))).

Definition recent_user_turn (user_id now : Z) (kv : Z * HistoryRow) : Prop :=
  h_user_id (snd kv) = user_id
  /\ h_role (snd kv) = "user"
  /\ (now - 24 * HOUR < h_created_at (snd kv))%Z.

Definition recent_emotions (db : DB) (user_id now : Z)
    : list (option string) :=
  map (fun kv => emotion_primary (snd kv))
      (firstn 5
         (order_by_desc (fun kv => h_created_at (snd kv))
            (map_to_list (filter (recent_user_turn user_id now)
                                 (history db))))).

Definition is_stress (e : option string) : bool :=
  match e with
  | Some l =>
      String.eqb l "sadness" || String.eqb l "anger" || String.eqb l "fear"
  | None => false
  end.

Definition stress_count (db : DB) (user_id now : Z) : Z :=
  Z.of_nat (length (List.filter is_stress (recent_emotions db user_id now))).

(** [a < b] for a [Decimal] and an [int]. *)
Definition Qltb (a b : Q) : bool := negb (Qle_bool b a).

Definition _is_in_silence_mode (cfg : Settings) (db : DB)
    (user_id now : Z) : bool :=
  if (SILENCE_AFTER_IGNORED_COUNT cfg <=? ignored_count db user_id now)%Z
  then true
  else
    let short_answers :=
      match avg_length db user_id now with
      | Some avg =>
          negb (Qeq_bool avg 0)
          && Qltb avg (inject_Z (SILENCE_MIN_RESPONSE_LENGTH cfg))
      | None => false
      end in
    if short_answers then true
    else if (3 <=? stress_count db user_id now)%Z then true
    else false.

(** *** _find_continuation_opportunities *)

(** A long-term memory as the miner reads it; [created_at] is always
    present, the other keys are read with [get]. *)
Record Memory := {
  user_message : option string;
  bot_response : option string;
  importance_score : option Z;
  memory_type : option string;
  created_at : Z
}.

Inductive ContextData :=
| ContinuationContext (main_topic last_question : string) (days_ago : Z)
| InsightContext (days_between : Z) (shared_concepts : list string)
| SupportiveContext (emotional_context emotion_trend support_type : string).

Record InitiationCandidate := {
  user_id : Z;
  initiation_type : InitiationType;
  priority_score : float;
  source_memories : list Memory;
  context_data : ContextData;
  estimated_quality : float;
  emotion_context : option string
}.

(** [(now - created_at).days]: whole days, rounded down. *)
Definition days_since (now created : Z) : Z := (now - created) / DAY.

(** The quality estimate of the loop body for a memory [days_ago] whole
    days old. *)
Definition continuation_quality (memory : Memory) (days_ago : Z) : float :=
  let quality :=
    Py.float_of_int (default 5%Z (importance_score memory)) / 10 in
  let quality := if (3 <? days_ago)%Z then quality * 0.7 else quality in
  let quality :=
    match memory_type memory with
    | Some t => if String.eqb t "auto_saved" then quality * 1.2 else quality
    | None => quality
    end in
  Py.min 1 quality.

Section Text.
(** [str.lower]. *)
Variable str_lower : string -> string.
(** [_extract_main_topic], a keyword heuristic over regular expressions;
    it only labels the candidate. *)
Variable _extract_main_topic : string -> string.

Definition is_open_ended (memory : Memory) : bool :=
  let user_message := default "" (user_message memory) in
  let bot_response := default "" (bot_response memory) in
  Py.contains "?" user_message
  || existsb (fun phrase => Py.contains phrase (str_lower user_message))
             ["как думаешь"; "что если"; "может быть"; "интересно"]
  || existsb (fun phrase => Py.contains phrase (str_lower bot_response))
             ["продолжим"; "вернемся к этому"; "подумаем об этом"].

(** One turn of the loop: the candidate appended for [memory], if any. *)
Definition continuation_candidate (cfg : Settings) (uid now : Z)
    (memory : Memory) : option InitiationCandidate :=
  if is_open_ended memory then
    let days_ago := days_since now (created_at memory) in
    let quality := continuation_quality memory days_ago in
    if INITIATION_MIN_QUALITY_SCORE cfg <=? quality then
      Some {|
        user_id := uid;
        initiation_type := CONTINUATION;
        priority_score := quality;
        source_memories := [memory];
        context_data :=
          ContinuationContext
            (_extract_main_topic (default "" (user_message memory)))
            (default "" (user_message memory))
            days_ago;
        estimated_quality := quality;
        emotion_context := None
      |}
    else None
  else None.

Definition _find_continuation_opportunities (cfg : Settings)
    (uid : Z) (memories : list Memory) (now : Z)
    : list InitiationCandidate :=
  omap (continuation_candidate cfg uid now) (firstn 10 memories).

(** *** process_user_response *)

Definition emotion_sentiment (emotion : string) : option float :=
  if String.eqb emotion "joy" then Some 0.8
  else if String.eqb emotion "love" then Some 0.9
  else if String.eqb emotion "surprise" then Some 0.6
  else if String.eqb emotion "neutral" then Some 0
  else if String.eqb emotion "sadness" then Some (-0.6)
  else if String.eqb emotion "anger" then Some (-0.8)
  else if String.eqb emotion "fear" then Some (-0.7)
  else if String.eqb emotion "disgust" then Some (-0.9)
  else None.

Definition count_words (words : list string) (text : string) : Z :=
  Z.of_nat (length (List.filter (fun w => Py.contains w text) words)).

Definition _analyze_response_sentiment (message : string)
    (emotion : option string) : float :=
  let base_sentiment :=
    match emotion with
    | Some e => if Py.truthy e then default 0 (emotion_sentiment e) else 0
    | None => 0
    end in
  let text_lower := str_lower message in
  let positive_count :=
    count_words ["спасибо"; "интересно"; "здорово"; "отлично"; "да";
                 "конечно"; "хорошо"] text_lower in
  let negative_count :=
    count_words ["нет"; "не надо"; "отстань"; "устал"; "занят"; "потом";
                 "неинтересно"] text_lower in
  let text_sentiment :=
    Py.float_of_int (positive_count - negative_count) * 0.2 in
  let final_sentiment := base_sentiment * 0.7 + text_sentiment * 0.3 in
  Py.max (-1) (Py.min 1 final_sentiment).

Definition unresponded_recent (uid now : Z) (kv : Z * LogRow) : Prop :=
  log_user_id (snd kv) = uid
  /\ user_responded (snd kv) = false
  /\ (now - 24 * HOUR < log_created_at (snd kv))%Z.

(** The [SELECT ... ORDER BY created_at DESC LIMIT 1]. *)
Definition latest_unresponded (db : DB) (uid now : Z)
    : option (Z * LogRow) :=
  head (order_by_desc (fun kv => log_created_at (snd kv))
          (map_to_list (filter (unresponded_recent uid now)
                               (initiation_logs db)))).

(** [(now - created_at).total_seconds() / 60], then [int(...)]. *)
Definition response_minutes (now created : Z) : option Z :=
  Py.int_of_float (Py.float_of_int (now - created) / 1000000 / 60).

Definition mark_response_received (row : ScheduleRow) : ScheduleRow :=
  {| sched_user_id := sched_user_id row;
     scheduled_at := scheduled_at row;
     sched_initiation_type := sched_initiation_type row;
     status := status row;
     sent_at := sent_at row;
     error_message := error_message row;
     user_response_received := true |}.

(** The answer and the store after the call.  A response time that
    cannot be converted raises inside the [try]: the transaction is
    rolled back and the answer is false. *)
Definition process_user_response (db : DB) (uid : Z) (message : string)
    (emotion : option string) (now : Z) : bool * DB :=
  match latest_unresponded db uid now with
  | None => (false, db)
  | Some (log_id, log_entry) =>
      match response_minutes now (log_created_at log_entry) with
      | None => (false, db)
      | Some minutes =>
          let sentiment := _analyze_response_sentiment message emotion in
          let updated := {|
            log_user_id := log_user_id log_entry;
            initiation_id := initiation_id log_entry;
            message_content := message_content log_entry;
            log_initiation_type := log_initiation_type log_entry;
            log_created_at := log_created_at log_entry;
            user_responded := true;
            user_response := Some (Py.take 1000 message);
            user_response_emotion := emotion;
            user_response_sentiment := Some sentiment;
            user_response_length := Some (Py.len message);
            response_time_minutes := Some minutes
          |} in
          let schedule' :=
            match initiation_id log_entry with
            | Some iid =>
                if (iid =? 0)%Z then initiation_schedule db
                else alter mark_response_received iid
                           (initiation_schedule db)
            | None => initiation_schedule db
            end in
          (true,
           {| users := users db;
              user_proactivity_settings := user_proactivity_settings db;
              initiation_schedule := schedule';
              initiation_logs := <[log_id := updated]> (initiation_logs db);
              history := history db |})
      end
  end.

End Text.

(** *** The dispatcher *)

Definition due (now : Z) (kv : Z * ScheduleRow) : Prop :=
  status (snd kv) = PENDING /\ (scheduled_at (snd kv) <= now)%Z.

Definition _get_pending_initiations (db : DB) (now : Z)
    : list (Z * ScheduleRow) :=
  firstn 50
    (order_by_asc (fun kv => scheduled_at (snd kv))
       (map_to_list (filter (due now) (initiation_schedule db)))).

Definition with_schedule (db : DB) (schedule : gmap Z ScheduleRow) : DB :=
  {| users := users db;
     user_proactivity_settings := user_proactivity_settings db;
     initiation_schedule := schedule;
     initiation_logs := initiation_logs db;
     history := history db |}.

Definition _mark_initiation_sent (db : DB) (id : Z) (message : string)
    (now : Z) : DB :=
  match initiation_schedule db !! id with
  | None => db
  | Some row =>
      {| users := users db;
         user_proactivity_settings := user_proactivity_settings db;
         initiation_schedule :=
           <[id := {| sched_user_id := sched_user_id row;
                      scheduled_at := scheduled_at row;
                      sched_initiation_type := sched_initiation_type row;
                      status := SENT;
                      sent_at := Some now;
                      error_message := error_message row;
                      user_response_received := user_response_received row
                   |}]> (initiation_schedule db);
         initiation_logs :=
           <[next_id (initiation_logs db) :=
               {| log_user_id := sched_user_id row;
                  initiation_id := Some id;
                  message_content := message;
                  log_initiation_type := sched_initiation_type row;
                  log_created_at := now;
                  user_responded := false;
                  user_response := None;
                  user_response_emotion := None;
                  user_response_sentiment := None;
                  user_response_length := None;
                  response_time_minutes := None |}]> (initiation_logs db);
         history :=
           <[next_id (history db) :=
               {| h_user_id := sched_user_id row;
                  h_role := "assistant";
                  h_content := message;
                  emotion_primary := None;
                  h_bot_mode := "proactive";
                  h_created_at := now |}]> (history db) |}
  end.

Definition fail_row (error : string) (row : ScheduleRow) : ScheduleRow :=
  {| sched_user_id := sched_user_id row;
     scheduled_at := scheduled_at row;
     sched_initiation_type := sched_initiation_type row;
     status := FAILED;
     sent_at := sent_at row;
     error_message := Some error;
     user_response_received := user_response_received row |}.

Definition _mark_initiation_failed (db : DB) (id : Z) (error : string)
    : DB :=
  with_schedule db (alter (fail_row error) id (initiation_schedule db)).

(** What the message generator and Telegram do for one initiation: the
    message is delivered, the send answers false, or either raises. *)
Inductive SendOutcome :=
| Delivered (message : string)
| NotDelivered
| Raised (error : string).

(** The body of the loop of [send_scheduled_initiations]. *)
Definition dispatch_one (outcome : Z -> SendOutcome) (now : Z) (db : DB)
    (initiation : Z * ScheduleRow) : DB :=
  match outcome (fst initiation) with
  | Delivered message =>
      _mark_initiation_sent db (fst initiation) message now
  | NotDelivered =>
      _mark_initiation_failed db (fst initiation)
                              "Failed to send via Telegram"
  | Raised error => _mark_initiation_failed db (fst initiation) error
  end.

Definition send_scheduled_initiations (outcome : Z -> SendOutcome)
    (db : DB) (now : Z) : DB :=
  fold_left (dispatch_one outcome now) (_get_pending_initiations db now) db.

(** *** The cancelling updates of proactive_commands.py and cron_jobs.py *)

Definition cancel_row (row : ScheduleRow) : ScheduleRow :=
  {| sched_user_id := sched_user_id row;
     scheduled_at := scheduled_at row;
     sched_initiation_type := sched_initiation_type row;
     status := CANCELLED;
     sent_at := sent_at row;
     error_message := error_message row;
     user_response_received := user_response_received row |}.

(** [disable_proactivity]: the flag is cleared and every pending
    initiation of the user is cancelled. *)
Definition disable_proactivity (db : DB) (uid : Z) : DB :=
  {| users := users db;
     user_proactivity_settings :=
       alter (fun ups => {| is_enabled := false;
                            paused_until := paused_until ups;
                            ab_test_group := ab_test_group ups |})
             uid (user_proactivity_settings db);
     initiation_schedule :=
       (fun row =>
          if (sched_user_id row =? uid)%Z && status_eqb (status row) PENDING
          then cancel_row row else row) <$> initiation_schedule db;
     initiation_logs := initiation_logs db;
     history := history db |}.

End Proactive.

(** ** Specification-side definitions *)

Module Spec.
Import Injection.
Local Open Scope float_scope.

(** The per-user counter holds nothing, or a numeral that [INCR] accepts
    and can still raise. *)
Definition counter_ok (user_id : Z) (s : gmap string Redis.entry) : Prop :=
  match s !! injection_count_key user_id with
  | None => True
  | Some e =>
      exists n : Z,
        Redis.value e = Py.str_of_int n
        /\ (Redis.int64_min <= n < Redis.int64_max)%Z
  end.

(** The condition under which [generate_injection] answers from the
    cache: the user is unauthorized, a cached value exists for the key,
    and no invalidation trigger fired. *)
Definition returns_cached (md5_hex16 : string -> string)
    (self : AdaptiveInjectionSystem) (user_id : Z) (mode emotion : string)
    (user_history : list Message) (violation_type : option string)
    (is_authorized : bool) (s : gmap string Redis.entry) : Prop :=
  is_authorized = false
  /\ is_Some (get_cached_injection self
                (_generate_cache_key md5_hex16 user_id mode emotion
                                     violation_type) s)
  /\ should_ignore_cache self user_id emotion user_history violation_type
       (calculate_style_volatility user_history) s = false.

(** The fixed token cost of a component of each priority: core 15, mode 20,
    emotion 15, personal anchor 20. *)
Definition token_cost (p : InjectionPriority) : Z :=
  match p with
  | CORE => 15%Z
  | MODE => 20%Z
  | EMOTION => 15%Z
  | PERSONAL => 20%Z
  end.

(** The sum of the fixed token costs of a list of components. *)
Definition total_cost (components : list (InjectionPriority * string)) : Z :=
  fold_right Z.add 0%Z (map (fun c => token_cost (fst c)) components).


(** The time-to-live that the two conversions of the code produce. *)
Definition written_ttl (libm_log : float -> float) (base_ttl : Z)
    (volatility : float) (user_activity : Z) : option Z :=
  match Py.int_of_float
          (Py.float_of_int base_ttl * (0.3 + 0.7 * (1 - volatility))) with
  | Some dynamic_ttl =>
      Py.int_of_float
        (Py.float_of_int dynamic_ttl
         * (1 + Np.log libm_log (Py.float_of_int (Z.max 1 user_activity))))
  | None => None
  end.


(** The time-to-live of the cache entry for one call: the base of the
    configuration, the volatility of the history and the activity on
    record for the user. *)
Definition call_ttl (libm_log : float -> float)
    (self : AdaptiveInjectionSystem) (user_id : Z)
    (user_history : list Message) (s : gmap string Redis.entry)
    : option Z :=
  written_ttl libm_log (cache_ttl (config self))
    (calculate_style_volatility user_history) (_get_user_activity user_id s).

End Spec.

(** ** The volatility as the specification words it *)

Module VolatilitySpec.
Import Injection.
Local Open Scope float_scope.

(** The last ten records of a history, the most recent one last. *)
Definition last_ten (history : list Message) : list Message :=
  rev (firstn 10 (rev history)).

(** The style of a mode tag: playful for talk, analytical for expert,
    mystical for writer; any other tag, or none, contributes nothing. *)
Definition style_of_mode (mode : option string) : list float :=
  match mode with
  | Some m =>
      if String.eqb m "talk" then [0.8; 0.2; 0.6; 0.9]
      else if String.eqb m "expert" then [0.3; 0.9; 0.4; 0.2]
      else if String.eqb m "writer" then [0.5; 0.4; 0.3; 0.95]
      else [0; 0; 0; 0]
  | None => [0; 0; 0; 0]
  end.

(** The style vector of a window that holds one record: the contribution
    of the record, weighted by 0.1, accumulated from zero and clipped into
    [0, 1] on each axis. *)
Definition window_vector (msg : Message) : list float :=
  map (fun x => Np.clip (0 + x * 0.1) 0 1) (style_of_mode (bot_mode msg)).

(** One vector per user turn, in the order of the turns. *)
Fixpoint turn_vectors (records : list Message) : list (list float) :=
  match records with
  | [] => []
  | msg :: rest =>
      if String.eqb (role msg) "user"
      then window_vector msg :: turn_vectors rest
      else turn_vectors rest
  end.

(** The regularised cosine distance of two vectors. *)
Definition cosine_distance (np : Np.Reductions) (a b : list float) : float :=
  1 - Np.dot_of np a b / (Np.norm_of np a * Np.norm_of np b + 1e-8).

(** The distances of consecutive pairs of a sequence of vectors. *)
Fixpoint consecutive_distances (np : Np.Reductions)
    (vectors : list (list float)) : list float :=
  match vectors with
  | a :: (b :: _) as rest =>
      cosine_distance np a b :: consecutive_distances np rest
  | _ => []
  end.

End VolatilitySpec.

(** ** Sample inputs *)

Module Sample.
Import Injection.

(** A client that hands back [bytes], as in the usage example of
    injection_system.py, and the decoding client of telegram_bot.py. *)
Definition bytes_client : AdaptiveInjectionSystem :=
  {| config := default_config; decode_responses := false |}.
Definition decoding_client : AdaptiveInjectionSystem :=
  {| config := default_config; decode_responses := true |}.

(** A budget below the cost of the core component. *)
Definition tiny_budget_client : AdaptiveInjectionSystem :=
  {| config := {| max_tokens := 10;
                  cache_ttl := 3600;
                  max_injections_per_dialogue := 2;
                  entropy_threshold := 0.7;
                  latency_budget_ms := 120 |};
     decode_responses := true |}.

(** A base time-to-live of 10^16 seconds, and one of 0 seconds. *)
Definition everlasting_client : AdaptiveInjectionSystem :=
  {| config := {| max_tokens := 65;
                  cache_ttl := 10 ^ 16;
                  max_injections_per_dialogue := 2;
                  entropy_threshold := 0.7;
                  latency_budget_ms := 120 |};
     decode_responses := true |}.
Definition no_cache_client : AdaptiveInjectionSystem :=
  {| config := {| max_tokens := 65;
                  cache_ttl := 0;
                  max_injections_per_dialogue := 2;
                  entropy_threshold := 0.7;
                  latency_budget_ms := 120 |};
     decode_responses := true |}.

Definition user_turn : Message :=
  {| role := "user"; content := Some "hi"; bot_mode := None |}.
Definition bot_turn : Message :=
  {| role := "assistant"; content := Some "hello"; bot_mode := None |}.

(** Five records whose user turns carry the modes talk, expert and
    writer. *)
Definition shifting_history : list Message :=
  [ {| role := "user"; content := Some "hi"; bot_mode := Some "talk" |};
    bot_turn;
    {| role := "user"; content := Some "why"; bot_mode := Some "expert" |};
    bot_turn;
    {| role := "user"; content := Some "tell"; bot_mode := Some "writer" |} ].

(** Five records without mode tags, as [get_recent_history] returns them:
    volatility 0 and entropy 0. *)
Definition calm_history : list Message :=
  [user_turn; bot_turn; user_turn; bot_turn; user_turn].

Definition cached_store : gmap string Redis.entry :=
  {[ "himera:injections:7:talk:joy" := Redis.Entry "cached text" (Some 60) ]}.
Definition counted_store : gmap string Redis.entry :=
  {[ "himera:injection_count:7" := Redis.Entry "1" (Some 86400) ]}.
(** The store after a first injection for user 7 (talk, joy, the calm
    history) with the default configuration and the identity as digest. *)
Definition fresh_store : gmap string Redis.entry :=
  <["himera:injection_count:7" := Redis.Entry "1" (Some 86400)]>
    (<["himera:last_emotion:7" := Redis.Entry "joy" (Some 86400)]>
       {[ "himera:injections:7:talk:joy" :=
            Redis.Entry
              "## НАПОМИНАНИЕ ## Ты — Химера. Твое оружие - живая речь. Игривость уместна."
              (Some 3600) ]}).
Definition quota_reached_store : gmap string Redis.entry :=
  {[ "himera:injection_count:7" := Redis.Entry "2" (Some 86400) ]}.

End Sample.

(** ** Specification-side definitions for the proactive engine *)

Module MinerSpec.
Import Proactive.
Local Open Scope float_scope.

(** The quality as the specification words it: importance over ten, times
    0.7 for a memory more than three whole days old, times 1.2 for an
    auto-saved one, at most 1. *)
Definition worded_quality (importance days_old : Z) (auto_saved : bool)
    : float :=
  let quality := Py.float_of_int importance / 10 in
  let quality := if (3 <? days_old)%Z then quality * 0.7 else quality in
  let quality := if auto_saved then quality * 1.2 else quality in
  Py.min 1 quality.

Definition importance_of (memory : Memory) : Z :=
  default 5%Z (importance_score memory).

Definition is_auto_saved (memory : Memory) : bool :=
  match memory_type memory with
  | Some t => String.eqb t "auto_saved"
  | None => false
  end.

(** The quality of a memory at the instant [now]. *)
Definition quality_at (now : Z) (memory : Memory) : float :=
  worded_quality (importance_of memory) (days_since now (created_at memory))
                 (is_auto_saved memory).
End MinerSpec.


Module DispatchSpec.
Import Proactive.

(** One admissible move of a status: it stays, or it leaves [PENDING]. *)
Definition status_step (before after : InitiationStatus) : Prop :=
  before = after \/ before = PENDING.

(** The operations that the running engine applies to the store. *)
Inductive EngineOp :=
| Sweep (outcome : Z -> SendOutcome) (now : Z)
| Respond (uid : Z) (message : string) (emotion : option string) (now : Z)
| Disable (uid : Z).

Definition run_op (str_lower : string -> string) (db : DB) (op : EngineOp)
    : DB :=
  match op with
  | Sweep outcome now => send_scheduled_initiations outcome db now
  | Respond uid message emotion now =>
      snd (process_user_response str_lower db uid message emotion now)
  | Disable uid => disable_proactivity db uid
  end.

Definition run_ops (str_lower : string -> string) (db : DB)
    (ops : list EngineOp) : DB :=
  fold_left (run_op str_lower) ops db.
End DispatchSpec.


(** ** Sample stores *)

Module ProactiveSample.
Import Proactive.
Definition T0 : Z := 1700000000000000.
Definition due_row : ScheduleRow :=
  {| sched_user_id := 7;
     scheduled_at := T0;
     sched_initiation_type := "continuation";
     status := PENDING;
     sent_at := None;
     error_message := None;
     user_response_received := false |}.
Definition one_due : DB :=
  {| users := {[ 7 := {| is_authorized := true |} ]};
     user_proactivity_settings :=
       {[ 7 := {| is_enabled := true;
                  paused_until := None;
                  ab_test_group := Some "A" |} ]};
     initiation_schedule := {[ 1 := due_row ]};
     initiation_logs := ∅;
     history := ∅ |}.
Definition status_of (db : DB) (id : Z) : option InitiationStatus :=
  status <$> initiation_schedule db !! id.

(** One delivered initiation of user 7 that awaits an answer. *)
Definition sent_row : ScheduleRow :=
  {| sched_user_id := 7;
     scheduled_at := T0;
     sched_initiation_type := "continuation";
     status := SENT;
     sent_at := Some T0;
     error_message := None;
     user_response_received := false |}.
Definition waiting_entry (created : Z) : LogRow :=
  {| log_user_id := 7;
     initiation_id := Some 1;
     message_content := "hello";
     log_initiation_type := "continuation";
     log_created_at := created;
     user_responded := false;
     user_response := None;
     user_response_emotion := None;
     user_response_sentiment := None;
     user_response_length := None;
     response_time_minutes := None |}.
Definition answered_entry (created : Z) : LogRow :=
  {| log_user_id := 7;
     initiation_id := Some 1;
     message_content := "hello";
     log_initiation_type := "continuation";
     log_created_at := created;
     user_responded := true;
     user_response := Some "a long and friendly answer";
     user_response_emotion := Some "joy";
     user_response_sentiment := Some 0.5%float;
     user_response_length := Some 26;
     response_time_minutes := Some 3 |}.
Definition with_logs (logs : gmap Z LogRow) : DB :=
  {| users := users one_due;
     user_proactivity_settings := user_proactivity_settings one_due;
     initiation_schedule := {[ 1 := sent_row ]};
     initiation_logs := logs;
     history := ∅ |}.
Definition waiting : DB := with_logs {[ 1 := waiting_entry T0 ]}.
(** One and two unanswered initiations in the last week. *)
Definition one_ignored : DB :=
  with_logs (<[ 2 := answered_entry (T0 - DAY) ]>
               {[ 1 := waiting_entry T0 ]}).
Definition two_ignored : DB :=
  with_logs (<[ 3 := waiting_entry (T0 - 2 * DAY) ]>
               (<[ 2 := answered_entry (T0 - DAY) ]>
                  {[ 1 := waiting_entry T0 ]})).
(** An open question of importance 8, saved by the user five days before
    [T0]. *)
Definition old_question : Memory :=
  {| user_message := Some "Что если время нелинейно?";
     bot_response := Some "Тогда память течёт в обе стороны.";
     importance_score := Some 8;
     memory_type := Some "user_saved";
     created_at := T0 - 5 * DAY |}.
End ProactiveSample.



(** ** The composed text of an injection *)

Module Composition.
Import Injection.

(** The text that [generate_injection] builds when it does not answer from
    the cache: the header, then the selected components in the order of
    their priorities. *)
Definition composed_injection (self : AdaptiveInjectionSystem) (user_id : Z)
    (mode emotion : string) (user_history : list Message)
    (violation_type : option string) (is_authorized : bool)
    (ltm_memories : option (list LtmMemory)) : string :=
  "## НАПОМИНАНИЕ ## "
  ++ Py.join " "
       (map snd
            (sort_components
               (fst (select_components self user_id mode emotion user_history
                       violation_type is_authorized ltm_memories)))).

(** A history without mode tags. *)
Definition untagged (user_history : list Message) : Prop :=
  Forall (fun msg => bot_mode msg = None) user_history.

(** The user turns among the last ten records. *)
Definition recent_user_turns (user_history : list Message) : list Message :=
  filter (fun msg => String.eqb (role msg) "user" = true)
         (Py.last_n 10 user_history).

End Composition.

(** ** proactive_commands.py and cron_jobs.py: the settings commands and
    the daily clean-up *)

Module Commands.
Import Proactive.

(** The deterministic split of the A/B test. *)
Definition get_or_assign_ab_group (user_id : Z) : string :=
  if user_id mod 2 =? 0 then "A" else "B".

Definition with_settings (db : DB) (settings : gmap Z ProactivityRow) : DB :=
  {| users := users db;
     user_proactivity_settings := settings;
     initiation_schedule := initiation_schedule db;
     initiation_logs := initiation_logs db;
     history := history db |}.

(** [enable_proactivity]: the [INSERT ... ON CONFLICT (user_id) DO UPDATE].
    A new row takes the group of [get_or_assign_ab_group] and no pause; an
    existing row is enabled and its pause cleared, its group stays. *)
Definition enable_proactivity (db : DB) (user_id : Z) : DB :=
  let ab_group := get_or_assign_ab_group user_id in
  with_settings db
    (<[user_id :=
         match user_proactivity_settings db !! user_id with
         | Some ups =>
             {| is_enabled := true;
                paused_until := None;
                ab_test_group := ab_test_group ups |}
         | None =>
             {| is_enabled := true;
                paused_until := None;
                ab_test_group := Some ab_group |}
         end]> (user_proactivity_settings db)).

(** [set_proactivity_pause]: the pause is stored on the user's row, and the
    user's pending initiations scheduled up to its end are cancelled. *)
Definition set_proactivity_pause (db : DB) (user_id pause_until : Z) : DB :=
  {| users := users db;
     user_proactivity_settings :=
       alter (fun ups => {| is_enabled := is_enabled ups;
                            paused_until := Some pause_until;
                            ab_test_group := ab_test_group ups |})
             user_id (user_proactivity_settings db);
     initiation_schedule :=
       (fun row =>
          if (sched_user_id row =? user_id) && status_eqb (status row) PENDING
             && (scheduled_at row <=? pause_until)
          then cancel_row row else row) <$> initiation_schedule db;
     initiation_logs := initiation_logs db;
     history := history db |}.

Definition is_proactivity_enabled (db : DB) (user_id now : Z) : bool :=
  match user_proactivity_settings db !! user_id with
  | None => false
  | Some result =>
      if negb (is_enabled result) then false
      else
        match paused_until result with
        | Some t => if now <? t then false else true
        | None => true
        end
  end.

(** [cleanup_old_initiations] of cron_jobs.py: pending initiations more than
    48 hours overdue are cancelled, log entries older than 30 days are
    deleted. *)
Definition cleanup_old_initiations (db : DB) (now : Z) : DB :=
  {| users := users db;
     user_proactivity_settings := user_proactivity_settings db;
     initiation_schedule :=
       (fun row =>
          if status_eqb (status row) PENDING
             && (scheduled_at row <? now - 48 * HOUR)
          then cancel_row row else row) <$> initiation_schedule db;
     initiation_logs :=
       filter (fun kv : Z * LogRow => now - 30 * DAY <= log_created_at (snd kv))
              (initiation_logs db);
     history := history db |}.

End Commands.

(** ** proactive_initiation.py: the scheduling gate and the choice of a
    candidate *)

Module Scheduler.
Import Proactive.
Local Open Scope float_scope.

(** [utc_now().replace(hour=0, minute=0, second=0, microsecond=0)]. *)
Definition today_start (now : Z) : Z := (now / DAY * DAY)%Z.

Definition counts_today (user_id now : Z) (kv : Z * ScheduleRow) : Prop :=
  sched_user_id (snd kv) = user_id
  /\ (today_start now <= scheduled_at (snd kv))%Z
  /\ (scheduled_at (snd kv) < today_start now + DAY)%Z
  /\ (status (snd kv) = PENDING \/ status (snd kv) = SENT).

Definition _get_today_initiation_count (db : DB) (user_id now : Z) : Z :=
  Z.of_nat (size (filter (counts_today user_id now) (initiation_schedule db))).

(** [MAX(column)]: no row gives [NULL]. *)
Definition sql_max (values : list Z) : option Z :=
  match values with
  | [] => None
  | v :: vs => Some (fold_right Z.max v vs)
  end.

Definition user_turn_of (user_id : Z) (kv : Z * HistoryRow) : Prop :=
  h_user_id (snd kv) = user_id /\ h_role (snd kv) = "user".

Definition _get_last_user_activity (db : DB) (user_id : Z) : option Z :=
  sql_max (map (fun kv => h_created_at (snd kv))
               (map_to_list (filter (user_turn_of user_id) (history db)))).

Definition sent_or_pending (user_id : Z) (kv : Z * ScheduleRow) : Prop :=
  sched_user_id (snd kv) = user_id
  /\ (status (snd kv) = SENT \/ status (snd kv) = PENDING).

Definition _get_last_initiation_time (db : DB) (user_id : Z) : option Z :=
  sql_max (map (fun kv => scheduled_at (snd kv))
               (map_to_list (filter (sent_or_pending user_id)
                                    (initiation_schedule db)))).

(** [(now - last).total_seconds() / 3600]. *)
Definition hours_passed (now last : Z) : float :=
  Py.float_of_int (now - last) / 1000000 / 3600.

Definition _should_schedule_initiation (cfg : Settings) (db : DB)
    (user_id now : Z) : bool :=
  if (MAX_INITIATIONS_PER_DAY cfg
      <=? _get_today_initiation_count db user_id now)%Z
  then false
  else
    match _get_last_user_activity db user_id with
    | None => false
    | Some last_activity =>
        if (SILENCE_INACTIVITY_DAYS cfg <? days_since now last_activity)%Z
        then false
        else if _is_in_silence_mode cfg db user_id now then false
        else
          match _get_last_initiation_time db user_id with
          | Some last_initiation =>
              if hours_passed now last_initiation
                 <? Py.float_of_int (MIN_INITIATION_INTERVAL_HOURS cfg)
              then false else true
          | None => true
          end
    end.

(** [InitiationType.value]. *)
Definition type_value (t : InitiationType) : string :=
  match t with
  | CONTINUATION => "continuation"
  | INSIGHT => "insight"
  | SUPPORTIVE => "supportive"
  end.

(** [_schedule_initiation]: one pending row under a fresh serial key. *)
Definition _schedule_initiation (db : DB) (candidate : InitiationCandidate)
    (scheduled_time : Z) : DB :=
  with_schedule db
    (<[next_id (initiation_schedule db) :=
         {| sched_user_id := user_id candidate;
            scheduled_at := scheduled_time;
            sched_initiation_type := type_value (initiation_type candidate);
            status := PENDING;
            sent_at := None;
            error_message := None;
            user_response_received := false |}]> (initiation_schedule db)).

(** *** _analyze_emotion_trajectory and _find_supportive_opportunities *)

(** A history message as the engine reads it: [msg['role']] and
    [msg.get('emotion_primary')]. *)
Record EmotionMessage := {
  em_role : string;
  em_emotion_primary : option string
}.

Record EmotionTrajectory := {
  current_emotion : string;
  trend : string;
  needs_support : bool;
  trajectory_recent_emotions : option (list string)
}.

Definition no_trajectory : EmotionTrajectory :=
  {| current_emotion := "neutral";
     trend := "stable";
     needs_support := false;
     trajectory_recent_emotions := None |}.

Definition user_emotions (history : list EmotionMessage) : list string :=
  omap (fun msg =>
          if String.eqb (em_role msg) "user" then
            match em_emotion_primary msg with
            | Some e => if Py.truthy e then Some e else None
            | None => None
            end
          else None)
       history.

Definition is_negative (e : string) : bool :=
  existsb (String.eqb e) ["sadness"; "anger"; "fear"; "disgust"].

Definition is_positive (e : string) : bool :=
  existsb (String.eqb e) ["joy"; "surprise"; "love"].

Definition negative_count (emotions : list string) : Z :=
  Z.of_nat (length (List.filter is_negative (firstn 10 emotions))).

Definition positive_count (emotions : list string) : Z :=
  Z.of_nat (length (List.filter is_positive (firstn 10 emotions))).

Definition _analyze_emotion_trajectory (history : list EmotionMessage)
    : EmotionTrajectory :=
  match user_emotions history with
  | [] => no_trajectory
  | current :: _ =>
      let emotions := user_emotions history in
      let negative := negative_count emotions in
      let positive := positive_count emotions in
      let '(trend, needs_support) :=
        if (positive * 2 <? negative)%Z then ("declining", true)
        else if (negative * 2 <? positive)%Z then ("improving", false)
        else ("stable", (3 <=? negative)%Z) in
      {| current_emotion := current;
         trend := trend;
         needs_support := needs_support;
         trajectory_recent_emotions := Some (firstn 5 (firstn 10 emotions)) |}
  end.

(** A long-term memory with the tags that the supportive miner reads:
    [memory.get('contextual_tags', [])]. *)
Record TaggedMemory := {
  tagged_memory : Memory;
  contextual_tags : list string
}.

Definition is_relevant (current_emotion : string) (memory : TaggedMemory)
    : bool :=
  existsb (String.eqb current_emotion) (contextual_tags memory)
  || existsb (fun tag =>
                existsb (String.eqb tag)
                        ["поддержка"; "утешение"; "вдохновение"])
             (contextual_tags memory).

Definition _find_supportive_opportunities (uid : Z)
    (memories : list TaggedMemory) (emotion_trajectory : EmotionTrajectory)
    : list InitiationCandidate :=
  let current_emotion := current_emotion emotion_trajectory in
  let emotion_trend := trend emotion_trajectory in
  if needs_support emotion_trajectory then
    let relevant_memories :=
      List.filter (is_relevant current_emotion) memories in
    if negb (match relevant_memories with [] => true | _ => false end)
       || String.eqb emotion_trend "declining"
    then
      let quality :=
        if String.eqb emotion_trend "declining" then 0.9 else 0.8 in
      [ {| user_id := uid;
           initiation_type := SUPPORTIVE;
           priority_score := quality;
           source_memories := map tagged_memory (firstn 2 relevant_memories);
           context_data :=
             SupportiveContext
               current_emotion emotion_trend
               (if String.eqb current_emotion "sadness"
                   || String.eqb current_emotion "fear"
                then "empathetic" else "encouraging");
           estimated_quality := quality;
           emotion_context := None |} ]
    else []
  else [].

(** The supportive branch of [_analyze_initiation_opportunities]: the
    miner applied to the trajectory of the history. *)
Definition supportive_candidates (uid : Z) (memories : list TaggedMemory)
    (history : list EmotionMessage) : list InitiationCandidate :=
  _find_supportive_opportunities uid memories
    (_analyze_emotion_trajectory history).

(** *** _select_best_candidate *)

Definition was_sent_to (user_id : Z) (kv : Z * ScheduleRow) : Prop :=
  sched_user_id (snd kv) = user_id /\ status (snd kv) = SENT.

(** [ORDER BY sent_at DESC LIMIT 1]: PostgreSQL puts nulls first in a
    descending order. *)
Definition _get_last_initiation_type (db : DB) (user_id : Z)
    : option string :=
  let rows := map_to_list (filter (was_sent_to user_id)
                                  (initiation_schedule db)) in
  let undated :=
    List.filter (fun kv => match sent_at (snd kv) with
                           | None => true | Some _ => false end) rows in
  let dated :=
    List.filter (fun kv => match sent_at (snd kv) with
                           | None => false | Some _ => true end) rows in
  (fun kv => sched_initiation_type (snd kv))
    <$> head (undated
              ++ order_by_desc (fun kv => default 0%Z (sent_at (snd kv)))
                               dated)%list.

(** The loop body: [candidate._final_score]. *)
Definition final_score (db : DB) (now : Z) (candidate : InitiationCandidate)
    : float :=
  let score := estimated_quality candidate * priority_score candidate in
  let score :=
    match _get_last_initiation_type db (user_id candidate) with
    | Some last_type =>
        if Py.truthy last_type
           && negb (String.eqb last_type
                               (type_value (initiation_type candidate)))
        then score * 1.2 else score
    | None => score
    end in
  match source_memories candidate with
  | [] => score
  | _ :: _ =>
      let avg_days :=
        Np.mean (map (fun mem => Py.float_of_int
                                   (days_since now (created_at mem)))
                     (source_memories candidate)) in
      if avg_days <=? 3 then score * 1.1 else score
  end.

(** [max(iterable, key=...)]: a later item replaces the best one only when
    its key is strictly greater. *)
Fixpoint max_by {A} (key : A -> float) (best : A) (rest : list A) : A :=
  match rest with
  | [] => best
  | item :: rest' =>
      max_by key (if key best <? key item then item else best) rest'
  end.

Definition _select_best_candidate (db : DB) (now : Z)
    (candidates : list InitiationCandidate) : option InitiationCandidate :=
  match candidates with
  | [] => None
  | first :: rest => Some (max_by (final_score db now) first rest)
  end.

End Scheduler.

(** ** proactive_initiation.py: a run of the scheduler *)

Module SchedulerRun.
Import Proactive Scheduler.

Section Run.
(** What [_analyze_initiation_opportunities] and [_calculate_optimal_time]
    answer for a user in this run; both draw random numbers, and neither
    reads the schedule. *)
Variable candidates_of : Z -> list InitiationCandidate.
Variable time_of : Z -> Z.

(** The body of the loop of [check_and_schedule_initiations]. *)
Definition schedule_for_user (cfg : Settings) (now : Z) (db : DB)
    (uid : Z) : DB :=
  if _should_schedule_initiation cfg db uid now then
    match _select_best_candidate db now (candidates_of uid) with
    | Some best_candidate =>
        _schedule_initiation db best_candidate (time_of uid)
    | None => db
    end
  else db.

Definition check_and_schedule_initiations (cfg : Settings) (db : DB)
    (now : Z) : DB :=
  fold_left (schedule_for_user cfg now) (_get_eligible_users db now) db.

(** A row as a run that started from [db] at [now] adds it. *)
Definition scheduled_by_run (cfg : Settings) (db : DB) (now : Z)
    (row : ScheduleRow) : Prop :=
  status row = PENDING
  /\ sched_user_id row ∈ _get_eligible_users db now
  /\ _should_schedule_initiation cfg db (sched_user_id row) now = true
  /\ scheduled_at row = time_of (sched_user_id row)
  /\ exists best_candidate,
       _select_best_candidate db now (candidates_of (sched_user_id row))
       = Some best_candidate
       /\ sched_initiation_type row
          = type_value (initiation_type best_candidate).

(** The store in the middle of a run, after the users [done]: only the
    schedule differs from [db]; every row of [db] is in place; every other
    row was added by the run for a user of [done]; and no two of them are
    for the same user. *)
Definition run_state (cfg : Settings) (db : DB) (now : Z) (done : list Z)
    (current : DB) : Prop :=
  current = with_schedule db (initiation_schedule current)
  /\ (forall id row,
        initiation_schedule db !! id = Some row ->
        initiation_schedule current !! id = Some row)
  /\ (forall id row,
        initiation_schedule db !! id = None ->
        initiation_schedule current !! id = Some row ->
        sched_user_id row ∈ done /\ scheduled_by_run cfg db now row)
  /\ (forall id1 id2 row1 row2,
        initiation_schedule db !! id1 = None ->
        initiation_schedule current !! id1 = Some row1 ->
        initiation_schedule db !! id2 = None ->
        initiation_schedule current !! id2 = Some row2 ->
        sched_user_id row1 = sched_user_id row2 ->
        id1 = id2).

End Run.

End SchedulerRun.

(** ** The life of a scheduled initiation *)

Module Lifecycle.
Import Proactive Commands Scheduler.

(** The status that the dispatcher writes for an outcome. *)
Definition outcome_status (outcome : SendOutcome) : InitiationStatus :=
  match outcome with
  | Delivered _ => SENT
  | NotDelivered | Raised _ => FAILED
  end.

(** One admissible change of a schedule row: the user, the time and the
    type stay, the status stays or leaves [PENDING]. *)
Definition row_step (before after : ScheduleRow) : Prop :=
  DispatchSpec.status_step (status before) (status after)
  /\ sched_user_id after = sched_user_id before
  /\ scheduled_at after = scheduled_at before
  /\ sched_initiation_type after = sched_initiation_type before.

(** What holds of a schedule row whatever runs in between: the user, the
    time and the type stay, and a status that has left [PENDING] is never
    [PENDING] again.  A terminal status may still change: the marking
    updates carry no guard. *)
Definition row_kept (before after : ScheduleRow) : Prop :=
  sched_user_id after = sched_user_id before
  /\ scheduled_at after = scheduled_at before
  /\ sched_initiation_type after = sched_initiation_type before
  /\ (status after = PENDING -> status before = PENDING).

(** The engine between two of its steps: the store, and the rows that the
    running sweep has fetched and not yet marked. *)
Record State := {
  store : DB;
  fetched : list (Z * ScheduleRow)
}.

Definition idle (db : DB) : State := {| store := db; fetched := [] |}.

(** Everything that writes the schedule, one step per database
    transaction.  A sweep of [send_scheduled_initiations] is [Fetch], the
    query of [_get_pending_initiations], and then one [Mark] for each row
    it fetched: before each [Mark] the sweep awaits the message and the
    send, and any other step may run in between.  [Mark] carries what the
    send did and the time of the update. *)
Inductive Op :=
| Fetch (now : Z)
| Mark (outcome : SendOutcome) (now : Z)
| Respond (uid : Z) (message : string) (emotion : option string) (now : Z)
| Disable (uid : Z)
| Enable (uid : Z)
| Pause (uid pause_until : Z)
| Cleanup (now : Z)
| Schedule (candidate : InitiationCandidate) (scheduled_time : Z).

Definition on_store (f : DB -> DB) (st : State) : State :=
  {| store := f (store st); fetched := fetched st |}.

(** The sender loop starts a sweep only when the previous one has ended,
    and a sweep ends when it has marked its last row. *)
Definition run_op (str_lower : string -> string) (st : State) (op : Op)
    : State :=
  match op with
  | Fetch now =>
      match fetched st with
      | [] =>
          {| store := store st;
             fetched := _get_pending_initiations (store st) now |}
      | _ :: _ => st
      end
  | Mark outcome now =>
      match fetched st with
      | initiation :: rest =>
          {| store :=
               dispatch_one (fun _ => outcome) now (store st) initiation;
             fetched := rest |}
      | [] => st
      end
  | Respond uid message emotion now =>
      on_store
        (fun db =>
           snd (process_user_response str_lower db uid message emotion now))
        st
  | Disable uid => on_store (fun db => disable_proactivity db uid) st
  | Enable uid => on_store (fun db => enable_proactivity db uid) st
  | Pause uid pause_until =>
      on_store (fun db => set_proactivity_pause db uid pause_until) st
  | Cleanup now => on_store (fun db => cleanup_old_initiations db now) st
  | Schedule candidate scheduled_time =>
      on_store
        (fun db => _schedule_initiation db candidate scheduled_time) st
  end.

Definition run (str_lower : string -> string) (st : State) (ops : list Op)
    : State :=
  fold_left (run_op str_lower) ops st.

(** The steps of a sweep that nothing interrupts. *)
Definition whole_sweep (outcome : Z -> SendOutcome) (db : DB) (now : Z)
    : list Op :=
  Fetch now
  :: map (fun initiation => Mark (outcome (fst initiation)) now)
         (_get_pending_initiations db now).


End Lifecycle.

(** ** ltm_database.py: the history read and the injection step of
    [build_enhanced_context_with_ltm_smart] *)

Module Context.
Import Injection Proactive.

(** A message as [get_recent_history] builds it: the role, the content, and
    the primary emotion when the column holds a non-empty text.  The
    [bot_mode] column is selected and not copied. *)
Record HistoryMessage := {
  msg_role : string;
  msg_content : string;
  msg_emotion_primary : option string
}.

Definition of_user (uid : Z) (kv : Z * HistoryRow) : Prop :=
  h_user_id (snd kv) = uid.

#[global] Instance of_user_dec uid kv : Decision (of_user uid kv).
Proof. unfold of_user. apply _. Defined.

(** The rows of [ORDER BY created_at DESC LIMIT limit], then reversed. *)
Definition recent_rows (db : DB) (uid : Z) (limit : nat)
    : list (Z * HistoryRow) :=
  rev (firstn limit
         (order_by_desc (fun kv => h_created_at (snd kv))
            (map_to_list (filter (of_user uid) (history db))))).

Definition message_of_row (row : HistoryRow) : HistoryMessage :=
  {| msg_role := h_role row;
     msg_content := h_content row;
     msg_emotion_primary :=
       match emotion_primary row with
       | Some e => if Py.truthy e then Some e else None
       | None => None
       end |}.

(** A negative [LIMIT] is an error of the database; the handler answers
    the empty list. *)
Definition get_recent_history (db : DB) (uid : Z) (limit : Z)
    : list HistoryMessage :=
  if limit <? 0 then []
  else map (fun kv => message_of_row (snd kv))
           (recent_rows db uid (Z.to_nat limit)).

(** The dictionary as the injection system reads it: there is no
    ['bot_mode'] key. *)
Definition as_message (msg : HistoryMessage) : Message :=
  {| role := msg_role msg;
     content := Some (msg_content msg);
     bot_mode := None |}.

(** The history as [build_enhanced_context_with_ltm_smart] hands it to the
    injection system. *)
Definition injection_history (db : DB) (uid : Z) (limit : Z)
    : list Message :=
  map as_message (get_recent_history db uid limit).

Definition user_emotions (history : list HistoryMessage) : list string :=
  omap (fun msg =>
          if String.eqb (msg_role msg) "user" then
            match msg_emotion_primary msg with
            | Some e => if Py.truthy e then Some e else None
            | None => None
            end
          else None)
       history.

(** The content of the last assistant message, if any. *)
Definition last_assistant_msg (history : list HistoryMessage)
    : option string :=
  msg_content
    <$> head (List.filter (fun msg => String.eqb (msg_role msg) "assistant")
                          (rev history)).

(** What the injection step appends to the context. *)
Inductive InjectionOutcome :=
| Adaptive (text : string) (latency : Z)
| Fallback
| Skipped.

Section Smart.
Variable md5_hex16 : string -> string.
Variable libm_log : float -> float.
Variable str_lower : string -> string.
(** [re.search(r'^\s*[-*•]\s+', response, re.MULTILINE)] and
    [re.search(r'^\s*\d+[\.\)]\s+', response, re.MULTILINE)]. *)
Variable has_lists : string -> bool.
Variable has_numbered : string -> bool.

Definition analyze_response_for_injection (response : string) : bool :=
  let formal_count :=
    Z.of_nat (length (List.filter
                        (fun word => Py.contains word (str_lower response))
                        ["рекомендую"; "предлагаю"; "следует";
                         "необходимо"])) in
  has_lists response || has_numbered response || (2 <? formal_count).

Definition violation_type_of (history : list HistoryMessage)
    : option string :=
  match last_assistant_msg history with
  | Some last =>
      if Py.truthy last && analyze_response_for_injection last
      then Some (if has_lists last then "format_violation"
                 else "character_drift")
      else None
  | None => None
  end.

(** The adaptive branch of [build_enhanced_context_with_ltm_smart]:
    [authorized] is the answer of [check_user_auth_status],
    [personal_memories] that of [search_relevant_memories].  An exception
    of [generate_injection] is caught and the basic prompt is appended. *)
Definition smart_injection (self : AdaptiveInjectionSystem) (db : DB)
    (user_id : Z) (mode : string) (history_limit : Z) (authorized : bool)
    (personal_memories : list LtmMemory) (latency : Z)
    (s : gmap string Redis.entry)
    : InjectionOutcome * gmap string Redis.entry :=
  let history := get_recent_history db user_id history_limit in
  let emotions := user_emotions history in
  let messages := injection_history db user_id history_limit in
  let entropy := calculate_dialogue_entropy messages in
  let violation_type := violation_type_of history in
  if Py.truthy_opt violation_type || should_inject self user_id entropy s
  then
    let injection_emotion := List.last emotions "neutral" in
    let ltm_memories := if authorized then Some personal_memories else None in
    match generate_injection md5_hex16 libm_log self user_id mode
            injection_emotion messages violation_type authorized
            ltm_memories latency s
    with
    | Some (text, lat, s') => (Adaptive text lat, s')
    | None => (Fallback, s)
    end
  else (Skipped, s).

End Smart.

(** One incoming message of the bot, or the [/start] command, which resets
    the user's injection counter. *)
Inductive BotEvent :=
| Incoming (db : DB) (user_id : Z) (mode : string) (history_limit : Z)
           (authorized : bool) (personal_memories : list LtmMemory)
           (latency : Z)
| Start (user_id : Z).

Definition handle (md5_hex16 : string -> string) (libm_log : float -> float)
    (str_lower : string -> string) (has_lists has_numbered : string -> bool)
    (self : AdaptiveInjectionSystem) (s : gmap string Redis.entry)
    (event : BotEvent) : gmap string Redis.entry :=
  match event with
  | Incoming db user_id mode history_limit authorized personal_memories
             latency =>
      snd (smart_injection md5_hex16 libm_log str_lower has_lists
             has_numbered self db user_id mode history_limit authorized
             personal_memories latency s)
  | Start user_id => reset_user_counter user_id s
  end.

(** Every user's counter is in order and within the configured quota. *)
Definition within_quota (self : AdaptiveInjectionSystem)
    (s : gmap string Redis.entry) : Prop :=
  forall user_id,
    Spec.counter_ok user_id s
    /\ _get_injection_count user_id s
       <= max_injections_per_dialogue (config self).

(** Whether the first time-to-live that [generate_injection] computes for
    an unauthorized user, [int(cache_ttl * (0.3 + 0.7 * (1 - volatility)))],
    is a number, so that [int] does not raise. *)
Definition ttl_is_number (cache_ttl : Z) (volatility : float) : bool :=
  match
    Py.int_of_float
      (Py.float_of_int cache_ttl * (0.3 + 0.7 * (1 - volatility)))%float
  with
  | Some _ => true
  | None => false
  end.

(** The same for [count] consecutive settings from [first] on, at the two
    volatilities the production history can have. *)
Fixpoint ttls_are_numbers (count : nat) (first : Z) : bool :=
  match count with
  | O => true
  | S k =>
      ttl_is_number first 0.5 && ttl_is_number first 0
      && ttls_are_numbers k (first + 1)
  end.

End Context.

(** ** Sample runs *)

Module Scenario.
Import Injection Proactive.

(** The injection composed for the talk mode and joy, without a personal
    anchor. *)
Definition reminder : string :=
  "## НАПОМИНАНИЕ ## Ты — Химера. Твое оружие - живая речь. Игривость уместна.".

(** A decoding client that injects at any entropy. *)
Definition eager_client : AdaptiveInjectionSystem :=
  {| config := {| max_tokens := 65;
                  cache_ttl := 3600;
                  max_injections_per_dialogue := 2;
                  entropy_threshold := 0;
                  latency_budget_ms := 120 |};
     decode_responses := true |}.

(** No answer matches the two format patterns. *)
Definition no_match (_ : string) : bool := false.

(** Three messages of user 7, authorized, with a [/start] of user 8 in
    between. *)
Definition chat : list Context.BotEvent :=
  [ Context.Incoming ProactiveSample.one_due 7 "talk" 20 true [] 3;
    Context.Start 8;
    Context.Incoming ProactiveSample.one_due 7 "talk" 20 true [] 3;
    Context.Incoming ProactiveSample.one_due 7 "talk" 20 true [] 3 ].

(** A sweep fetches, the user opts out while the message is on its way,
    and the sweep marks the row a minute later. *)
Definition interrupted_sweep : list Lifecycle.Op :=
  [ Lifecycle.Fetch ProactiveSample.T0;
    Lifecycle.Disable 7;
    Lifecycle.Mark (Delivered "hello") (ProactiveSample.T0 + MINUTE) ].

(** The same, then the clean-up three days later, a pause, and opting in
    again. *)
Definition busy_week : list Lifecycle.Op :=
  (interrupted_sweep
   ++ [ Lifecycle.Cleanup (ProactiveSample.T0 + 3 * DAY);
        Lifecycle.Pause 7 (ProactiveSample.T0 + 4 * DAY);
        Lifecycle.Enable 7 ])%list.

(** Two authorized accounts that never opted in. *)
Definition two_newcomers : DB :=
  {| users := <[ 8 := {| is_authorized := true |} ]>
                {[ 7 := {| is_authorized := true |} ]};
     user_proactivity_settings := ∅;
     initiation_schedule := ∅;
     initiation_logs := ∅;
     history := ∅ |}.

(** User 7 wrote one hour before [T0]; nothing was ever scheduled. *)
Definition active_user : DB :=
  {| users := users ProactiveSample.one_due;
     user_proactivity_settings :=
       user_proactivity_settings ProactiveSample.one_due;
     initiation_schedule := ∅;
     initiation_logs := ∅;
     history :=
       {[ 1 := {| h_user_id := 7;
                  h_role := "user";
                  h_content := "hi";
                  emotion_primary := Some "joy";
                  h_bot_mode := "talk";
                  h_created_at := ProactiveSample.T0 - HOUR |} ]} |}.

Definition support_candidate : InitiationCandidate :=
  {| user_id := 7;
     initiation_type := SUPPORTIVE;
     priority_score := 0.9%float;
     source_memories := [];
     context_data := SupportiveContext "sadness" "declining" "empathetic";
     estimated_quality := 0.9%float;
     emotion_context := None |}.

(** A supportive candidate for a user, and the row that scheduling it one
    hour after [T0] adds for user 7. *)
Definition support_for (uid : Z) : InitiationCandidate :=
  {| user_id := uid;
     initiation_type := SUPPORTIVE;
     priority_score := 0.9%float;
     source_memories := [];
     context_data := SupportiveContext "sadness" "declining" "empathetic";
     estimated_quality := 0.9%float;
     emotion_context := None |}.

Definition support_row : ScheduleRow :=
  {| sched_user_id := 7;
     scheduled_at := ProactiveSample.T0 + HOUR;
     sched_initiation_type := "supportive";
     status := PENDING;
     sent_at := None;
     error_message := None;
     user_response_received := false |}.

End Scenario.


(** * Properties of the injection system *)

(** Two keys with different literal prefixes are different. *)
Ltac keys_differ :=
  let H := fresh "H" in
  intros H; repeat (injection H as H); discriminate.

Section PyFacts.

Lemma int_of_str_of_int (n : Z) : Py.int_of_str (Py.str_of_int n) = Some n.
Proof.
  unfold Py.int_of_str, Py.str_of_int.
  rewrite NilZero.isi.
  - simpl. by rewrite DecimalZ.of_to.
  - destruct n; simpl; try discriminate.
    intros [= H]. by apply Unsigned.to_uint_nonnil in H.
  - destruct n; simpl; try discriminate.
    intros [= H]. by apply Unsigned.to_uint_nonnil in H.
Qed.

Lemma truthy_str_of_int (n : Z) : Py.truthy (Py.str_of_int n) = true.
Proof.
  unfold Py.str_of_int.
  destruct (Z.to_int n) as [d | d]; simpl; [| reflexivity].
  unfold NilZero.string_of_uint. by destruct d.
Qed.

End PyFacts.

Section Counter.
Import Injection Spec.

Lemma count_key_not_cache (user_id : Z) (cache_key : string) :
  prefix ++ cache_key <> injection_count_key user_id.
Proof. unfold prefix, injection_count_key. keys_differ. Qed.

Lemma count_key_not_emotion (user_id other : Z) :
  last_emotion_key other <> injection_count_key user_id.
Proof. unfold last_emotion_key, injection_count_key. keys_differ. Qed.

Lemma cache_key_not_emotion (user_id : Z) (cache_key : string) :
  last_emotion_key user_id <> prefix ++ cache_key.
Proof. unfold prefix, last_emotion_key. keys_differ. Qed.

Lemma get_injection_count_ext (user_id : Z) (s s' : gmap string Redis.entry) :
  s' !! injection_count_key user_id = s !! injection_count_key user_id ->
  _get_injection_count user_id s' = _get_injection_count user_id s.
Proof. intros H. unfold _get_injection_count, Redis.get. by rewrite H. Qed.

Lemma increment_adds_one (user_id : Z) (s : gmap string Redis.entry) :
  counter_ok user_id s ->
  _get_injection_count user_id (_increment_injection_count user_id s)
  = _get_injection_count user_id s + 1.
Proof.
  unfold counter_ok, _increment_injection_count, _get_injection_count,
    Redis.incr, Redis.expire, Redis.get.
  destruct (s !! injection_count_key user_id) as [e |] eqn:He.
  - intros (n & Hv & Hlo & Hhi). rewrite Hv, int_of_str_of_int.
    assert ((Redis.int64_min <=? n) && (n <? Redis.int64_max) = true) as ->.
    { apply andb_true_intro. split; [by apply Z.leb_le | by apply Z.ltb_lt]. }
    rewrite lookup_alter_eq, lookup_insert_eq. simpl.
    by rewrite Hv, !truthy_str_of_int, !int_of_str_of_int.
  - intros _. rewrite lookup_alter_eq, lookup_insert_eq. simpl.
    reflexivity.
Qed.

Lemma cache_injection_other (lg : float -> float) (cache_key injection : string)
    (t act : Z) (s : gmap string Redis.entry) (key : string) :
  key <> prefix ++ cache_key ->
  cache_injection lg cache_key injection t act s !! key = s !! key.
Proof.
  intros Hne. unfold cache_injection, Redis.setex.
  destruct (_ <? _); [| done].
  destruct (Py.int_of_float _) as [d |]; [| done].
  destruct (Redis.accepts_expiry d); [| done].
  by rewrite lookup_insert_ne.
Qed.
(** The counter is in order on a store without the key, in particular after
    [reset_user_counter]. *)
Lemma counter_ok_after_reset (user_id : Z) (s : gmap string Redis.entry) :
  counter_ok user_id (reset_user_counter user_id s)
  /\ _get_injection_count user_id (reset_user_counter user_id s) = 0.
Proof.
  unfold counter_ok, reset_user_counter, _get_injection_count, Redis.del,
    Redis.get.
  by rewrite lookup_delete_eq.
Qed.
End Counter.

Section Claims.
Import Injection Spec.
Variable md5_hex16 : string -> string.
Variable libm_log : float -> float.

Lemma get_cached_truthy self key s c :
  get_cached_injection self key s = Some c -> Py.truthy c = true.
Proof.
  unfold get_cached_injection.
  destruct (Redis.get _ s) as [v |]; [| done].
  destruct (Py.truthy v) eqn:Hv; [| done].
  destruct (decode_responses self); [done |]. by intros [= <-].
Qed.

Lemma cached_path_iff self user_id mode emotion user_history violation_type
    is_authorized s :
  Py.truthy_opt
    (get_cached_injection self
       (_generate_cache_key md5_hex16 user_id mode emotion violation_type) s)
  && negb is_authorized
  && negb (should_ignore_cache self user_id emotion user_history
             violation_type (calculate_style_volatility user_history) s)
  = true
  <-> returns_cached md5_hex16 self user_id mode emotion user_history
        violation_type is_authorized s.
Proof.
  unfold returns_cached.
  destruct (get_cached_injection _ _ _) as [c |] eqn:Hc; simpl.
  - rewrite (get_cached_truthy _ _ _ _ Hc). simpl.
    destruct is_authorized, (should_ignore_cache _ _ _ _ _ _ _); simpl;
      split; try done; try (intros (? & ? & ?); done).
  - split; [done |]. intros (_ & [? ?] & _). done.
Qed.

Lemma counter_ok_ext user_id (s s' : gmap string Redis.entry) :
  s' !! injection_count_key user_id = s !! injection_count_key user_id ->
  counter_ok user_id s -> counter_ok user_id s'.
Proof. unfold counter_ok. by intros ->. Qed.

(** C1.  A call of [generate_injection] that answers from the cache (the
    user is unauthorized, a cached value exists for the key, no
    invalidation trigger fired) leaves the store, and with it the per-user
    injection counter, unchanged; every call that composes an injection and
    returns has raised the counter by exactly one, whether the user is
    authorized or not.  The counter is read as the engine reads it; the
    key holds nothing or a numeral that [INCR] accepts. *)
Theorem generate_injection_counter self user_id mode emotion user_history
    violation_type is_authorized ltm_memories latency s text lat s' :
  counter_ok user_id s ->
  generate_injection md5_hex16 libm_log self user_id mode emotion
    user_history violation_type is_authorized ltm_memories latency s
  = Some (text, lat, s') ->
  (returns_cached md5_hex16 self user_id mode emotion user_history
     violation_type is_authorized s ->
   s' = s
   /\ _get_injection_count user_id s' = _get_injection_count user_id s)
  /\ (~ returns_cached md5_hex16 self user_id mode emotion user_history
        violation_type is_authorized s ->
      _get_injection_count user_id s'
      = _get_injection_count user_id s + 1).
Proof.
  intros Hok. unfold generate_injection.
  destruct (_ && _ && _) eqn:Hpath.
  - intros [= _ _ <-]. split; [done |].
    intros Hn. by apply cached_path_iff in Hpath.
  - destruct (select_components _ _ _ _ _ _ _ _) as [components tokens].
    intros Hrun. split.
    { intros Hc. apply cached_path_iff in Hc. congruence. }
    intros _.
    destruct is_authorized; simpl in Hrun.
    + injection Hrun as _ _ <-. by apply increment_adds_one.
    + destruct (Py.int_of_float _) as [dynamic_ttl |]; [| done].
      injection Hrun as _ _ <-.
      set (s2 := <[_ := _]> _).
      assert (s2 !! injection_count_key user_id
              = s !! injection_count_key user_id) as Hsame.
      { unfold s2. rewrite lookup_insert_ne by apply count_key_not_emotion.
        apply cache_injection_other. intros E. symmetry in E.
        by apply count_key_not_cache in E. }
      rewrite increment_adds_one by (by eapply counter_ok_ext).
      f_equal. by apply get_injection_count_ext.
Qed.
End Claims.

Lemma generate_injection_counter_witness :
  (* a cached value for the bucket of user 7: the call returns it *)
  (Spec.returns_cached id Sample.bytes_client 7 "talk" "joy" Sample.calm_history None
     false Sample.cached_store
   /\ Injection._get_injection_count 7 Sample.cached_store
      = Injection._get_injection_count 7 Sample.cached_store)
  (* an authorized user composes: the counter goes from 0 to 1 *)
  /\ Injection._get_injection_count 7 Sample.counted_store
     = Injection._get_injection_count 7 ∅ + 1.
Proof.
  assert (Spec.returns_cached id Sample.bytes_client 7 "talk" "joy" Sample.calm_history
            None false Sample.cached_store) as Hhit.
  { split; [reflexivity |].
    split; [exists "cached text" |]; vm_compute; reflexivity. }
  split; [split; [exact Hhit |] |].
  - refine (proj2 (proj1 (generate_injection_counter id id Sample.bytes_client 7
                            "talk" "joy" Sample.calm_history None false None 3
                            Sample.cached_store "cached text" 3 Sample.cached_store
                            _ _) Hhit)).
    + vm_compute. exact I.
    + vm_compute. reflexivity.
  - refine (proj2 (generate_injection_counter id id Sample.bytes_client 7 "talk"
                     "joy" Sample.calm_history None true None 3 ∅
                     "## НАПОМИНАНИЕ ## Ты — Химера. Твое оружие - живая речь. Игривость уместна."
                     3 Sample.counted_store _ _) _).
    + vm_compute. exact I.
    + vm_compute. reflexivity.
    + intros (Hauth & _). discriminate Hauth.
Defined.

Section Budget.
Import Injection Spec.

(** Name the texts of the components, so that only the control flow of
    [select_components] is left to analyse. *)
Ltac name_texts :=
  unfold select_components;
  repeat match goal with
         | |- context [default ?d (CORE_TEMPLATES ?v)] =>
             generalize (default d (CORE_TEMPLATES v)); intro
         | |- context [default ?d (MODE_BOOSTERS ?m)] =>
             generalize (default d (MODE_BOOSTERS m)); intro
         | |- context [default ?d (EMOTION_MODS ?e)] =>
             generalize (default d (EMOTION_MODS e)); intro
         | |- context [get_ltm_anchor ?u ?l] =>
             generalize (get_ltm_anchor u l); intro
         | |- context [vector_to_micro_prompt ?v] =>
             generalize (vector_to_micro_prompt v); intro
         | |- context [max_tokens ?c] => generalize dependent (max_tokens c); intro
         end.

Ltac split_budget :=
  repeat (case_match; simplify_eq);
  repeat match goal with
         | H : (_ <=? _) = true |- _ => apply Z.leb_le in H
         | H : (_ <=? _) = false |- _ => apply Z.leb_gt in H
         end.

Lemma select_components_tokens_used self user_id mode emotion user_history
    violation_type is_authorized ltm_memories :
  total_cost (fst (select_components self user_id mode emotion user_history
                     violation_type is_authorized ltm_memories))
  = snd (select_components self user_id mode emotion user_history
           violation_type is_authorized ltm_memories).
Proof. name_texts. split_budget; reflexivity. Qed.

Lemma select_components_sorted self user_id mode emotion user_history
    violation_type is_authorized ltm_memories :
  sort_components (fst (select_components self user_id mode emotion
                          user_history violation_type is_authorized
                          ltm_memories))
  = fst (select_components self user_id mode emotion user_history
           violation_type is_authorized ltm_memories).
Proof. name_texts. split_budget; reflexivity. Qed.

(** C2, amended.  The core component is admitted without a budget check, so
    the bound needs a budget of at least its 15 tokens: then, for every
    mode, emotion, authorization flag, violation type, history and LTM
    input, the fixed costs of the included components sum to at most
    [max_tokens], and the components stand in the order of their
    priorities. *)
Theorem select_components_within_budget self user_id mode emotion
    user_history violation_type is_authorized ltm_memories :
  15 <= max_tokens (config self) ->
  total_cost (fst (select_components self user_id mode emotion user_history
                     violation_type is_authorized ltm_memories))
  <= max_tokens (config self)
  /\ sort_components (fst (select_components self user_id mode emotion
                             user_history violation_type is_authorized
                             ltm_memories))
     = fst (select_components self user_id mode emotion user_history
              violation_type is_authorized ltm_memories).
Proof.
  intros Hcore. split; [| apply select_components_sorted].
  revert Hcore. rewrite select_components_tokens_used. name_texts.
  intros Hcore. split_budget; cbn [snd]; lia.
Qed.
End Budget.

Section Quota.
Import Injection Spec.

(** C5.  [should_inject] answers false whenever the persistent counter has
    reached the configured maximum, whatever the entropy, and also when the
    counter is below the maximum but the entropy is below the threshold. *)
Theorem should_inject_gates self user_id dialogue_entropy s :
  (max_injections_per_dialogue (config self) <= _get_injection_count user_id s
   -> should_inject self user_id dialogue_entropy s = false)
  /\ (_get_injection_count user_id s < max_injections_per_dialogue (config self)
      -> (dialogue_entropy <? entropy_threshold (config self))%float = true
      -> should_inject self user_id dialogue_entropy s = false).
Proof.
  unfold should_inject. split.
  - intros Hfull. by apply Z.leb_le in Hfull as ->.
  - intros Hroom Hlow. apply Z.leb_gt in Hroom as ->. by rewrite Hlow.
Qed.

Lemma should_inject_gates_witness :
  Injection.should_inject Sample.decoding_client 7 0.95%float
    Sample.quota_reached_store = false
  /\ Injection.should_inject Sample.decoding_client 7 0.5%float ∅ = false.
Proof.
  split.
  - apply (proj1 (should_inject_gates Sample.decoding_client 7 0.95%float
                    Sample.quota_reached_store)).
    vm_compute. discriminate.
  - apply (proj2 (should_inject_gates Sample.decoding_client 7 0.5%float ∅)).
    + vm_compute. reflexivity.
    + vm_compute. reflexivity.
Defined.
End Quota.

Section Volatility.
Import Injection Spec VolatilitySpec.
Local Open Scope float_scope.
Variable np : Np.Reductions.

Lemma last_n_last_ten (history : list Message) :
  Py.last_n 10 history = last_ten history.
Proof.
  unfold Py.last_n, last_ten. by rewrite firstn_rev, rev_involutive.
Qed.

(** A window of one record encodes to the weighted style of its mode. *)
Lemma encode_window (msg : Message) :
  encode_user_style [msg] = window_vector msg.
Proof.
  unfold encode_user_style, window_vector, style_of_mode, mode_is.
  change (Py.last_n 10 [msg]) with [msg]. cbn [fold_left].
  destruct (bot_mode msg) as [m |]; [| vm_compute; reflexivity].
  destruct (String.eqb m "talk"); [vm_compute; reflexivity |].
  destruct (String.eqb m "expert"); [vm_compute; reflexivity |].
  destruct (String.eqb m "writer"); vm_compute; reflexivity.
Qed.

Lemma user_turn_vectors_spec (history : list Message) :
  user_turn_vectors history = turn_vectors (last_ten history).
Proof.
  unfold user_turn_vectors. rewrite last_n_last_ten.
  induction (last_ten history) as [| msg rest IH]; [reflexivity |].
  rewrite filter_cons. cbn [turn_vectors].
  destruct (decide (String.eqb (role msg) "user" = true)) as [Hu | Hu].
  - rewrite Hu, map_cons, IH. by rewrite encode_window.
  - apply not_true_is_false in Hu. by rewrite Hu.
Qed.

Lemma distances_consecutive (vectors : list (list float)) :
  map (VectorAnchorSystem.distance_at np vectors)
      (seq 0 (length vectors - 1))
  = consecutive_distances np vectors.
Proof.
  induction vectors as [| a rest IH]; [reflexivity |].
  destruct rest as [| b rest']; [reflexivity |].
  replace (length (a :: b :: rest') - 1)%nat with (S (length rest'))
    by (simpl; lia).
  replace (length (b :: rest') - 1)%nat with (length rest') in IH
    by (simpl; lia).
  rewrite <- cons_seq, <- seq_shift, map_cons, map_map.
  change (consecutive_distances np (a :: b :: rest'))
    with (cosine_distance np a b :: consecutive_distances np (b :: rest')).
  rewrite <- IH. reflexivity.
Qed.

Lemma clip_unit_range (x : float) :
  (Np.clip x 0 1 <? 0) = false /\ (1 <? Np.clip x 0 1) = false.
Proof.
  unfold Np.clip.
  destruct (x <? 0) eqn:Hlo; [by split |].
  destruct (1 <? x) eqn:Hhi; [by split |].
  by split.
Qed.

(** C6.  Whatever the rounding of NumPy's reductions: a history of fewer
    than 5 records has volatility 0.5 exactly; so has a longer one whose
    last ten records hold fewer than 2 user turns; otherwise the
    volatility is the standard deviation of the cosine distances between
    the vectors of consecutive user turns, each vector encoded from the
    window of that one record, times 2 and clipped, so never below 0 nor
    above 1.  The method of the injection system is the instance that adds
    from left to right. *)
Theorem calculate_style_volatility_cases (user_history : list Message) :
  ((length user_history < 5)%nat ->
   VectorAnchorSystem.calculate_style_volatility np user_history = 0.5)
  /\ ((5 <= length user_history)%nat ->
      (length (turn_vectors (last_ten user_history)) < 2)%nat ->
      VectorAnchorSystem.calculate_style_volatility np user_history = 0.5)
  /\ ((5 <= length user_history)%nat ->
      (2 <= length (turn_vectors (last_ten user_history)))%nat ->
      VectorAnchorSystem.calculate_style_volatility np user_history
      = Np.clip
          (Np.std_of np
             (consecutive_distances np
                (turn_vectors (last_ten user_history))) * 2) 0 1)
  /\ (VectorAnchorSystem.calculate_style_volatility np user_history <? 0)
     = false
  /\ (1 <? VectorAnchorSystem.calculate_style_volatility np user_history)
     = false
  /\ calculate_style_volatility user_history
     = VectorAnchorSystem.calculate_style_volatility Np.left_to_right
         user_history.
Proof.
  split; [| split; [| split; [| split; [| split]]]]; try reflexivity;
    unfold VectorAnchorSystem.calculate_style_volatility;
    rewrite distances_consecutive, user_turn_vectors_spec;
    destruct (Nat.ltb_spec (length user_history) 5) as [Hshort | Hlong];
    try done; try (intros; lia);
    destruct (Nat.ltb_spec (length (turn_vectors (last_ten user_history))) 2)
      as [Hfew | Hmany];
    try done; try (intros; lia);
    destruct (turn_vectors (last_ten user_history)) as [| a [| b rest]];
    simpl in Hmany; try lia; cbn [consecutive_distances];
    try apply clip_unit_range; done.
Qed.
End Volatility.

(** Three user turns in three modes: two different distances, and a
    volatility of about 0.0713 when the reductions add from left to
    right. *)
Lemma shifting_history_volatility :
  VolatilitySpec.turn_vectors
    (VolatilitySpec.last_ten Sample.shifting_history)
  = [ [0.080000000000000016; 0.020000000000000004; 0.059999999999999998;
       0.090000000000000011];
      [0.029999999999999999; 0.090000000000000011; 0.040000000000000008;
       0.020000000000000004];
      [0.050000000000000003; 0.040000000000000008; 0.029999999999999999;
       0.095000000000000001] ]%float
  /\ (0.0713 <? Injection.calculate_style_volatility Sample.shifting_history
       )%float = true
  /\ (Injection.calculate_style_volatility Sample.shifting_history <? 0.0714
       )%float = true.
Proof. repeat split; vm_compute; reflexivity. Qed.

Lemma calculate_style_volatility_cases_witness :
  VectorAnchorSystem.calculate_style_volatility Np.left_to_right
    Sample.shifting_history
  = Np.clip
      (Np.std_of Np.left_to_right
         (VolatilitySpec.consecutive_distances Np.left_to_right
            (VolatilitySpec.turn_vectors
               (VolatilitySpec.last_ten Sample.shifting_history))) * 2)
      0 1.
Proof.
  apply (proj1 (proj2 (proj2 (calculate_style_volatility_cases
                                Np.left_to_right Sample.shifting_history)))).
  - simpl. lia.
  - vm_compute. lia.
Defined.


Section CacheTtl.
Import Injection Spec.
Variable md5_hex16 : string -> string.
Variable libm_log : float -> float.

Lemma increment_other (user_id : Z) (key : string)
    (s : gmap string Redis.entry) :
  key <> injection_count_key user_id ->
  _increment_injection_count user_id s !! key = s !! key.
Proof.
  intros Hne. unfold _increment_injection_count, Redis.incr, Redis.expire.
  destruct (s !! injection_count_key user_id) as [e |].
  - destruct (Py.int_of_str _) as [n |]; [| done].
    destruct (_ && _); [| done].
    by rewrite lookup_alter_ne, lookup_insert_ne.
  - by rewrite lookup_alter_ne, lookup_insert_ne.
Qed.


End CacheTtl.

Section Totality.
Import Injection Spec.
Variable md5_hex16 : string -> string.
Variable libm_log : float -> float.

(** A decoding client never reads the cache: every read fails on
    [cached.decode]. *)
Lemma decoding_client_never_hits self cache_key s :
  decode_responses self = true ->
  get_cached_injection self cache_key s = None.
Proof.
  intros Hdec. unfold get_cached_injection. rewrite Hdec.
  destruct (Redis.get _ s) as [cached |]; [| done]. by destruct (Py.truthy _).
Qed.

(** A bytes client ignores the cache as soon as a last emotion is on
    record for the user, whatever the emotion. *)
Lemma bytes_client_emotion_trigger self user_id emotion user_history
    violation_type volatility s e :
  decode_responses self = false ->
  Redis.get (last_emotion_key user_id) s = Some e ->
  Py.truthy e = true ->
  should_ignore_cache self user_id emotion user_history violation_type
    volatility s = true.
Proof.
  intros Hdec He Ht. unfold should_ignore_cache. by rewrite He, Ht, Hdec.
Qed.

(** For an authorized user the call always returns. *)
Lemma generate_injection_authorized_returns self user_id mode emotion
    user_history violation_type ltm_memories latency s :
  is_Some (generate_injection md5_hex16 libm_log self user_id mode emotion
             user_history violation_type true ltm_memories latency s).
Proof.
  unfold generate_injection. rewrite andb_false_r. cbn [andb negb].
  by destruct (select_components _ _ _ _ _ _ _ _).
Qed.

(** For an unauthorized user it returns whenever the first time-to-live is
    a finite number. *)
Lemma generate_injection_unauthorized_returns self user_id mode emotion
    user_history violation_type ltm_memories latency s :
  is_Some (Py.int_of_float
             (Py.float_of_int (cache_ttl (config self))
              * (0.3 + 0.7 * (1 - calculate_style_volatility user_history))))
  ->
  is_Some (generate_injection md5_hex16 libm_log self user_id mode emotion
             user_history violation_type false ltm_memories latency s).
Proof.
  intros [dynamic_ttl Httl]. unfold generate_injection.
  destruct (_ && _ && _); [done |].
  destruct (select_components _ _ _ _ _ _ _ _).
  cbn [negb]. by rewrite Httl.
Qed.
End Totality.


(** A base of 10^16 seconds passes both conversions, but Redis answers
    "invalid expire time": the call returns its text and no cache entry
    exists afterwards.  A base of 0 seconds gives the expiry 0, which Redis
    refuses as well. *)
Lemma refused_expiry_not_cached :
  Spec.call_ttl id Sample.everlasting_client 7 Sample.calm_history ∅
  = Some (10 ^ 16)
  /\ (fun r => snd r !! "himera:injections:7:talk:joy")
       <$> Injection.generate_injection id id Sample.everlasting_client 7
             "talk" "joy" Sample.calm_history None false None 3 ∅
     = Some None
  /\ Spec.call_ttl id Sample.no_cache_client 7 Sample.calm_history ∅
     = Some 0
  /\ (fun r => snd r !! "himera:injections:7:talk:joy")
       <$> Injection.generate_injection id id Sample.no_cache_client 7
             "talk" "joy" Sample.calm_history None false None 3 ∅
     = Some None.
Proof. repeat split; vm_compute; reflexivity. Qed.


(** In binary64 the factor for volatility 0.5 is 0.3 + 0.35 =
    0.6499999999999999, so a history of fewer than 5 records gives 2339
    seconds from the default 3600, one below the exact product. *)
Lemma short_history_ttl :
  Spec.written_ttl id (Injection.cache_ttl Injection.default_config)
    (Injection.calculate_style_volatility []) 1
  = Some 2339.
Proof. vm_compute. reflexivity. Qed.

(** C2 as stated fails: with a configured budget of 10 tokens the core alone
    costs 15. *)
Lemma select_components_over_budget :
  Injection.max_tokens (Injection.config Sample.tiny_budget_client)
  < Spec.total_cost
      (fst (Injection.select_components Sample.tiny_budget_client 7 "talk"
              "joy" [] None false None)).
Proof. vm_compute. reflexivity. Qed.

Lemma select_components_within_budget_witness :
  Spec.total_cost
    (fst (Injection.select_components Sample.decoding_client 7 "talk" "joy"
            [] None true None))
  <= 65.
Proof.
  refine (proj1 (select_components_within_budget Sample.decoding_client 7
                   "talk" "joy" [] None true None _)).
  vm_compute. discriminate.
Defined.

(** * Properties of the proactive engine *)

Section Eligibility.
Import Proactive.

Lemma eligible_row_spec db now user_id ups :
  eligible_row db now user_id ups = true
  <-> exists u,
        users db !! user_id = Some u
        /\ is_enabled ups = true
        /\ (paused_until ups = None
            \/ exists t, paused_until ups = Some t /\ t < now)
        /\ is_authorized u = true
        /\ ab_test_group ups = Some "A".
Proof.
  unfold eligible_row. split.
  - destruct (users db !! user_id) as [u |]; [| done].
    intros H. repeat (apply andb_prop in H as [H ?]).
    exists u. repeat split; try done.
    + destruct (paused_until ups) as [t |]; [| by left].
      right. exists t. split; [done |]. by apply Z.ltb_lt.
    + destruct (ab_test_group ups) as [g |]; [| done].
      f_equal. by apply String.eqb_eq.
  - intros (u & -> & -> & Hpause & -> & ->).
    destruct Hpause as [-> | (t & -> & Ht)]; [done |].
    apply Z.ltb_lt in Ht. by rewrite Ht.
Qed.

(** C10.  The eligible-user query returns exactly the users whose settings
    row is enabled, with a pause that is unset or expired, whose account is
    authorized and whose A/B test group is 'A'; an unauthorized user, or one
    of another group, is never returned. *)
Theorem eligible_users_spec db now user_id :
  (user_id ∈ _get_eligible_users db now
   <-> exists ups u,
         user_proactivity_settings db !! user_id = Some ups
         /\ users db !! user_id = Some u
         /\ is_enabled ups = true
         /\ (paused_until ups = None
             \/ exists t, paused_until ups = Some t /\ t < now)
         /\ is_authorized u = true
         /\ ab_test_group ups = Some "A")
  /\ (forall u, users db !! user_id = Some u -> is_authorized u = false ->
      user_id ∉ _get_eligible_users db now)
  /\ (forall ups, user_proactivity_settings db !! user_id = Some ups ->
      ab_test_group ups <> Some "A" ->
      user_id ∉ _get_eligible_users db now).
Proof.
  assert (user_id ∈ _get_eligible_users db now
          <-> exists ups u,
                user_proactivity_settings db !! user_id = Some ups
                /\ users db !! user_id = Some u
                /\ is_enabled ups = true
                /\ (paused_until ups = None
                    \/ exists t, paused_until ups = Some t /\ t < now)
                /\ is_authorized u = true
                /\ ab_test_group ups = Some "A") as Hiff.
  { unfold _get_eligible_users. rewrite list_elem_of_fmap. split.
    - intros ([k ups] & -> & Hin).
      apply elem_of_map_to_list, map_lookup_filter_Some in Hin as [Hups Hrow].
      apply eligible_row_spec in Hrow as (u & ?). by exists ups, u.
    - intros (ups & u & Hups & Hrest). exists (user_id, ups).
      split; [done |].
      apply elem_of_map_to_list, map_lookup_filter_Some. split; [done |].
      apply eligible_row_spec. by exists u. }
  split; [exact Hiff |]. split.
  - intros u Hu Hno Hin. apply Hiff in Hin as (_ & u' & _ & Hu' & _ & _ & Hyes & _).
    congruence.
  - intros ups Hups Hgroup Hin.
    apply Hiff in Hin as (ups' & _ & Hups' & _ & _ & _ & _ & Ha). congruence.
Qed.
End Eligibility.

Section Silence.
Import Proactive.

(** C4.  When the answered messages are not shorter on average than the
    minimum and fewer than 3 of the last emotions are stress emotions, the
    silence check is false at [SILENCE_AFTER_IGNORED_COUNT - 1] unanswered
    initiations in the trailing 7 days and true at
    [SILENCE_AFTER_IGNORED_COUNT]. *)
Theorem silence_mode_boundary cfg db user_id now :
  (forall avg, avg_length db user_id now = Some avg ->
     (inject_Z (SILENCE_MIN_RESPONSE_LENGTH cfg) <= avg)%Q) ->
  stress_count db user_id now < 3 ->
  (ignored_count db user_id now = SILENCE_AFTER_IGNORED_COUNT cfg - 1 ->
   _is_in_silence_mode cfg db user_id now = false)
  /\ (ignored_count db user_id now = SILENCE_AFTER_IGNORED_COUNT cfg ->
      _is_in_silence_mode cfg db user_id now = true).
Proof.
  intros Hlong Hcalm. unfold _is_in_silence_mode. split; intros Hcount.
  - assert ((SILENCE_AFTER_IGNORED_COUNT cfg <=? ignored_count db user_id now)
            = false) as -> by (apply Z.leb_gt; lia).
    assert ((3 <=? stress_count db user_id now) = false) as ->
      by (by apply Z.leb_gt).
    destruct (avg_length db user_id now) as [avg |]; [| done].
    specialize (Hlong avg eq_refl). apply Qle_bool_iff in Hlong.
    unfold Qltb. rewrite Hlong. by rewrite andb_false_r.
  - assert ((SILENCE_AFTER_IGNORED_COUNT cfg <=? ignored_count db user_id now)
            = true) as -> by (apply Z.leb_le; lia).
    done.
Qed.
End Silence.

Lemma silence_mode_boundary_witness :
  Proactive._is_in_silence_mode Proactive.default_settings
    ProactiveSample.one_ignored 7 (ProactiveSample.T0 + Proactive.HOUR)
  = false
  /\ Proactive._is_in_silence_mode Proactive.default_settings
       ProactiveSample.two_ignored 7 (ProactiveSample.T0 + Proactive.HOUR)
     = true.
Proof.
  split.
  - refine (proj1 (silence_mode_boundary Proactive.default_settings
                     ProactiveSample.one_ignored 7
                     (ProactiveSample.T0 + Proactive.HOUR) _ _) _).
    + intros avg Havg. vm_compute in Havg. injection Havg as <-.
      vm_compute. discriminate.
    + vm_compute. reflexivity.
    + vm_compute. reflexivity.
  - refine (proj2 (silence_mode_boundary Proactive.default_settings
                     ProactiveSample.two_ignored 7
                     (ProactiveSample.T0 + Proactive.HOUR) _ _) _).
    + intros avg Havg. vm_compute in Havg. injection Havg as <-.
      vm_compute. discriminate.
    + vm_compute. reflexivity.
    + vm_compute. reflexivity.
Defined.

Section Miner.
Import Proactive MinerSpec.
Local Open Scope float_scope.
Variable str_lower : string -> string.
Variable _extract_main_topic : string -> string.

Lemma continuation_quality_worded (memory : Memory) (now : Z) :
  continuation_quality memory (days_since now (created_at memory))
  = quality_at now memory.
Proof.
  unfold continuation_quality, quality_at, worded_quality, is_auto_saved,
    importance_of.
  by destruct (memory_type memory).
Qed.

Lemma continuation_candidate_Some cfg uid now memory c :
  continuation_candidate str_lower _extract_main_topic cfg uid now memory
  = Some c
  <-> is_open_ended str_lower memory = true
      /\ (INITIATION_MIN_QUALITY_SCORE cfg <=? quality_at now memory) = true
      /\ c = {| user_id := uid;
                initiation_type := CONTINUATION;
                priority_score := quality_at now memory;
                source_memories := [memory];
                context_data :=
                  ContinuationContext
                    (_extract_main_topic (default "" (user_message memory)))
                    (default "" (user_message memory))
                    (days_since now (created_at memory));
                estimated_quality := quality_at now memory;
                emotion_context := None |}.
Proof.
  unfold continuation_candidate. rewrite continuation_quality_worded.
  destruct (is_open_ended str_lower memory);
    [| split; [done | by intros (? & _)]].
  destruct (_ <=? _); [| split; [done | by intros (_ & ? & _)]].
  split; [by intros [= <-] | by intros (_ & _ & ->)].
Qed.

(** C7.  Every candidate of continuation mining comes from an open-ended
    memory among the first ten and carries the worded quality: importance
    over ten, times 0.7 when the memory is more than 3 whole days old, times
    1.2 when it is auto-saved, at most 1; a memory is kept exactly when that
    quality reaches the threshold.  For importance 8 at 5 days the quality
    is the binary64 product 0.8 * 0.7 (0.56 up to rounding), below 0.6, and
    the candidate is discarded. *)
Theorem continuation_mining_quality cfg uid memories now :
  (forall c,
     c ∈ _find_continuation_opportunities str_lower _extract_main_topic cfg
           uid memories now ->
     exists memory,
       memory ∈ firstn 10 memories
       /\ is_open_ended str_lower memory = true
       /\ source_memories c = [memory]
       /\ estimated_quality c = quality_at now memory
       /\ priority_score c = quality_at now memory
       /\ (INITIATION_MIN_QUALITY_SCORE cfg <=? estimated_quality c) = true)
  /\ (forall memory,
        memory ∈ firstn 10 memories ->
        is_open_ended str_lower memory = true ->
        (INITIATION_MIN_QUALITY_SCORE cfg <=? quality_at now memory) = true ->
        exists c,
          c ∈ _find_continuation_opportunities str_lower _extract_main_topic
                cfg uid memories now
          /\ source_memories c = [memory]
          /\ estimated_quality c = quality_at now memory)
  /\ (forall memory c,
        (INITIATION_MIN_QUALITY_SCORE cfg <=? quality_at now memory) = false ->
        c ∈ _find_continuation_opportunities str_lower _extract_main_topic
              cfg uid memories now ->
        source_memories c = [memory] -> False)
  /\ (worded_quality 8 5 false = 0.8 * 0.7
      /\ (abs (worded_quality 8 5 false - 0.56) <? 1e-15) = true
      /\ (0.6 <=? worded_quality 8 5 false) = false)
  /\ (forall memory,
        is_open_ended str_lower memory = true ->
        importance_score memory = Some 8%Z ->
        is_auto_saved memory = false ->
        days_since now (created_at memory) = 5%Z ->
        INITIATION_MIN_QUALITY_SCORE cfg = 0.6 ->
        _find_continuation_opportunities str_lower _extract_main_topic cfg uid
          [memory] now = []).
Proof.
  unfold _find_continuation_opportunities.
  assert (forall c,
            c ∈ omap (continuation_candidate str_lower _extract_main_topic cfg
                        uid now) (firstn 10 memories) ->
            exists memory,
              memory ∈ firstn 10 memories
              /\ is_open_ended str_lower memory = true
              /\ source_memories c = [memory]
              /\ estimated_quality c = quality_at now memory
              /\ priority_score c = quality_at now memory
              /\ (INITIATION_MIN_QUALITY_SCORE cfg <=? estimated_quality c)
                 = true) as Hsound.
  { intros c Hc. apply list_elem_of_omap in Hc as (memory & Hin & Hc).
    apply continuation_candidate_Some in Hc as (Hopen & Hpass & ->).
    exists memory. by repeat split. }
  split; [exact Hsound |]. split; [| split; [| split]].
  - intros memory Hin Hopen Hpass. eexists. split.
    + apply list_elem_of_omap. exists memory. split; [done |].
      apply continuation_candidate_Some. by repeat split.
    + by split.
  - intros memory c Hlow Hc Hsrc.
    apply Hsound in Hc as (memory' & _ & _ & Hsrc' & Hq & _ & Hpass).
    rewrite Hsrc in Hsrc'. injection Hsrc' as <-. congruence.
  - repeat split; vm_compute; reflexivity.
  - intros memory Hopen Himp Hauto Hdays Hthr. cbn [firstn omap list_omap].
    unfold continuation_candidate.
    rewrite Hopen, continuation_quality_worded. unfold quality_at.
    unfold importance_of. rewrite Himp, Hauto, Hdays, Hthr. reflexivity.
Qed.
End Miner.

Lemma continuation_mining_quality_witness :
  Proactive._find_continuation_opportunities id id Proactive.default_settings
    7 [ProactiveSample.old_question] ProactiveSample.T0
  = [].
Proof.
  apply (proj2 (proj2 (proj2 (proj2
           (continuation_mining_quality id id Proactive.default_settings 7
              [ProactiveSample.old_question] ProactiveSample.T0))))).
  - vm_compute. reflexivity.
  - reflexivity.
  - reflexivity.
  - vm_compute. reflexivity.
  - reflexivity.
Defined.

Section Correlator.
Import Proactive.
Variable str_lower : string -> string.

Lemma twelve_minutes (created : Z) :
  response_minutes (created + 12 * MINUTE) created = Some 12.
Proof.
  unfold response_minutes.
  replace (created + 12 * MINUTE - created) with 720000000
    by (unfold MINUTE; lia).
  vm_compute. reflexivity.
Qed.

Lemma latest_of_single db user_id now log_id entry :
  filter (unresponded_recent user_id now) (initiation_logs db)
  = {[ log_id := entry ]} ->
  latest_unresponded db user_id now = Some (log_id, entry).
Proof.
  intros Hone. unfold latest_unresponded.
  by rewrite Hone, map_to_list_singleton.
Qed.

Lemma latest_of_none db user_id now :
  filter (unresponded_recent user_id now) (initiation_logs db) = ∅ ->
  latest_unresponded db user_id now = None.
Proof.
  intros Hnone. unfold latest_unresponded.
  by rewrite Hnone, map_to_list_empty.
Qed.

(** C8.  With exactly one unanswered log entry of the user in the last 24
    hours, a call 12 minutes after its creation answers true, marks the
    entry responded with [response_time_minutes] 12 and flags the linked
    schedule row; a second call one minute later answers false and leaves
    every row as it was. *)
Theorem process_user_response_correlates db user_id message emotion now
    log_id entry message' emotion' :
  filter (unresponded_recent user_id now) (initiation_logs db)
  = {[ log_id := entry ]} ->
  now = log_created_at entry + 12 * MINUTE ->
  fst (process_user_response str_lower db user_id message emotion now) = true
  /\ (exists entry',
        initiation_logs
          (snd (process_user_response str_lower db user_id message emotion
                  now)) !! log_id = Some entry'
        /\ user_responded entry' = true
        /\ response_time_minutes entry' = Some 12)
  /\ (forall iid row,
        initiation_id entry = Some iid -> iid <> 0 ->
        initiation_schedule db !! iid = Some row ->
        exists row',
          initiation_schedule
            (snd (process_user_response str_lower db user_id message emotion
                    now)) !! iid = Some row'
          /\ user_response_received row' = true
          /\ status row' = status row)
  /\ process_user_response str_lower
       (snd (process_user_response str_lower db user_id message emotion now))
       user_id message' emotion' (now + MINUTE)
     = (false,
        snd (process_user_response str_lower db user_id message emotion now)).
Proof.
  intros Hone ->.
  destruct (process_user_response str_lower db user_id message emotion _)
    as [answered db1] eqn:Hrun.
  unfold process_user_response in Hrun.
  rewrite (latest_of_single _ _ _ _ _ Hone), twelve_minutes in Hrun.
  injection Hrun as <- <-. cbn [fst snd initiation_logs initiation_schedule].
  split; [done |]. split.
  { eexists. rewrite lookup_insert_eq. by split. }
  split.
  { intros iid row -> Hiid Hrow. apply Z.eqb_neq in Hiid as ->.
    exists (mark_response_received row).
    rewrite lookup_alter_eq, Hrow. split; [reflexivity | split; reflexivity]. }
  unfold process_user_response. rewrite latest_of_none; [done |].
  cbn [initiation_logs].
  apply map_empty. intros i. apply map_lookup_filter_None_2.
  destruct (decide (i = log_id)) as [-> | Hother].
  - right. intros x. rewrite lookup_insert_eq. intros [= <-] (_ & Hresp & _).
    done.
  - rewrite lookup_insert_ne by done.
    destruct (initiation_logs db !! i) as [x |] eqn:Hx; [| by left].
    right. intros ? [= <-] (Huser & Hresp & Hrecent). cbn [snd] in *.
    assert (filter (unresponded_recent user_id
                      (log_created_at entry + 12 * MINUTE))
                   (initiation_logs db) !! i = Some x) as Hin.
    { apply map_lookup_filter_Some_2; [done |].
      repeat split; try done. cbn [snd]. unfold HOUR, MINUTE in *. lia. }
    rewrite Hone, lookup_singleton_ne in Hin by done. done.
Qed.
End Correlator.

Lemma process_user_response_correlates_witness :
  fst (Proactive.process_user_response id ProactiveSample.waiting 7
         "спасибо, интересно" (Some "joy")
         (ProactiveSample.T0 + 12 * Proactive.MINUTE))
  = true
  /\ Proactive.process_user_response id
       (snd (Proactive.process_user_response id ProactiveSample.waiting 7
               "спасибо, интересно" (Some "joy")
               (ProactiveSample.T0 + 12 * Proactive.MINUTE)))
       7 "да" None
       (ProactiveSample.T0 + 12 * Proactive.MINUTE + Proactive.MINUTE)
     = (false,
        snd (Proactive.process_user_response id ProactiveSample.waiting 7
               "спасибо, интересно" (Some "joy")
               (ProactiveSample.T0 + 12 * Proactive.MINUTE))).
Proof.
  destruct (process_user_response_correlates id ProactiveSample.waiting 7
              "спасибо, интересно" (Some "joy")
              (ProactiveSample.T0 + 12 * Proactive.MINUTE) 1
              (ProactiveSample.waiting_entry ProactiveSample.T0) "да" None)
    as (Hanswer & _ & _ & Hsecond).
  - vm_compute. reflexivity.
  - reflexivity.
  - split; [exact Hanswer | exact Hsecond].
Defined.

Section Dispatch.
Import Proactive DispatchSpec.

Lemma insert_asc_perm {A} (key : A -> Z) (x : A) (l : list A) :
  insert_asc key x l ≡ₚ x :: l.
Proof.
  induction l as [| y l IH]; [done |]. simpl.
  destruct (key x <=? key y); [done |].
  rewrite IH. apply Permutation_swap.
Qed.

Lemma order_by_asc_perm {A} (key : A -> Z) (l : list A) :
  order_by_asc key l ≡ₚ l.
Proof.
  induction l as [| x l IH]; [done |]. simpl.
  by rewrite insert_asc_perm, IH.
Qed.

Lemma pending_are_due db now k r :
  (k, r) ∈ _get_pending_initiations db now ->
  initiation_schedule db !! k = Some r /\ status r = PENDING.
Proof.
  unfold _get_pending_initiations. intros Hin.
  pose proof (elem_of_sublist _ _ _ Hin (sublist_take _ 50)) as Hin'.
  clear Hin. rename Hin' into Hin.
  rewrite order_by_asc_perm in Hin.
  apply elem_of_map_to_list, map_lookup_filter_Some in Hin as [Hrow [Hp _]].
  by split.
Qed.

Lemma pending_no_dup db now :
  NoDup (fst <$> _get_pending_initiations db now).
Proof.
  unfold _get_pending_initiations.
  eapply sublist_NoDup; [| apply fmap_sublist, sublist_take].
  rewrite order_by_asc_perm. apply NoDup_fst_map_to_list.
Qed.

Lemma dispatch_one_other outcome now db k r id :
  id <> k ->
  initiation_schedule (dispatch_one outcome now db (k, r)) !! id
  = initiation_schedule db !! id.
Proof.
  intros Hne. unfold dispatch_one, _mark_initiation_sent,
    _mark_initiation_failed. cbn [fst].
  destruct (outcome k); cbn [initiation_schedule with_schedule].
  - destruct (initiation_schedule db !! k); [| done].
    cbn [initiation_schedule]. by rewrite lookup_insert_ne.
  - by rewrite lookup_alter_ne.
  - by rewrite lookup_alter_ne.
Qed.

Lemma dispatch_one_same outcome now db k r row :
  initiation_schedule db !! k = Some row ->
  exists row',
    initiation_schedule (dispatch_one outcome now db (k, r)) !! k = Some row'
    /\ status row' <> PENDING.
Proof.
  intros Hrow. unfold dispatch_one, _mark_initiation_sent,
    _mark_initiation_failed. cbn [fst].
  destruct (outcome k); cbn [initiation_schedule with_schedule].
  - rewrite Hrow. cbn [initiation_schedule]. rewrite lookup_insert_eq.
    by eexists.
  - rewrite lookup_alter_eq, Hrow. by eexists.
  - rewrite lookup_alter_eq, Hrow. by eexists.
Qed.

Lemma dispatch_fold outcome now (queue : list (Z * ScheduleRow)) :
  forall db,
    NoDup (fst <$> queue) ->
    (forall k r, (k, r) ∈ queue ->
       exists r0, initiation_schedule db !! k = Some r0 /\ status r0 = PENDING) ->
    forall id row,
      initiation_schedule db !! id = Some row ->
      exists row',
        initiation_schedule (fold_left (dispatch_one outcome now) queue db)
          !! id = Some row'
        /\ (status row' = status row \/ status row = PENDING).
Proof.
  induction queue as [| [k r] queue IH]; intros db Hnd Hpend id row Hrow.
  { exists row. by split; [| left]. }
  cbn [fold_left]. rewrite fmap_cons in Hnd. apply NoDup_cons in Hnd as [Hk Hnd].
  assert (forall k' r', (k', r') ∈ queue ->
            exists r0,
              initiation_schedule (dispatch_one outcome now db (k, r)) !! k'
              = Some r0 /\ status r0 = PENDING) as Hpend'.
  { intros k' r' Hin. rewrite dispatch_one_other.
    - apply (Hpend k' r'). by right.
    - intros ->. apply Hk. apply list_elem_of_fmap. by exists (k, r'). }
  destruct (decide (id = k)) as [-> | Hne].
  - destruct (Hpend k r) as (r0 & Hr0 & Hp); [by left |].
    assert (row = r0) as -> by congruence.
    destruct (dispatch_one_same outcome now db k r r0 Hr0) as (r1 & Hr1 & _).
    destruct (IH _ Hnd Hpend' k r1 Hr1) as (row' & Hrow' & _).
    exists row'. split; [done | by right].
  - rewrite <- (dispatch_one_other outcome now db k r id Hne) in Hrow.
    by apply (IH _ Hnd Hpend').
Qed.

Lemma sweep_status_step outcome db now id row :
  initiation_schedule db !! id = Some row ->
  exists row',
    initiation_schedule (send_scheduled_initiations outcome db now) !! id
    = Some row'
    /\ status_step (status row) (status row').
Proof.
  intros Hrow. unfold send_scheduled_initiations.
  destruct (dispatch_fold outcome now (_get_pending_initiations db now) db
              (pending_no_dup db now)) with (id := id) (row := row)
    as (row' & Hrow' & Hstep); [| done |].
  - intros k r Hin. exists r. by apply pending_are_due in Hin.
  - exists row'. split; [done |]. unfold status_step.
    destruct Hstep as [<- | ->]; [by left | by right].
Qed.

Lemma respond_keeps_status str_lower db uid message emotion now id row :
  initiation_schedule db !! id = Some row ->
  exists row',
    initiation_schedule
      (snd (process_user_response str_lower db uid message emotion now)) !! id
    = Some row'
    /\ status row' = status row.
Proof.
  intros Hrow. unfold process_user_response.
  destruct (latest_unresponded db uid now) as [[log_id entry] |];
    [| by exists row].
  destruct (response_minutes _ _); [| by exists row].
  cbn [snd initiation_schedule].
  destruct (initiation_id entry) as [iid |]; [| by exists row].
  destruct (iid =? 0); [by exists row |].
  destruct (decide (iid = id)) as [-> | Hne].
  - rewrite lookup_alter_eq, Hrow. by eexists.
  - rewrite lookup_alter_ne by done. by exists row.
Qed.

Lemma disable_status_step db uid id row :
  initiation_schedule db !! id = Some row ->
  exists row',
    initiation_schedule (disable_proactivity db uid) !! id = Some row'
    /\ status_step (status row) (status row').
Proof.
  intros Hrow. unfold disable_proactivity. cbn [initiation_schedule].
  rewrite lookup_fmap, Hrow. eexists. split; [done |].
  destruct (sched_user_id row =? uid); [| by left].
  destruct (status row) eqn:Hs; cbn [andb status_eqb status cancel_row];
    rewrite ?Hs; first [by left | by right].
Qed.

Lemma status_step_trans a b c :
  status_step a b -> status_step b c -> status_step a c.
Proof. unfold status_step. intros [-> | ->] Hbc; [done | by right]. Qed.

(** Sweeps, response correlation and opting out, in any order, move a
    status only from pending to a terminal one. *)
Theorem engine_status_monotone str_lower (ops : list EngineOp) :
  forall db id row,
    initiation_schedule db !! id = Some row ->
    exists row',
      initiation_schedule (run_ops str_lower db ops) !! id = Some row'
      /\ status_step (status row) (status row').
Proof.
  induction ops as [| op ops IH]; intros db id row Hrow.
  { exists row. split; [done | by left]. }
  unfold run_ops. cbn [fold_left].
  assert (exists row1,
            initiation_schedule (run_op str_lower db op) !! id = Some row1
            /\ status_step (status row) (status row1))
    as (row1 & Hrow1 & Hstep1).
  { destruct op as [outcome now | uid message emotion now | uid];
      cbn [run_op].
    - by apply sweep_status_step.
    - destruct (respond_keeps_status str_lower db uid message emotion now
                  id row Hrow) as (row1 & H1 & Hs).
      exists row1. split; [done |]. left. by symmetry.
    - by apply disable_status_step. }
  destruct (IH _ id row1 Hrow1) as (row' & Hrow' & Hstep').
  exists row'. split; [done |]. by eapply status_step_trans.
Qed.
End Dispatch.

(** C9.  The two marking updates overwrite a terminal status: a sent row
    becomes failed, and a row cancelled after the sweep fetched it becomes
    sent. *)
Lemma terminal_status_overwritten :
  (* a delivered initiation, then a late failure report for the same row *)
  ProactiveSample.status_of
    (Proactive._mark_initiation_sent ProactiveSample.one_due 1 "hello"
       ProactiveSample.T0) 1
  = Some Proactive.SENT
  /\ ProactiveSample.status_of
       (Proactive._mark_initiation_failed
          (Proactive._mark_initiation_sent ProactiveSample.one_due 1 "hello"
             ProactiveSample.T0)
          1 "late error") 1
     = Some Proactive.FAILED
  (* the sweep fetched row 1, the user opted out, the sweep went on *)
  /\ fst <$> Proactive._get_pending_initiations ProactiveSample.one_due
               ProactiveSample.T0
     = [1]
  /\ ProactiveSample.status_of
       (Proactive.disable_proactivity ProactiveSample.one_due 7) 1
     = Some Proactive.CANCELLED
  /\ ProactiveSample.status_of
       (Proactive.dispatch_one (fun _ => Proactive.Delivered "hello")
          ProactiveSample.T0
          (Proactive.disable_proactivity ProactiveSample.one_due 7)
          (1, ProactiveSample.due_row)) 1
     = Some Proactive.SENT.
Proof. repeat split; vm_compute; reflexivity. Qed.


(** * Further properties of the injection system *)


Section Keys.
Import Injection Spec.

Lemma str_of_int_inj (a b : Z) : Py.str_of_int a = Py.str_of_int b -> a = b.
Proof.
  intros H. apply (f_equal Py.int_of_str) in H.
  rewrite !int_of_str_of_int in H. by injection H.
Qed.

Lemma injection_count_key_inj (u v : Z) :
  injection_count_key u = injection_count_key v -> u = v.
Proof.
  unfold injection_count_key. intros H. apply str_of_int_inj.
  by repeat (injection H as H).
Qed.

Lemma last_emotion_key_inj (u v : Z) :
  last_emotion_key u = last_emotion_key v -> u = v.
Proof.
  unfold last_emotion_key. intros H. apply str_of_int_inj.
  by repeat (injection H as H).
Qed.

Lemma emotion_key_not_count (u v : Z) :
  injection_count_key u <> last_emotion_key v.
Proof. unfold last_emotion_key, injection_count_key. keys_differ. Qed.

Lemma activity_key_not_count (u v : Z) :
  user_activity_key u <> injection_count_key v.
Proof. unfold user_activity_key, injection_count_key. keys_differ. Qed.

Lemma activity_key_not_emotion (u v : Z) :
  user_activity_key u <> last_emotion_key v.
Proof. unfold user_activity_key, last_emotion_key. keys_differ. Qed.

Lemma activity_key_not_cache (u : Z) (cache_key : string) :
  user_activity_key u <> prefix ++ cache_key.
Proof. unfold user_activity_key, prefix. keys_differ. Qed.

End Keys.

Section Compose.
Import Injection Spec Composition.
Variable md5_hex16 : string -> string.
Variable libm_log : float -> float.

(** The two ways a call returns: from the cache, with the store untouched,
    or with the composed text and the counter raised on top of the cache
    writes. *)
Lemma generate_injection_cases self user_id mode emotion user_history
    violation_type is_authorized ltm_memories latency s text lat s' :
  generate_injection md5_hex16 libm_log self user_id mode emotion
    user_history violation_type is_authorized ltm_memories latency s
  = Some (text, lat, s') ->
  (returns_cached md5_hex16 self user_id mode emotion user_history
     violation_type is_authorized s
   /\ s' = s)
  \/ (~ returns_cached md5_hex16 self user_id mode emotion user_history
        violation_type is_authorized s
      /\ text = composed_injection self user_id mode emotion user_history
                  violation_type is_authorized ltm_memories
      /\ exists s2,
           s' = _increment_injection_count user_id s2
           /\ (if is_authorized then s2 = s
               else exists dynamic_ttl,
                   s2 = <[last_emotion_key user_id :=
                            Redis.Entry emotion (Some 86400)]>
                          (cache_injection libm_log
                             (_generate_cache_key md5_hex16 user_id mode
                                emotion violation_type)
                             text dynamic_ttl
                             (_get_user_activity user_id s) s))).
Proof.
  unfold generate_injection, composed_injection.
  destruct (_ && _ && _) eqn:Hpath.
  - intros [= _ _ <-]. left. split; [| done]. by apply cached_path_iff.
  - destruct (select_components _ _ _ _ _ _ _ _) as [components tokens].
    intros Hrun. right. split.
    { intros Hc. apply cached_path_iff in Hc. congruence. }
    destruct is_authorized; simpl in Hrun.
    + injection Hrun as <- _ <-. split; [done |]. by exists s.
    + destruct (Py.int_of_float _) as [dynamic_ttl |]; [| done].
      injection Hrun as <- _ <-. split; [done |].
      eexists. split; [done |]. by exists dynamic_ttl.
Qed.

End Compose.

Section CacheUse.
Import Injection Spec Composition.
Variable md5_hex16 : string -> string.
Variable libm_log : float -> float.

Lemma returns_cached_needs self user_id mode emotion user_history
    violation_type is_authorized s :
  returns_cached md5_hex16 self user_id mode emotion user_history
    violation_type is_authorized s ->
  decode_responses self = false
  /\ Py.truthy_opt (Redis.get (last_emotion_key user_id) s) = false.
Proof.
  intros (Hauth & [c Hc] & Hkeep).
  destruct (decode_responses self) eqn:Hdec.
  { by rewrite decoding_client_never_hits in Hc. }
  split; [done |].
  unfold should_ignore_cache in Hkeep. rewrite Hdec in Hkeep.
  apply orb_false_elim in Hkeep as [Hkeep _].
  apply orb_false_elim in Hkeep as [He _].
  destruct (Redis.get (last_emotion_key user_id) s) as [e |]; [| done].
  simpl. by rewrite andb_true_r in He.
Qed.

(** X2.  The cache answers only a bytes client, only an unauthorized call
    without a violation and with a calm history, and only while no last
    emotion is on record for the user. *)
Theorem cache_hit_requires self user_id mode emotion user_history
    violation_type is_authorized s :
  returns_cached md5_hex16 self user_id mode emotion user_history
    violation_type is_authorized s ->
  decode_responses self = false
  /\ is_authorized = false
  /\ Py.truthy_opt violation_type = false
  /\ (0.4 <? calculate_style_volatility user_history)%float = false
  /\ Py.truthy_opt (Redis.get (last_emotion_key user_id) s) = false.
Proof.
  intros (Hauth & [c Hc] & Hkeep).
  destruct (decode_responses self) eqn:Hdec.
  { by rewrite decoding_client_never_hits in Hc. }
  split; [done |]. split; [done |].
  unfold should_ignore_cache in Hkeep. rewrite Hdec in Hkeep.
  apply orb_false_elim in Hkeep as [Hkeep Hv].
  apply orb_false_elim in Hkeep as [He Hvol].
  apply orb_false_elim in Hv as [Hv _].
  split; [done |]. split; [done |].
  destruct (Redis.get (last_emotion_key user_id) s) as [e |]; [| done].
  simpl. by rewrite andb_true_r in He.
Qed.

(** X3.  In the store that an unauthorized call leaves after composing an
    injection for a non-empty emotion, no call for the same user is
    answered from the cache, whatever the client, the mode, the emotion or
    the history: the last emotion it recorded invalidates every read. *)
Theorem no_cache_hit_after_compose self user_id mode emotion user_history
    violation_type ltm_memories latency s text lat s'
    mode2 emotion2 user_history2 violation_type2 is_authorized2 :
  generate_injection md5_hex16 libm_log self user_id mode emotion
    user_history violation_type false ltm_memories latency s
  = Some (text, lat, s') ->
  ~ returns_cached md5_hex16 self user_id mode emotion user_history
      violation_type false s ->
  Py.truthy emotion = true ->
  ~ returns_cached md5_hex16 self user_id mode2 emotion2 user_history2
      violation_type2 is_authorized2 s'.
Proof.
  intros Hrun Hfresh Hemotion Hhit.
  apply generate_injection_cases in Hrun
    as [[Hc _] | (_ & _ & s2 & -> & ttl & ->)]; [done |].
  apply returns_cached_needs in Hhit as (_ & Hnone).
  unfold Redis.get in Hnone.
  rewrite increment_other in Hnone
    by (intros E; symmetry in E; by apply emotion_key_not_count in E).
  rewrite lookup_insert_eq in Hnone. simpl in Hnone. congruence.
Qed.

(** X1.  With a decoding client, as the bot configures it, every call that
    returns has composed its text and counted it: the cache is written and
    never read. *)
Theorem decoding_client_always_composes self user_id mode emotion
    user_history violation_type is_authorized ltm_memories latency s
    text lat s' :
  decode_responses self = true ->
  generate_injection md5_hex16 libm_log self user_id mode emotion
    user_history violation_type is_authorized ltm_memories latency s
  = Some (text, lat, s') ->
  text = composed_injection self user_id mode emotion user_history
           violation_type is_authorized ltm_memories
  /\ (counter_ok user_id s ->
      _get_injection_count user_id s'
      = _get_injection_count user_id s + 1).
Proof.
  intros Hdec Hrun.
  pose proof Hrun as Hcases.
  apply generate_injection_cases in Hcases
    as [[Hc _] | (Hfresh & -> & _)].
  { apply returns_cached_needs in Hc as (Hbytes & _). congruence. }
  split; [done |]. intros Hok.
  unfold generate_injection in Hrun.
  destruct (_ && _ && _) eqn:Hpath in Hrun.
  { by apply cached_path_iff in Hpath. }
  destruct (select_components _ _ _ _ _ _ _ _) as [components tokens].
  destruct is_authorized; simpl in Hrun.
  - injection Hrun as _ _ <-. by apply increment_adds_one.
  - destruct (Py.int_of_float _) as [dynamic_ttl |]; [| done].
    injection Hrun as _ _ <-.
    set (s2 := <[_ := _]> _).
    assert (s2 !! injection_count_key user_id
            = s !! injection_count_key user_id) as Hsame.
    { unfold s2. rewrite lookup_insert_ne by apply count_key_not_emotion.
      apply cache_injection_other. intros E. symmetry in E.
      by apply count_key_not_cache in E. }
    rewrite increment_adds_one by (by eapply counter_ok_ext).
    f_equal. by apply get_injection_count_ext.
Qed.

(** X4.  A call for one user leaves the counter, the last emotion and the
    activity of every other user as they were. *)
Theorem generate_injection_frame self user_id mode emotion user_history
    violation_type is_authorized ltm_memories latency s text lat s' other :
  generate_injection md5_hex16 libm_log self user_id mode emotion
    user_history violation_type is_authorized ltm_memories latency s
  = Some (text, lat, s') ->
  other <> user_id ->
  s' !! injection_count_key other = s !! injection_count_key other
  /\ s' !! last_emotion_key other = s !! last_emotion_key other
  /\ s' !! user_activity_key other = s !! user_activity_key other
  /\ s' !! user_activity_key user_id = s !! user_activity_key user_id.
Proof.
  intros Hrun Hother.
  apply generate_injection_cases in Hrun
    as [[_ ->] | (_ & _ & s2 & -> & Hs2)]; [done |].
  assert (forall key,
            key <> last_emotion_key user_id ->
            (forall cache_key, key <> prefix ++ cache_key) ->
            s2 !! key = s !! key) as Hkeep.
  { intros key Hne Hnc. destruct is_authorized.
    - by rewrite Hs2.
    - destruct Hs2 as (ttl & ->).
      rewrite lookup_insert_ne by done. by apply cache_injection_other. }
  repeat split.
  - rewrite increment_other
      by (intros E; by apply injection_count_key_inj in E).
    apply Hkeep.
    + apply emotion_key_not_count.
    + intros cache_key E. symmetry in E. by apply count_key_not_cache in E.
  - rewrite increment_other by apply count_key_not_emotion.
    apply Hkeep.
    + intros E. by apply last_emotion_key_inj in E.
    + intros cache_key. apply cache_key_not_emotion.
  - rewrite increment_other by apply activity_key_not_count.
    apply Hkeep; [apply activity_key_not_emotion |].
    intros cache_key. apply activity_key_not_cache.
  - rewrite increment_other by apply activity_key_not_count.
    apply Hkeep; [apply activity_key_not_emotion |].
    intros cache_key. apply activity_key_not_cache.
Qed.

(** X5.  Whatever a call writes into the shared cache is impersonal: the
    entry that changed holds the text composed from the configuration, the
    mode, the emotion and the violation type alone, for an unauthorized
    user. *)
Theorem cached_text_is_impersonal self user_id mode emotion user_history
    violation_type is_authorized ltm_memories latency s text lat s'
    cache_key e :
  generate_injection md5_hex16 libm_log self user_id mode emotion
    user_history violation_type is_authorized ltm_memories latency s
  = Some (text, lat, s') ->
  s' !! (prefix ++ cache_key) = Some e ->
  s !! (prefix ++ cache_key) <> Some e ->
  is_authorized = false
  /\ cache_key = _generate_cache_key md5_hex16 user_id mode emotion
                   violation_type
  /\ Redis.value e = composed_injection self 0 mode emotion [] violation_type
                       false None.
Proof.
  intros Hrun He Hnew.
  apply generate_injection_cases in Hrun
    as [[_ ->] | (_ & -> & s2 & -> & Hs2)]; [done |].
  rewrite increment_other in He
    by (intros E; by apply count_key_not_cache in E).
  destruct is_authorized; [by rewrite Hs2 in He |].
  destruct Hs2 as (ttl & ->). split; [done |].
  rewrite lookup_insert_ne in He by apply cache_key_not_emotion.
  unfold cache_injection, Redis.setex in He.
  destruct (_ <? _); [| done].
  destruct (Py.int_of_float _) as [d |]; [| done].
  destruct (Redis.accepts_expiry d); [| done].
  destruct (decide (cache_key = _generate_cache_key md5_hex16 user_id mode
                                  emotion violation_type)) as [-> | Hne].
  - split; [done |]. rewrite lookup_insert_eq in He. injection He as <-.
    reflexivity.
  - rewrite lookup_insert_ne in He; [done |].
    intros E. apply Hne. unfold prefix in E.
    by repeat (injection E as E).
Qed.

End CacheUse.

Lemma decoding_client_always_composes_witness :
  Scenario.reminder
  = Composition.composed_injection Sample.decoding_client 7 "talk" "joy"
      Sample.calm_history None false None
  /\ Injection._get_injection_count 7 Sample.fresh_store
     = Injection._get_injection_count 7 ∅ + 1.
Proof.
  destruct (decoding_client_always_composes id id Sample.decoding_client 7
              "talk" "joy" Sample.calm_history None false None 3 ∅
              Scenario.reminder 3 Sample.fresh_store)
    as [Htext Hcount].
  - reflexivity.
  - vm_compute. reflexivity.
  - split; [exact Htext |]. apply Hcount. vm_compute. exact I.
Defined.

Lemma cache_hit_requires_witness :
  Injection.decode_responses Sample.bytes_client = false
  /\ Py.truthy_opt
       (Redis.get (Injection.last_emotion_key 7) Sample.cached_store)
     = false.
Proof.
  destruct (cache_hit_requires id Sample.bytes_client 7 "talk" "joy"
              Sample.calm_history None false Sample.cached_store)
    as (Hbytes & _ & _ & _ & Hnone).
  - split; [reflexivity |].
    split; [exists "cached text" |]; vm_compute; reflexivity.
  - by split.
Defined.

Lemma no_cache_hit_after_compose_witness :
  Py.truthy "joy" = true
  /\ ~ Spec.returns_cached id Sample.bytes_client 7 "expert" "sadness"
        Sample.calm_history None false Sample.fresh_store.
Proof.
  split; [reflexivity |].
  apply (no_cache_hit_after_compose id id Sample.bytes_client 7 "talk" "joy"
           Sample.calm_history None None 3 ∅ Scenario.reminder 3
           Sample.fresh_store).
  - vm_compute. reflexivity.
  - intros (_ & [c Hc] & _). vm_compute in Hc. discriminate.
  - reflexivity.
Defined.

Lemma generate_injection_frame_witness :
  Sample.fresh_store !! Injection.injection_count_key 8
  = (∅ : gmap string Redis.entry) !! Injection.injection_count_key 8.
Proof.
  refine (proj1 (generate_injection_frame id id Sample.decoding_client 7
                   "talk" "joy" Sample.calm_history None false None 3 ∅
                   Scenario.reminder 3 Sample.fresh_store 8 _ _)).
  - vm_compute. reflexivity.
  - discriminate.
Defined.

Lemma cached_text_is_impersonal_witness :
  Scenario.reminder
  = Composition.composed_injection Sample.decoding_client 0 "talk" "joy" []
      None false None.
Proof.
  refine (proj2 (proj2 (cached_text_is_impersonal id id Sample.decoding_client
                          7 "talk" "joy" Sample.calm_history None false None
                          3 ∅ Scenario.reminder 3 Sample.fresh_store
                          "7:talk:joy"
                          (Redis.Entry Scenario.reminder (Some 3600))
                          _ _ _))).
  - vm_compute. reflexivity.
  - vm_compute. reflexivity.
  - discriminate.
Defined.


Section Untagged.
Import Injection Spec Composition.
Local Open Scope float_scope.


Lemma fold_left_fixed {A B} (f : A -> B -> A) (l : list B) (acc : A) :
  (forall b, b ∈ l -> f acc b = acc) -> fold_left f l acc = acc.
Proof.
  induction l as [| b l IH]; intros H; [done |].
  cbn [fold_left]. rewrite H by (by left). apply IH.
  intros b' Hb'. apply H. by right.
Qed.

Lemma untagged_drop n (msgs : list Message) :
  untagged msgs -> untagged (drop n msgs).
Proof. apply Forall_drop. Qed.

Lemma untagged_elem (msgs : list Message) (msg : Message) :
  untagged msgs -> msg ∈ msgs -> bot_mode msg = None.
Proof. intros H Hin. by apply (proj1 (Forall_forall _ _) H). Qed.

Lemma untagged_encode (user_history : list Message) :
  untagged user_history ->
  encode_user_style user_history
  = match user_history with [] => STYLE_neutral | _ => [0; 0; 0; 0] end.
Proof.
  intros H. unfold encode_user_style. destruct user_history as [| m l]; [done |].
  rewrite fold_left_fixed; [reflexivity |].
  intros msg Hin. unfold mode_is.
  by rewrite (untagged_elem _ _ (untagged_drop _ _ H) Hin).
Qed.

Lemma untagged_mode_changes (messages : list Message) :
  untagged messages -> count_mode_changes messages = 0%Z.
Proof.
  unfold count_mode_changes. intros H.
  destruct H as [| first rest Hf Hrest]; [done |].
  replace (mode_or_auto first) with "auto"
    by (unfold mode_or_auto; by rewrite Hf).
  rewrite fold_left_fixed; [done |].
  intros msg Hin. unfold mode_or_auto.
  by rewrite (untagged_elem _ _ Hrest Hin).
Qed.

Lemma untagged_vectors (user_history : list Message) :
  untagged user_history ->
  user_turn_vectors user_history
  = repeat [0; 0; 0; 0]
      (length (recent_user_turns user_history)).
Proof.
  intros H. unfold user_turn_vectors.
  fold (recent_user_turns user_history).
  assert (untagged (recent_user_turns user_history)) as Hf.
  { apply Forall_forall. intros msg Hin.
    apply list_elem_of_filter in Hin as [_ Hin].
    apply (untagged_elem _ _ (untagged_drop _ _ H) Hin). }
  induction Hf as [| msg l Hm _ IH]; [done |].
  cbn [map length repeat]. rewrite IH. f_equal.
  rewrite untagged_encode by (by constructor). reflexivity.
Qed.

Lemma user_turns_at_most_ten (user_history : list Message) :
  (length (recent_user_turns user_history) <= 10)%nat.
Proof.
  etrans; [apply length_filter |].
  unfold Py.last_n. rewrite length_drop. lia.
Qed.

Lemma untagged_volatility (user_history : list Message) :
  untagged user_history ->
  calculate_style_volatility user_history
  = if (length user_history <? 5)%nat
       || (length (recent_user_turns user_history) <? 2)%nat
    then 0.5 else 0.
Proof.
  intros H. unfold calculate_style_volatility.
  destruct (length user_history <? 5)%nat; [done |]. cbn [orb].
  rewrite untagged_vectors by done.
  pose proof (user_turns_at_most_ten user_history) as Hk.
  set (k := length _) in *. clearbody k.
  rewrite repeat_length.
  do 11 (destruct k as [| k]; [vm_compute; reflexivity |]). lia.
Qed.

End Untagged.

Section RecentHistory.
Import Injection Spec Composition Context.
Local Open Scope float_scope.

Lemma injection_history_untagged db uid limit :
  untagged (injection_history db uid limit).
Proof.
  unfold injection_history, untagged. apply Forall_forall.
  intros msg Hin. apply list_elem_of_fmap in Hin as (m & -> & _). done.
Qed.

(** X6.  The injection system never sees a mode tag: [get_recent_history]
    drops the column.  So for the history of any user, at any limit, the
    style anchor is the balanced one, no mode change is counted, and the
    volatility is 0.5 for a short history and 0 otherwise. *)
Theorem recent_history_style db uid limit :
  vector_to_micro_prompt (encode_user_style (injection_history db uid limit))
  = "Баланс всех качеств."
  /\ count_mode_changes (injection_history db uid limit) = 0%Z
  /\ calculate_style_volatility (injection_history db uid limit)
     = if (length (injection_history db uid limit) <? 5)%nat
          || (length (recent_user_turns (injection_history db uid limit))
              <? 2)%nat
       then 0.5 else 0.
Proof.
  pose proof (injection_history_untagged db uid limit) as H.
  split; [| split].
  - rewrite untagged_encode by done.
    by destruct (injection_history db uid limit).
  - by apply untagged_mode_changes.
  - by apply untagged_volatility.
Qed.

End RecentHistory.

Section QuotaInvariant.
Import Injection Spec Composition Context.
Variable md5_hex16 : string -> string.
Variable libm_log : float -> float.
Variable str_lower : string -> string.
Variable has_lists : string -> bool.
Variable has_numbered : string -> bool.

Lemma counter_ok_count (user_id : Z) (s : gmap string Redis.entry) :
  counter_ok user_id s ->
  Redis.int64_min <= _get_injection_count user_id s < Redis.int64_max.
Proof.
  unfold counter_ok, _get_injection_count, Redis.get.
  destruct (s !! injection_count_key user_id) as [e |]; simpl.
  - intros (n & -> & Hn).
    by rewrite truthy_str_of_int, int_of_str_of_int.
  - intros _. unfold Redis.int64_min, Redis.int64_max. lia.
Qed.

Lemma increment_counter_ok (user_id : Z) (s : gmap string Redis.entry) :
  counter_ok user_id s ->
  _get_injection_count user_id s + 1 < Redis.int64_max ->
  counter_ok user_id (_increment_injection_count user_id s).
Proof.
  intros Hok Hroom. pose proof (counter_ok_count _ _ Hok) as Hrange.
  revert Hok Hroom Hrange.
  unfold counter_ok, _increment_injection_count, _get_injection_count,
    Redis.incr, Redis.expire, Redis.get.
  destruct (s !! injection_count_key user_id) as [e |] eqn:He; simpl.
  - intros (n & Hv & Hlo & Hhi). rewrite Hv, truthy_str_of_int,
      int_of_str_of_int. simpl. intros Hroom _.
    assert ((Redis.int64_min <=? n) && (n <? Redis.int64_max) = true) as ->.
    { apply andb_true_intro. split; [by apply Z.leb_le | by apply Z.ltb_lt]. }
    rewrite lookup_alter_eq, lookup_insert_eq. simpl.
    exists (n + 1). split; [done | lia].
  - intros _ _ _. rewrite lookup_alter_eq, lookup_insert_eq. simpl.
    exists 1. split; [done |]. unfold Redis.int64_min, Redis.int64_max. lia.
Qed.

Lemma increment_frame (user_id other : Z) (s : gmap string Redis.entry) :
  other <> user_id ->
  _increment_injection_count user_id s !! injection_count_key other
  = s !! injection_count_key other.
Proof.
  intros Hne. apply increment_other.
  intros E. by apply injection_count_key_inj in E.
Qed.

(** The counter key of any user after the cache writes of a call. *)
Lemma cache_writes_keep_counter self user_id mode emotion user_history
    violation_type is_authorized ltm_memories latency s text lat s' :
  generate_injection md5_hex16 libm_log self user_id mode emotion
    user_history violation_type is_authorized ltm_memories latency s
  = Some (text, lat, s') ->
  s' = s
  \/ exists s2,
       s' = _increment_injection_count user_id s2
       /\ forall other,
            s2 !! injection_count_key other = s !! injection_count_key other.
Proof.
  intros Hrun.
  apply generate_injection_cases in Hrun
    as [[_ ->] | (_ & _ & s2 & -> & Hs2)]; [by left |].
  right. exists s2. split; [done |]. intros other.
  destruct is_authorized; [by rewrite Hs2 |].
  destruct Hs2 as (ttl & ->).
  rewrite lookup_insert_ne by apply count_key_not_emotion.
  apply cache_injection_other. intros E. symmetry in E.
  by apply count_key_not_cache in E.
Qed.

Lemma within_quota_ext self (s s' : gmap string Redis.entry) user_id :
  s' !! injection_count_key user_id = s !! injection_count_key user_id ->
  counter_ok user_id s
  /\ _get_injection_count user_id s
     <= max_injections_per_dialogue (config self) ->
  counter_ok user_id s'
  /\ _get_injection_count user_id s'
     <= max_injections_per_dialogue (config self).
Proof.
  intros Hsame [Hok Hle]. split.
  - exact (counter_ok_ext user_id s s' Hsame Hok).
  - by rewrite (get_injection_count_ext _ _ _ Hsame).
Qed.

Lemma handle_within_quota self s event :
  0 <= max_injections_per_dialogue (config self) < Redis.int64_max ->
  within_quota self s ->
  (forall db user_id mode history_limit authorized personal_memories latency,
     event = Incoming db user_id mode history_limit authorized
               personal_memories latency ->
     violation_type_of str_lower has_lists has_numbered
       (get_recent_history db user_id history_limit) = None) ->
  within_quota self
    (handle md5_hex16 libm_log str_lower has_lists has_numbered self s event).
Proof.
  intros Hmax Hinv Hcalm.
  destruct event as [db user_id mode history_limit authorized
                       personal_memories latency | user_id]; cbn [handle].
  - specialize (Hcalm _ _ _ _ _ _ _ eq_refl).
    unfold smart_injection. rewrite Hcalm. cbn [Py.truthy_opt orb].
    destruct (should_inject _ _ _ _) eqn:Hgate; [| done].
    destruct (generate_injection _ _ _ _ _ _ _ _ _ _ _ _)
      as [[[text lat] s'] |] eqn:Hrun; [| done].
    cbn [snd].
    apply cache_writes_keep_counter in Hrun as [-> | (s2 & -> & Hs2)];
      [done |].
    intros other.
    destruct (decide (other = user_id)) as [-> | Hne].
    + destruct (Hinv user_id) as [Hok Hle].
      assert (counter_ok user_id s2) as Hok2
        by exact (counter_ok_ext user_id s s2 (Hs2 user_id) Hok).
      assert (_get_injection_count user_id s2
              = _get_injection_count user_id s) as Hcount2
        by (by apply get_injection_count_ext).
      assert (_get_injection_count user_id s
              < max_injections_per_dialogue (config self)) as Hroom.
      { unfold should_inject in Hgate. cbv zeta in Hgate.
        destruct (_ <=? _) eqn:Hfull in Hgate; [done |].
        apply Z.leb_gt in Hfull. exact Hfull. }
      split.
      * apply increment_counter_ok; [done | lia].
      * rewrite increment_adds_one by done. lia.
    + apply (within_quota_ext self s); [| apply Hinv].
      by rewrite increment_frame.
  - intros other. unfold reset_user_counter, Redis.del.
    destruct (decide (other = user_id)) as [-> | Hne].
    + destruct (counter_ok_after_reset user_id s) as [Hok Hzero].
      split; [done |]. unfold reset_user_counter, Redis.del in Hzero.
      rewrite Hzero. lia.
    + apply (within_quota_ext self s); [| apply Hinv].
      rewrite lookup_delete_ne; [done |].
      intros E. by apply injection_count_key_inj in E.
Qed.

(** X7.  While the last answers show no violation, the quota holds for every
    user through any sequence of incoming messages and [/start] commands: no
    counter ever exceeds [max_injections_per_dialogue]. *)
Theorem quota_never_exceeded self events s user_id :
  0 <= max_injections_per_dialogue (config self) < Redis.int64_max ->
  within_quota self s ->
  (forall db uid mode history_limit authorized personal_memories latency,
     Incoming db uid mode history_limit authorized personal_memories latency
     ∈ events ->
     violation_type_of str_lower has_lists has_numbered
       (get_recent_history db uid history_limit) = None) ->
  _get_injection_count user_id
    (fold_left (handle md5_hex16 libm_log str_lower has_lists has_numbered
                  self) events s)
  <= max_injections_per_dialogue (config self).
Proof.
  intros Hmax Hinv Hcalm.
  assert (within_quota self
            (fold_left (handle md5_hex16 libm_log str_lower has_lists
                          has_numbered self) events s)) as Hfinal;
    [| apply Hfinal].
  revert s Hinv. induction events as [| event events IH]; intros s Hinv;
    [done |].
  cbn [fold_left]. apply IH.
  - intros db uid mode history_limit authorized personal_memories latency
      Hin.
    apply (Hcalm db uid mode history_limit authorized personal_memories
             latency). by right.
  - apply handle_within_quota; try done.
    intros db uid mode history_limit authorized personal_memories latency ->.
    apply (Hcalm db uid mode history_limit authorized personal_memories
             latency). by left.
Qed.

End QuotaInvariant.

Lemma quota_never_exceeded_witness :
  Injection._get_injection_count 7
    (fold_left (Context.handle id id id Scenario.no_match Scenario.no_match
                  Scenario.eager_client) Scenario.chat ∅)
  <= 2.
Proof.
  apply (quota_never_exceeded id id id Scenario.no_match Scenario.no_match
           Scenario.eager_client Scenario.chat ∅ 7).
  - vm_compute. split; [discriminate | reflexivity].
  - intros user_id. unfold Spec.counter_ok, Injection._get_injection_count,
      Redis.get. rewrite lookup_empty. split; [exact I | vm_compute].
    discriminate.
  - intros db uid mode history_limit authorized personal_memories latency
      Hin.
    unfold Scenario.chat in Hin.
    repeat (apply elem_of_cons in Hin as [Hin | Hin];
            [try discriminate Hin; injection Hin as -> -> _ -> _ _ _;
             vm_compute; reflexivity |]).
    by apply elem_of_nil in Hin.
Defined.


Section NoFallback.
Import Injection Spec Composition Context.
Variable md5_hex16 : string -> string.
Variable libm_log : float -> float.
Variable str_lower : string -> string.
Variable has_lists : string -> bool.
Variable has_numbered : string -> bool.

Lemma ttls_are_numbers_spec count first cache_ttl :
  ttls_are_numbers count first = true ->
  first <= cache_ttl < first + Z.of_nat count ->
  ttl_is_number cache_ttl 0.5 = true /\ ttl_is_number cache_ttl 0 = true.
Proof.
  revert first. induction count as [| k IH]; intros first Hall Hr; [lia |].
  cbn [ttls_are_numbers] in Hall.
  apply andb_prop in Hall as [Hn Hall].
  destruct (Z.eq_dec cache_ttl first) as [-> | Hne].
  - by apply andb_prop in Hn.
  - apply (IH (first + 1)); [done | lia].
Qed.

(** Every setting from 0 to 86400 seconds, by evaluation. *)
Lemma day_of_ttls : ttls_are_numbers (Z.to_nat 86401) 0 = true.
Proof. vm_cast_no_check (eq_refl true). Qed.

(** X25.  With a cache time-to-live between 0 and one day (the default is
    one hour) the adaptive branch of the bot never falls back to the basic
    prompt because of [int]: the history that [get_recent_history] returns
    has volatility 0 or 0.5, both give a finite time-to-live, so
    [generate_injection] returns and the outcome is either no injection or
    the adaptive text. *)
Theorem smart_injection_never_falls_back self db user_id mode history_limit
    authorized personal_memories latency s :
  0 <= cache_ttl (config self) <= 86400 ->
  fst (smart_injection md5_hex16 libm_log str_lower has_lists has_numbered
         self db user_id mode history_limit authorized personal_memories
         latency s) = Skipped
  \/ exists text lat,
       fst (smart_injection md5_hex16 libm_log str_lower has_lists
              has_numbered self db user_id mode history_limit authorized
              personal_memories latency s) = Adaptive text lat.
Proof.
  intros Httl. unfold smart_injection.
  destruct (_ || _); [| by left]. right.
  assert (is_Some
            (generate_injection md5_hex16 libm_log self user_id mode
               (List.last
                  (user_emotions
                     (get_recent_history db user_id history_limit))
                  "neutral")
               (injection_history db user_id history_limit)
               (violation_type_of str_lower has_lists has_numbered
                  (get_recent_history db user_id history_limit))
               authorized
               (if authorized then Some personal_memories else None)
               latency s)) as [[[text lat] s'] ->]; [| by eexists _, _].
  destruct authorized.
  - apply generate_injection_authorized_returns.
  - apply generate_injection_unauthorized_returns.
    rewrite untagged_volatility by apply injection_history_untagged.
    destruct (ttls_are_numbers_spec (Z.to_nat 86401) 0
                (cache_ttl (config self)) day_of_ttls) as [Hhalf Hzero];
      [lia |].
    unfold ttl_is_number in Hhalf, Hzero.
    destruct (_ || _).
    + clear Hzero. revert Hhalf.
      destruct (Py.int_of_float _) as [ttl |]; [by exists ttl | done].
    + clear Hhalf. revert Hzero.
      destruct (Py.int_of_float _) as [ttl |]; [by exists ttl | done].
Qed.

End NoFallback.

Lemma smart_injection_never_falls_back_witness :
  fst (Context.smart_injection id id id Scenario.no_match Scenario.no_match
         Sample.decoding_client ProactiveSample.one_due 7 "talk" 20 false []
         3 ∅)
  = Context.Skipped
  \/ exists text lat,
       fst (Context.smart_injection id id id Scenario.no_match
              Scenario.no_match Sample.decoding_client
              ProactiveSample.one_due 7 "talk" 20 false [] 3 ∅)
       = Context.Adaptive text lat.
Proof.
  apply (smart_injection_never_falls_back id id id Scenario.no_match
           Scenario.no_match Sample.decoding_client ProactiveSample.one_due
           7 "talk" 20 false [] 3 ∅).
  vm_compute. split; discriminate.
Defined.


(** * Further properties of the proactive engine *)


Section Serial.
Import Proactive.

Lemma next_id_above {A} (table : gmap Z A) (k : Z) (v : A) :
  table !! k = Some v -> k < next_id table.
Proof.
  unfold next_id.
  apply (map_fold_weak_ind
           (fun acc (m : gmap Z A) =>
              forall k v, m !! k = Some v -> k < 1 + acc)).
  - intros k' v'. by rewrite lookup_empty.
  - intros i x m acc Hi IH k' v'.
    destruct (decide (k' = i)) as [-> | Hne].
    + intros _. lia.
    + rewrite lookup_insert_ne by done. intros H. apply IH in H. lia.
Qed.

Lemma next_id_fresh {A} (table : gmap Z A) :
  table !! next_id table = None.
Proof.
  destruct (table !! next_id table) as [v |] eqn:H; [| done].
  apply next_id_above in H. lia.
Qed.

End Serial.

Section RecentRows.
Import Proactive Context.

Lemma insert_desc_perm {A} (key : A -> Z) (x : A) (l : list A) :
  insert_desc key x l ≡ₚ x :: l.
Proof.
  induction l as [| y l IH]; [done |]. simpl.
  destruct (key y <=? key x); [done |].
  rewrite IH. apply Permutation_swap.
Qed.

Lemma order_by_desc_perm {A} (key : A -> Z) (l : list A) :
  order_by_desc key l ≡ₚ l.
Proof.
  induction l as [| x l IH]; [done |]. simpl.
  by rewrite insert_desc_perm, IH.
Qed.


Lemma insert_desc_sorted {A} (key : A -> Z) (x : A) (l : list A) :
  StronglySorted (fun a b => key b <= key a) l ->
  StronglySorted (fun a b => key b <= key a) (insert_desc key x l).
Proof.
  induction l as [| y l IH]; intros Hs.
  { repeat constructor. }
  cbn [insert_desc]. apply StronglySorted_cons in Hs as [Hy Hs].
  destruct (key y <=? key x) eqn:Hle.
  - apply Z.leb_le in Hle. apply StronglySorted_cons. split.
    + constructor; [done |].
      eapply Forall_impl; [exact Hy |]. intros z Hz. cbv beta in *. lia.
    + by apply StronglySorted_cons.
  - apply Z.leb_gt in Hle. apply StronglySorted_cons. split.
    + apply Forall_forall. intros z Hz.
      rewrite insert_desc_perm in Hz.
      apply elem_of_cons in Hz as [-> | Hz]; [lia |].
      by apply (proj1 (Forall_forall _ _) Hy).
    + by apply IH.
Qed.

Lemma order_by_desc_sorted {A} (key : A -> Z) (l : list A) :
  StronglySorted (fun a b => key b <= key a) (order_by_desc key l).
Proof.
  induction l as [| x l IH]; [constructor |].
  cbn [order_by_desc fold_right]. by apply insert_desc_sorted.
Qed.

Lemma elem_of_rev {A} (x : A) (l : list A) : x ∈ rev l <-> x ∈ l.
Proof. rewrite !list_elem_of_In. symmetry. apply in_rev. Qed.

Lemma rev_sorted {A} (R : relation A) (l : list A) :
  StronglySorted R l -> StronglySorted (flip R) (rev l).
Proof.
  induction 1 as [| x l Hs IH Hx]; [constructor |].
  cbn [rev]. apply StronglySorted_app. split; [| split; [done |]].
  - intros a b Ha Hb. apply list_elem_of_singleton in Hb as ->.
    rewrite elem_of_rev in Ha. unfold flip.
    by apply (proj1 (Forall_forall _ _) Hx).
  - repeat constructor.
Qed.

(** X8.  [get_recent_history] answers with at most [limit] messages, all of
    them the user's, in chronological order, and they are the most recent
    ones: no row of the user that was left out is newer than a row that was
    returned. *)
Theorem recent_history_window db uid (limit : nat) :
  (length (get_recent_history db uid (Z.of_nat limit)) <= limit)%nat
  /\ get_recent_history db uid (Z.of_nat limit)
     = map (fun kv => message_of_row (snd kv)) (recent_rows db uid limit)
  /\ (forall k row,
        (k, row) ∈ recent_rows db uid limit ->
        history db !! k = Some row /\ h_user_id row = uid)
  /\ StronglySorted
       (fun a b => h_created_at (snd a) <= h_created_at (snd b))
       (recent_rows db uid limit)
  /\ (forall k row k' row',
        (k, row) ∈ recent_rows db uid limit ->
        history db !! k' = Some row' ->
        h_user_id row' = uid ->
        (k', row') ∈ recent_rows db uid limit
        \/ h_created_at row' <= h_created_at row).
Proof.
  assert (get_recent_history db uid (Z.of_nat limit)
          = map (fun kv => message_of_row (snd kv))
                (recent_rows db uid limit)) as Hmsgs.
  { unfold get_recent_history.
    assert ((Z.of_nat limit <? 0) = false) as -> by (apply Z.ltb_ge; lia).
    by rewrite Nat2Z.id. }
  set (sorted := order_by_desc (fun kv : Z * HistoryRow => h_created_at (snd kv))
                   (map_to_list (filter (of_user uid) (history db)))).
  assert (forall kv, kv ∈ sorted
                     <-> history db !! fst kv = Some (snd kv)
                         /\ h_user_id (snd kv) = uid) as Hmem.
  { intros [k row]. unfold sorted. rewrite order_by_desc_perm.
    rewrite elem_of_map_to_list, map_lookup_filter_Some. done. }
  assert (StronglySorted
            (fun a b : Z * HistoryRow =>
               h_created_at (snd b) <= h_created_at (snd a)) sorted)
    as Hsorted by apply order_by_desc_sorted.
  split; [| split; [done | split; [| split]]].
  - rewrite Hmsgs, length_map. unfold recent_rows.
    rewrite length_rev, length_take. lia.
  - intros k row Hin. unfold recent_rows in Hin.
    rewrite elem_of_rev in Hin.
    pose proof (elem_of_sublist _ _ _ Hin (sublist_take _ limit)) as Hin'.
    by apply (Hmem (k, row)).
  - unfold recent_rows. fold sorted.
    rewrite <- (take_drop limit sorted) in Hsorted.
    apply StronglySorted_app_1_l in Hsorted.
    apply rev_sorted in Hsorted.
    eapply Sorted.StronglySorted_ind with (P := fun l =>
      StronglySorted (fun a b : Z * HistoryRow =>
         h_created_at (snd a) <= h_created_at (snd b)) l);
      [constructor | | exact Hsorted].
    intros a l _ IH Ha. by constructor.
  - intros k row k' row' Hin Hrow' Huser.
    unfold recent_rows in *. fold sorted in Hin |- *.
    rewrite elem_of_rev in Hin.
    assert ((k', row') ∈ sorted) as Hin' by (by apply (Hmem (k', row'))).
    rewrite <- (take_drop limit sorted) in Hin'.
    apply elem_of_app in Hin' as [Hin' | Hin'].
    + left. by rewrite elem_of_rev.
    + right. rewrite <- (take_drop limit sorted) in Hsorted.
      apply (StronglySorted_app_1_elem_of _ _ _ _ _ Hsorted Hin Hin').
Qed.

End RecentRows.

Section Queue.
Import Proactive Scheduler.

Lemma insert_asc_sorted {A} (key : A -> Z) (x : A) (l : list A) :
  StronglySorted (fun a b => key a <= key b) l ->
  StronglySorted (fun a b => key a <= key b) (insert_asc key x l).
Proof.
  induction l as [| y l IH]; intros Hs.
  { repeat constructor. }
  cbn [insert_asc]. apply StronglySorted_cons in Hs as [Hy Hs].
  destruct (key x <=? key y) eqn:Hle.
  - apply Z.leb_le in Hle. apply StronglySorted_cons. split.
    + constructor; [done |].
      eapply Forall_impl; [exact Hy |]. intros z Hz. cbv beta in *. lia.
    + by apply StronglySorted_cons.
  - apply Z.leb_gt in Hle. apply StronglySorted_cons. split.
    + apply Forall_forall. intros z Hz.
      rewrite insert_asc_perm in Hz.
      apply elem_of_cons in Hz as [-> | Hz]; [lia |].
      by apply (proj1 (Forall_forall _ _) Hy).
    + by apply IH.
Qed.

Lemma order_by_asc_sorted {A} (key : A -> Z) (l : list A) :
  StronglySorted (fun a b => key a <= key b) (order_by_asc key l).
Proof.
  induction l as [| x l IH]; [constructor |].
  cbn [order_by_asc fold_right]. by apply insert_asc_sorted.
Qed.

(** X9.  A sweep fetches at most fifty initiations, all of them pending and
    due, ordered by their scheduled time, and the oldest first: a due
    initiation that is left for the next sweep is not older than any that
    was fetched, and none is left when fewer than fifty were fetched. *)
Theorem pending_initiations_oldest_first db now :
  (length (_get_pending_initiations db now) <= 50)%nat
  /\ StronglySorted
       (fun a b => scheduled_at (snd a) <= scheduled_at (snd b))
       (_get_pending_initiations db now)
  /\ (forall k r,
        (k, r) ∈ _get_pending_initiations db now ->
        initiation_schedule db !! k = Some r
        /\ status r = PENDING
        /\ scheduled_at r <= now)
  /\ (forall k r k' r',
        (k, r) ∈ _get_pending_initiations db now ->
        initiation_schedule db !! k' = Some r' ->
        status r' = PENDING ->
        scheduled_at r' <= now ->
        (k', r') ∈ _get_pending_initiations db now
        \/ scheduled_at r <= scheduled_at r')
  /\ ((length (_get_pending_initiations db now) < 50)%nat ->
      forall k r,
        initiation_schedule db !! k = Some r ->
        status r = PENDING ->
        scheduled_at r <= now ->
        (k, r) ∈ _get_pending_initiations db now).
Proof.
  unfold _get_pending_initiations.
  set (sorted := order_by_asc (fun kv : Z * ScheduleRow => scheduled_at (snd kv))
                   (map_to_list (filter (due now) (initiation_schedule db)))).
  assert (forall k r, (k, r) ∈ sorted
                      <-> initiation_schedule db !! k = Some r
                          /\ status r = PENDING /\ scheduled_at r <= now)
    as Hmem.
  { intros k r. unfold sorted. rewrite order_by_asc_perm.
    rewrite elem_of_map_to_list, map_lookup_filter_Some. done. }
  assert (StronglySorted
            (fun a b : Z * ScheduleRow =>
               scheduled_at (snd a) <= scheduled_at (snd b)) sorted)
    as Hsorted by apply order_by_asc_sorted.
  split; [| split; [| split; [| split]]].
  - rewrite length_take. lia.
  - rewrite <- (take_drop 50 sorted) in Hsorted.
    by apply StronglySorted_app_1_l in Hsorted.
  - intros k r Hin. apply Hmem.
    apply (elem_of_sublist _ _ _ Hin (sublist_take _ 50)).
  - intros k r k' r' Hin Hrow Hp Hdue.
    assert ((k', r') ∈ sorted) as Hin' by (by apply Hmem).
    rewrite <- (take_drop 50 sorted) in Hin'.
    apply elem_of_app in Hin' as [Hin' | Hin']; [by left | right].
    rewrite <- (take_drop 50 sorted) in Hsorted.
    apply (StronglySorted_app_1_elem_of _ _ _ _ _ Hsorted Hin Hin').
  - intros Hshort k r Hrow Hp Hdue. rewrite length_take in Hshort.
    rewrite take_ge by lia. by apply Hmem.
Qed.

End Queue.

Section Sweep.
Import Proactive DispatchSpec Commands Scheduler Lifecycle.

Lemma row_step_refl row : row_step row row.
Proof. repeat split. by left. Qed.

Lemma row_step_trans a b c : row_step a b -> row_step b c -> row_step a c.
Proof.
  intros (Hs1 & Hu1 & Ht1 & Hy1) (Hs2 & Hu2 & Ht2 & Hy2).
  split; [by eapply status_step_trans |]. repeat split; congruence.
Qed.

(** What one turn of the dispatch loop does to the row it handles. *)
Lemma dispatch_one_row outcome now db k r row :
  initiation_schedule db !! k = Some row ->
  exists row',
    initiation_schedule (dispatch_one outcome now db (k, r)) !! k = Some row'
    /\ status row' = outcome_status (outcome k)
    /\ sched_user_id row' = sched_user_id row
    /\ scheduled_at row' = scheduled_at row
    /\ sched_initiation_type row' = sched_initiation_type row.
Proof.
  intros Hrow. unfold dispatch_one, _mark_initiation_sent,
    _mark_initiation_failed. cbn [fst].
  destruct (outcome k); cbn [initiation_schedule with_schedule].
  - rewrite Hrow. cbn [initiation_schedule]. rewrite lookup_insert_eq.
    by eexists.
  - rewrite lookup_alter_eq, Hrow. by eexists.
  - rewrite lookup_alter_eq, Hrow. by eexists.
Qed.

(** The rows after the loop: a fetched one carries the status of its
    outcome, every other one is as it was. *)
Lemma dispatch_fold_rows outcome now (queue : list (Z * ScheduleRow)) :
  forall db,
    NoDup (fst <$> queue) ->
    forall id row,
      initiation_schedule db !! id = Some row ->
      exists row',
        initiation_schedule (fold_left (dispatch_one outcome now) queue db)
          !! id = Some row'
        /\ sched_user_id row' = sched_user_id row
        /\ scheduled_at row' = scheduled_at row
        /\ sched_initiation_type row' = sched_initiation_type row
        /\ (if decide (id ∈ fst <$> queue)
            then status row' = outcome_status (outcome id)
            else row' = row).
Proof.
  induction queue as [| [k r] queue IH]; intros db Hnd id row Hrow.
  { exists row. by repeat split. }
  cbn [fold_left]. rewrite fmap_cons in Hnd.
  apply NoDup_cons in Hnd as [Hk Hnd]. cbn [fst] in Hk.
  destruct (decide (id = k)) as [-> | Hne].
  - destruct (dispatch_one_row outcome now db k r row Hrow)
      as (r1 & Hr1 & Hs1 & Hu1 & Ht1 & Hy1).
    destruct (IH _ Hnd k r1 Hr1) as (row' & Hrow' & Hu & Ht & Hy & Hcase).
    exists row'. split; [done |].
    repeat split; try congruence.
    rewrite decide_False in Hcase by done. subst row'.
    rewrite decide_True; [done |]. rewrite fmap_cons. by left.
  - rewrite <- (dispatch_one_other outcome now db k r id Hne) in Hrow.
    destruct (IH _ Hnd id row Hrow) as (row' & Hrow' & Hu & Ht & Hy & Hcase).
    exists row'. split; [done |]. repeat split; try done.
    destruct (decide (id ∈ fst <$> queue)) as [Hin | Hout].
    + rewrite decide_True; [done |]. rewrite fmap_cons. by right.
    + rewrite decide_False; [done |]. rewrite fmap_cons.
      intros [E | Hin]%elem_of_cons; [by apply Hne | by apply Hout].
Qed.

Lemma dispatch_fold_other outcome now (queue : list (Z * ScheduleRow)) :
  forall db id,
    id ∉ fst <$> queue ->
    initiation_schedule (fold_left (dispatch_one outcome now) queue db) !! id
    = initiation_schedule db !! id.
Proof.
  induction queue as [| [k r] queue IH]; intros db id Hout; [done |].
  cbn [fold_left]. rewrite fmap_cons in Hout.
  apply not_elem_of_cons in Hout as [Hne Hout]. cbn [fst] in Hne.
  rewrite IH by done. by apply dispatch_one_other.
Qed.

Lemma fetched_key db now k :
  k ∈ fst <$> _get_pending_initiations db now ->
  exists r, (k, r) ∈ _get_pending_initiations db now.
Proof.
  intros Hin. apply list_elem_of_fmap in Hin as ([k' r] & -> & Hin).
  by exists r.
Qed.

Lemma sweep_row_step outcome db now id row :
  initiation_schedule db !! id = Some row ->
  exists row',
    initiation_schedule (send_scheduled_initiations outcome db now) !! id
    = Some row'
    /\ row_step row row'.
Proof.
  intros Hrow. unfold send_scheduled_initiations.
  destruct (dispatch_fold_rows outcome now (_get_pending_initiations db now)
              db (pending_no_dup db now) id row Hrow)
    as (row' & Hrow' & Hu & Ht & Hy & Hcase).
  exists row'. split; [done |]. repeat split; try done.
  destruct (decide (id ∈ _)) as [Hin | Hout].
  - apply fetched_key in Hin as (r & Hin).
    apply pending_are_due in Hin as [Hr Hp].
    right. congruence.
  - left. by subst.
Qed.

(** X10.  Every initiation that a sweep fetched ends sent when it was
    delivered and failed otherwise, with its user, time and type untouched;
    every row that was not fetched is as it was; and no sweep fetches it
    again. *)
Theorem sweep_settles_fetched outcome db now k r :
  (k, r) ∈ _get_pending_initiations db now ->
  (exists row',
     initiation_schedule (send_scheduled_initiations outcome db now) !! k
     = Some row'
     /\ status row' = outcome_status (outcome k)
     /\ sched_user_id row' = sched_user_id r
     /\ scheduled_at row' = scheduled_at r
     /\ sched_initiation_type row' = sched_initiation_type r)
  /\ (forall id,
        id ∉ fst <$> _get_pending_initiations db now ->
        initiation_schedule (send_scheduled_initiations outcome db now) !! id
        = initiation_schedule db !! id)
  /\ (forall now' r',
        (k, r') ∉ _get_pending_initiations
                    (send_scheduled_initiations outcome db now) now').
Proof.
  intros Hin. pose proof (pending_are_due _ _ _ _ Hin) as [Hrow Hp].
  unfold send_scheduled_initiations at 1 2.
  destruct (dispatch_fold_rows outcome now (_get_pending_initiations db now)
              db (pending_no_dup db now) k r Hrow)
    as (row' & Hrow' & Hu & Ht & Hy & Hcase).
  rewrite decide_True in Hcase
    by (apply list_elem_of_fmap; by exists (k, r)).
  split; [by exists row' |].
  split; [intros id Hout; by apply dispatch_fold_other |].
  intros now' r' Hagain. apply pending_are_due in Hagain as [Hr' Hp'].
  unfold send_scheduled_initiations in Hr'.
  assert (r' = row') as -> by congruence.
  rewrite Hcase in Hp'. by destruct (outcome k).
Qed.

End Sweep.

Lemma sweep_settles_fetched_witness :
  exists row',
    Proactive.initiation_schedule
      (Proactive.send_scheduled_initiations
         (fun _ => Proactive.Delivered "hello") ProactiveSample.one_due
         ProactiveSample.T0) !! 1
    = Some row'
    /\ Proactive.status row' = Proactive.SENT
    /\ Proactive.sched_user_id row' = 7
    /\ Proactive.scheduled_at row' = ProactiveSample.T0
    /\ Proactive.sched_initiation_type row' = "continuation".
Proof.
  refine (proj1 (sweep_settles_fetched (fun _ => Proactive.Delivered "hello")
                   ProactiveSample.one_due ProactiveSample.T0 1
                   ProactiveSample.due_row _)).
  assert (Proactive._get_pending_initiations ProactiveSample.one_due
            ProactiveSample.T0
          = [(1, ProactiveSample.due_row)]) as ->
    by (vm_compute; reflexivity).
  by left.
Defined.


Section Delivery.
Import Proactive DispatchSpec Commands Scheduler Lifecycle.







End Delivery.



Section LifecycleSteps.
Import Proactive DispatchSpec Commands Scheduler Lifecycle.
Variable str_lower : string -> string.

Lemma respond_row_step db uid message emotion now id row :
  initiation_schedule db !! id = Some row ->
  exists row',
    initiation_schedule
      (snd (process_user_response str_lower db uid message emotion now)) !! id
    = Some row'
    /\ row_step row row'.
Proof.
  intros Hrow. unfold process_user_response.
  destruct (latest_unresponded db uid now) as [[log_id entry] |];
    [| exists row; split; [done | apply row_step_refl]].
  destruct (response_minutes _ _);
    [| exists row; split; [done | apply row_step_refl]].
  cbn [snd initiation_schedule].
  destruct (initiation_id entry) as [iid |];
    [| exists row; split; [done | apply row_step_refl]].
  destruct (iid =? 0); [exists row; split; [done | apply row_step_refl] |].
  destruct (decide (iid = id)) as [-> | Hne].
  - rewrite lookup_alter_eq, Hrow. eexists. split; [done |].
    repeat split. by left.
  - rewrite lookup_alter_ne by done. exists row.
    split; [done | apply row_step_refl].
Qed.

(** The row after an update that cancels the pending rows that [hit]
    selects. *)
Lemma cancel_where_step (hit : ScheduleRow -> bool) row :
  row_step row (if hit row && status_eqb (status row) PENDING
                then cancel_row row else row).
Proof.
  destruct (hit row); [| apply row_step_refl].
  destruct (status row) eqn:Hs; cbn [andb status_eqb];
    try apply row_step_refl.
  repeat split. by right.
Qed.

Lemma disable_row_step db uid id row :
  initiation_schedule db !! id = Some row ->
  exists row',
    initiation_schedule (disable_proactivity db uid) !! id = Some row'
    /\ row_step row row'.
Proof.
  intros Hrow. unfold disable_proactivity. cbn [initiation_schedule].
  rewrite lookup_fmap, Hrow. eexists. split; [done |].
  apply (cancel_where_step (fun row => sched_user_id row =? uid)).
Qed.

Lemma pause_row_step db uid pause_until id row :
  initiation_schedule db !! id = Some row ->
  exists row',
    initiation_schedule (set_proactivity_pause db uid pause_until) !! id
    = Some row'
    /\ row_step row row'.
Proof.
  intros Hrow. unfold set_proactivity_pause. cbn [initiation_schedule].
  rewrite lookup_fmap, Hrow. eexists. split; [done |].
  pose proof (cancel_where_step
                (fun row => (sched_user_id row =? uid)
                            && (scheduled_at row <=? pause_until)) row) as H.
  cbv beta in H.
  replace ((sched_user_id row =? uid) && status_eqb (status row) PENDING
           && (scheduled_at row <=? pause_until))
    with ((sched_user_id row =? uid) && (scheduled_at row <=? pause_until)
          && status_eqb (status row) PENDING); [done |].
  by destruct (_ =? _), (_ <=? _), (status_eqb _ _).
Qed.

Lemma cleanup_row_step db now id row :
  initiation_schedule db !! id = Some row ->
  exists row',
    initiation_schedule (cleanup_old_initiations db now) !! id = Some row'
    /\ row_step row row'.
Proof.
  intros Hrow. unfold cleanup_old_initiations. cbn [initiation_schedule].
  rewrite lookup_fmap, Hrow. eexists. split; [done |].
  pose proof (cancel_where_step
                (fun row => scheduled_at row <? now - 48 * HOUR) row) as H.
  cbv beta in H. by rewrite andb_comm.
Qed.

Lemma schedule_row_step db candidate scheduled_time id row :
  initiation_schedule db !! id = Some row ->
  initiation_schedule (_schedule_initiation db candidate scheduled_time) !! id
  = Some row.
Proof.
  intros Hrow. unfold _schedule_initiation.
  cbn [initiation_schedule with_schedule].
  rewrite lookup_insert_ne; [done |].
  intros <-. by rewrite next_id_fresh in Hrow.
Qed.

Lemma row_step_kept before after :
  row_step before after -> row_kept before after.
Proof.
  intros ([Hs | Hs] & Hu & Ht & Hy); repeat split; try done.
  intros Hp. congruence.
Qed.

Lemma row_kept_refl row : row_kept row row.
Proof. by repeat split. Qed.

Lemma row_kept_trans a b c : row_kept a b -> row_kept b c -> row_kept a c.
Proof.
  intros (Hu1 & Ht1 & Hy1 & Hs1) (Hu2 & Ht2 & Hy2 & Hs2).
  repeat split; try congruence. intros Hp. by apply Hs1, Hs2.
Qed.

(** A mark changes the marked row to a terminal status, whatever status
    the row has by then, and no other row. *)
Lemma mark_row_kept outcome now db initiation id row :
  initiation_schedule db !! id = Some row ->
  exists row',
    initiation_schedule (dispatch_one (fun _ => outcome) now db initiation)
      !! id = Some row'
    /\ row_kept row row'.
Proof.
  intros Hrow. destruct initiation as [k r].
  destruct (decide (id = k)) as [-> | Hne].
  - destruct (dispatch_one_row (fun _ => outcome) now db k r row Hrow)
      as (row' & Hrow' & Hs & Hu & Ht & Hy).
    exists row'. split; [done |]. repeat split; try done.
    rewrite Hs. by destruct outcome.
  - exists row. split; [| apply row_kept_refl].
    by rewrite dispatch_one_other.
Qed.

Lemma run_op_row_kept st op id row :
  initiation_schedule (store st) !! id = Some row ->
  exists row',
    initiation_schedule (store (Lifecycle.run_op str_lower st op)) !! id
    = Some row'
    /\ row_kept row row'.
Proof.
  intros Hrow.
  destruct op as [now | outcome now | uid message emotion now | uid | uid
                  | uid pause_until | now | candidate scheduled_time];
    cbn [Lifecycle.run_op on_store store].
  - exists row. split; [| apply row_kept_refl].
    by destruct (fetched st).
  - destruct (fetched st) as [| initiation rest];
      [exists row; split; [done | apply row_kept_refl] |].
    cbn [store]. by apply mark_row_kept.
  - destruct (respond_row_step (store st) uid message emotion now id row
                Hrow) as (row' & Hrow' & Hstep).
    exists row'. split; [done | by apply row_step_kept].
  - destruct (disable_row_step (store st) uid id row Hrow)
      as (row' & Hrow' & Hstep).
    exists row'. split; [done | by apply row_step_kept].
  - exists row. split; [done | apply row_kept_refl].
  - destruct (pause_row_step (store st) uid pause_until id row Hrow)
      as (row' & Hrow' & Hstep).
    exists row'. split; [done | by apply row_step_kept].
  - destruct (cleanup_row_step (store st) now id row Hrow)
      as (row' & Hrow' & Hstep).
    exists row'. split; [done | by apply row_step_kept].
  - exists row. split; [by apply schedule_row_step | apply row_kept_refl].
Qed.

(** The marks of a sweep, run one after the other, are the loop of
    [send_scheduled_initiations]. *)
Lemma marks_are_the_loop outcome now (queue : list (Z * ScheduleRow)) :
  forall db,
    Lifecycle.run str_lower {| store := db; fetched := queue |}
      (map (fun initiation => Mark (outcome (fst initiation)) now) queue)
    = idle (fold_left (dispatch_one outcome now) queue db).
Proof.
  induction queue as [| initiation queue IH]; intros db; [reflexivity |].
  unfold Lifecycle.run in *. cbn [map fold_left Lifecycle.run_op fetched store].
  by rewrite IH.
Qed.

(** A sweep that nothing interrupts is [send_scheduled_initiations]. *)
Lemma whole_sweep_is_atomic outcome db now :
  Lifecycle.run str_lower (idle db) (whole_sweep outcome db now)
  = idle (send_scheduled_initiations outcome db now).
Proof.
  unfold whole_sweep, Lifecycle.run. cbn [fold_left].
  unfold Lifecycle.run_op at 2. cbn [idle fetched store].
  apply marks_are_the_loop.
Qed.

(** X12.  Through every interleaving of the steps of the sweeps (the
    fetch, then one marking update per fetched row, with anything else in
    between), of responses, opting in and out, pauses, clean-ups and new
    scheduling, a schedule row is never removed, keeps its user, time and
    type, and once its status has left pending it is never pending
    again. *)
Theorem schedule_rows_persist (ops : list Op) :
  forall st id row,
    initiation_schedule (store st) !! id = Some row ->
    exists row',
      initiation_schedule (store (Lifecycle.run str_lower st ops)) !! id
      = Some row'
      /\ row_kept row row'.
Proof.
  induction ops as [| op ops IH]; intros st id row Hrow.
  { exists row. split; [done | apply row_kept_refl]. }
  unfold Lifecycle.run. cbn [fold_left].
  destruct (run_op_row_kept st op id row Hrow) as (row1 & Hrow1 & Hstep1).
  destruct (IH _ id row1 Hrow1) as (row' & Hrow' & Hstep').
  exists row'. split; [done |]. by eapply row_kept_trans.
Qed.

End LifecycleSteps.

Lemma schedule_rows_persist_witness :
  exists row',
    Proactive.initiation_schedule
      (Lifecycle.store
         (Lifecycle.run id (Lifecycle.idle ProactiveSample.one_due)
            Scenario.busy_week)) !! 1
    = Some row'
    /\ Lifecycle.row_kept ProactiveSample.due_row row'.
Proof.
  apply (schedule_rows_persist id Scenario.busy_week
           (Lifecycle.idle ProactiveSample.one_due) 1
           ProactiveSample.due_row).
  vm_compute. reflexivity.
Defined.

(** The interleaving that the atomic sweep hides: the row is fetched, the
    opt-out cancels it, and the mark of the sweep in flight sets it to
    sent. *)
Lemma opt_out_during_sweep :
  ProactiveSample.status_of
    (Lifecycle.store
       (Lifecycle.run id (Lifecycle.idle ProactiveSample.one_due)
          (firstn 2 Scenario.interrupted_sweep))) 1
  = Some Proactive.CANCELLED
  /\ ProactiveSample.status_of
       (Lifecycle.store
          (Lifecycle.run id (Lifecycle.idle ProactiveSample.one_due)
             Scenario.interrupted_sweep)) 1
     = Some Proactive.SENT.
Proof. split; vm_compute; reflexivity. Qed.


Section Settings.
Import Proactive DispatchSpec Commands Scheduler Lifecycle.

Lemma eligible_iff db now uid :
  uid ∈ _get_eligible_users db now
  <-> exists ups,
        user_proactivity_settings db !! uid = Some ups
        /\ eligible_row db now uid ups = true.
Proof.
  unfold _get_eligible_users. rewrite list_elem_of_fmap. split.
  - intros ([k ups] & -> & Hin).
    apply elem_of_map_to_list, map_lookup_filter_Some in Hin as [Hups Hrow].
    by exists ups.
  - intros (ups & Hups & Hrow). exists (uid, ups). split; [done |].
    by apply elem_of_map_to_list, map_lookup_filter_Some.
Qed.

Lemma eligible_row_users db db' now uid ups :
  users db' = users db ->
  eligible_row db' now uid ups = eligible_row db now uid ups.
Proof. intros H. unfold eligible_row. by rewrite H. Qed.

(** X13.  Opting out works at once and for good: the user is not eligible at
    any later instant, the command reports the feature as off, no sweep
    fetches an initiation of the user, and nobody else's eligibility
    changes. *)
Theorem opt_out_is_effective db uid now :
  (uid ∉ _get_eligible_users (disable_proactivity db uid) now)
  /\ is_proactivity_enabled (disable_proactivity db uid) uid now = false
  /\ (forall k r,
        (k, r) ∈ _get_pending_initiations (disable_proactivity db uid) now ->
        sched_user_id r <> uid)
  /\ (forall other,
        other <> uid ->
        (other ∈ _get_eligible_users (disable_proactivity db uid) now
         <-> other ∈ _get_eligible_users db now)).
Proof.
  split; [| split; [| split]].
  - intros Hin. apply eligible_iff in Hin as (ups & Hups & Hrow).
    unfold disable_proactivity in Hups.
    cbn [user_proactivity_settings] in Hups.
    rewrite lookup_alter_eq in Hups.
    destruct (user_proactivity_settings db !! uid) as [ups0 |];
      [| done].
    injection Hups as <-. unfold eligible_row in Hrow.
    cbn [is_enabled] in Hrow. by destruct (users _ !! uid).
  - unfold is_proactivity_enabled, disable_proactivity.
    cbn [user_proactivity_settings]. rewrite lookup_alter_eq.
    by destruct (user_proactivity_settings db !! uid).
  - intros k r Hin Huser. apply pending_are_due in Hin as [Hr Hp].
    unfold disable_proactivity in Hr. cbn [initiation_schedule] in Hr.
    rewrite lookup_fmap in Hr.
    destruct (initiation_schedule db !! k) as [row |]; [| done].
    injection Hr as <-.
    destruct (sched_user_id row =? uid) eqn:Hu.
    + destruct (status row) eqn:Hs; cbn [andb status_eqb] in *;
        cbn [status cancel_row] in Hp; congruence.
    + cbn [andb] in Huser. by apply Z.eqb_neq in Hu.
  - intros other Hne. rewrite !eligible_iff.
    unfold disable_proactivity at 1. cbn [user_proactivity_settings].
    rewrite lookup_alter_ne by done.
    split; intros (ups & Hups & Hrow); exists ups; split; try done;
      by rewrite (eligible_row_users db) in * by done.
Qed.

(** X14.  While a pause lasts the user is not eligible and no sweep fetches
    an initiation of the user; before its end the command reports the
    feature as off; initiations scheduled after the pause are kept. *)
Theorem pause_is_effective db uid pause_until now :
  now <= pause_until ->
  (uid ∉ _get_eligible_users (set_proactivity_pause db uid pause_until) now)
  /\ (forall k r,
        (k, r) ∈ _get_pending_initiations
                   (set_proactivity_pause db uid pause_until) now ->
        sched_user_id r <> uid)
  /\ (now < pause_until ->
      is_proactivity_enabled (set_proactivity_pause db uid pause_until)
                             uid now = false)
  /\ (forall id row,
        initiation_schedule db !! id = Some row ->
        pause_until < scheduled_at row ->
        initiation_schedule (set_proactivity_pause db uid pause_until) !! id
        = Some row).
Proof.
  intros Hnow. split; [| split; [| split]].
  - intros Hin. apply eligible_iff in Hin as (ups & Hups & Hrow).
    unfold set_proactivity_pause in Hups.
    cbn [user_proactivity_settings] in Hups.
    rewrite lookup_alter_eq in Hups.
    destruct (user_proactivity_settings db !! uid) as [ups0 |]; [| done].
    injection Hups as <-. unfold eligible_row in Hrow.
    cbn [paused_until is_enabled] in Hrow.
    destruct (users _ !! uid); [| done].
    assert ((pause_until <? now) = false) as Hp by (apply Z.ltb_ge; lia).
    rewrite Hp, andb_false_r in Hrow. done.
  - intros k r Hin Huser.
    unfold _get_pending_initiations in Hin.
    pose proof (elem_of_sublist _ _ _ Hin (sublist_take _ 50)) as Hin'.
    rewrite order_by_asc_perm in Hin'.
    apply elem_of_map_to_list, map_lookup_filter_Some in Hin'
      as [Hr [Hp Hdue]].
    cbn [snd] in Hp, Hdue.
    unfold set_proactivity_pause in Hr. cbn [initiation_schedule] in Hr.
    rewrite lookup_fmap in Hr.
    destruct (initiation_schedule db !! k) as [row |]; [| done].
    injection Hr as <-.
    destruct (sched_user_id row =? uid) eqn:Hu.
    + destruct (status row) eqn:Hs; cbn [andb status_eqb] in *;
        try (cbn [status cancel_row] in Hp; congruence).
      destruct (scheduled_at row <=? pause_until) eqn:Ht.
      * cbn [status cancel_row] in Hp. congruence.
      * apply Z.leb_gt in Ht. lia.
    + cbn [andb] in Huser. by apply Z.eqb_neq in Hu.
  - intros Hstrict. unfold is_proactivity_enabled, set_proactivity_pause.
    cbn [user_proactivity_settings]. rewrite lookup_alter_eq.
    destruct (user_proactivity_settings db !! uid) as [ups0 |]; [| done].
    cbn [fmap option_fmap option_map is_enabled paused_until].
    destruct (negb (is_enabled ups0)); [done |].
    by apply Z.ltb_lt in Hstrict as ->.
  - intros id row Hrow Hlater. unfold set_proactivity_pause.
    cbn [initiation_schedule]. rewrite lookup_fmap, Hrow. cbn.
    apply Z.leb_gt in Hlater as ->. by rewrite andb_false_r.
Qed.

(** X15.  A user who opts in for the first time becomes eligible exactly
    when the account is authorized and the user id is even: the group is
    assigned by parity, and only group A is served.  The command reports the
    feature as on either way.  Opting in again clears a pause and keeps the
    group that was stored. *)
Theorem opt_in_eligibility db uid u now :
  users db !! uid = Some u ->
  is_proactivity_enabled (enable_proactivity db uid) uid now = true
  /\ (user_proactivity_settings db !! uid = None ->
      (uid ∈ _get_eligible_users (enable_proactivity db uid) now
       <-> is_authorized u = true /\ uid mod 2 = 0))
  /\ (forall ups,
        user_proactivity_settings db !! uid = Some ups ->
        (uid ∈ _get_eligible_users (enable_proactivity db uid) now
         <-> is_authorized u = true /\ ab_test_group ups = Some "A")).
Proof.
  intros Hu.
  assert (forall ups,
            user_proactivity_settings (enable_proactivity db uid) !! uid
            = Some ups ->
            eligible_row (enable_proactivity db uid) now uid ups
            = is_authorized u
              && match ab_test_group ups with
                 | Some g => String.eqb g "A"
                 | None => false
                 end) as Hrow.
  { intros ups Hups. unfold enable_proactivity in Hups.
    cbn [user_proactivity_settings with_settings] in Hups.
    rewrite lookup_insert_eq in Hups. unfold eligible_row.
    cbn [users enable_proactivity with_settings]. rewrite Hu.
    destruct (user_proactivity_settings db !! uid); injection Hups as <-;
      reflexivity. }
  split; [| split].
  - unfold is_proactivity_enabled, enable_proactivity.
    cbn [user_proactivity_settings with_settings].
    rewrite lookup_insert_eq.
    by destruct (user_proactivity_settings db !! uid).
  - intros Hnew. rewrite eligible_iff. split.
    + intros (ups & Hups & Hel). rewrite (Hrow _ Hups) in Hel.
      unfold enable_proactivity in Hups.
      cbn [user_proactivity_settings with_settings] in Hups.
      rewrite lookup_insert_eq, Hnew in Hups. injection Hups as <-.
      cbn [ab_test_group] in Hel. unfold get_or_assign_ab_group in Hel.
      apply andb_prop in Hel as [Ha Hg]. split; [done |].
      destruct (uid mod 2 =? 0) eqn:Hpar; [by apply Z.eqb_eq | done].
    + intros [Ha Hpar]. eexists. split.
      * unfold enable_proactivity.
        cbn [user_proactivity_settings with_settings].
        by rewrite lookup_insert_eq, Hnew.
      * rewrite Hrow.
        -- cbn [ab_test_group]. unfold get_or_assign_ab_group.
           rewrite Ha, Hpar. reflexivity.
        -- unfold enable_proactivity.
           cbn [user_proactivity_settings with_settings].
           by rewrite lookup_insert_eq, Hnew.
  - intros ups0 Hold. rewrite eligible_iff. split.
    + intros (ups & Hups & Hel). rewrite (Hrow _ Hups) in Hel.
      unfold enable_proactivity in Hups.
      cbn [user_proactivity_settings with_settings] in Hups.
      rewrite lookup_insert_eq, Hold in Hups. injection Hups as <-.
      cbn [ab_test_group] in Hel.
      apply andb_prop in Hel as [Ha Hg]. split; [done |].
      destruct (ab_test_group ups0) as [g |]; [| done].
      f_equal. by apply String.eqb_eq.
    + intros [Ha Hg]. eexists. split.
      * unfold enable_proactivity.
        cbn [user_proactivity_settings with_settings].
        by rewrite lookup_insert_eq, Hold.
      * rewrite Hrow.
        -- cbn [ab_test_group]. by rewrite Ha, Hg.
        -- unfold enable_proactivity.
           cbn [user_proactivity_settings with_settings].
           by rewrite lookup_insert_eq, Hold.
Qed.

(** X16.  The engine serves exactly the users for whom the command reports
    the feature as on, whose account is authorized, whose group is A, and
    whose pause does not end at this very instant. *)
Theorem eligible_iff_enabled db uid now :
  uid ∈ _get_eligible_users db now
  <-> is_proactivity_enabled db uid now = true
      /\ (exists u, users db !! uid = Some u /\ is_authorized u = true)
      /\ (exists ups,
            user_proactivity_settings db !! uid = Some ups
            /\ ab_test_group ups = Some "A"
            /\ paused_until ups <> Some now).
Proof.
  rewrite eligible_iff. unfold is_proactivity_enabled. split.
  - intros (ups & Hups & Hrow). rewrite Hups.
    apply eligible_row_spec in Hrow as (u & Hu & Hen & Hpause & Ha & Hg).
    rewrite Hen. cbn [negb]. split; [| split].
    + destruct Hpause as [-> | (t & -> & Ht)]; [done |].
      by assert ((now <? t) = false) as -> by (apply Z.ltb_ge; lia).
    + by exists u.
    + exists ups. repeat split; try done.
      destruct Hpause as [-> | (t & -> & Ht)]; [done |].
      intros [= ->]. lia.
  - intros (Hen & (u & Hu & Ha) & (ups & Hups & Hg & Hnot)).
    exists ups. split; [done |]. rewrite Hups in Hen.
    apply eligible_row_spec. exists u.
    destruct (is_enabled ups) eqn:He; [| done]. cbn [negb] in Hen.
    repeat split; try done.
    destruct (paused_until ups) as [t |]; [| by left]. right.
    exists t. split; [done |].
    destruct (now <? t) eqn:Ht; [done |]. apply Z.ltb_ge in Ht.
    assert (t <> now) by congruence. lia.
Qed.

End Settings.

Lemma pause_is_effective_witness :
  Commands.is_proactivity_enabled
    (Commands.set_proactivity_pause ProactiveSample.one_due 7
       (ProactiveSample.T0 + Proactive.DAY))
    7 ProactiveSample.T0
  = false.
Proof.
  refine (proj1 (proj2 (proj2
            (pause_is_effective ProactiveSample.one_due 7
               (ProactiveSample.T0 + Proactive.DAY) ProactiveSample.T0 _)))
            _).
  - vm_compute. discriminate.
  - vm_compute. reflexivity.
Defined.

Lemma opt_in_eligibility_witness :
  Commands.is_proactivity_enabled
    (Commands.enable_proactivity Scenario.two_newcomers 7) 7
    ProactiveSample.T0
  = true
  /\ (7 ∈ Proactive._get_eligible_users
            (Commands.enable_proactivity Scenario.two_newcomers 7)
            ProactiveSample.T0
      <-> true = true /\ 7 mod 2 = 0).
Proof.
  destruct (opt_in_eligibility Scenario.two_newcomers 7
              {| Proactive.is_authorized := true |} ProactiveSample.T0)
    as (Hon & Hnew & _).
  - vm_compute. reflexivity.
  - split; [exact Hon |]. apply Hnew. vm_compute. reflexivity.
Defined.


Section Cleanup.
Import Proactive DispatchSpec Commands Scheduler Lifecycle.

Lemma silence_mode_ext cfg db db' uid now :
  filter (ignored_recently uid now) (initiation_logs db')
  = filter (ignored_recently uid now) (initiation_logs db) ->
  filter (answered_recently uid now) (initiation_logs db')
  = filter (answered_recently uid now) (initiation_logs db) ->
  history db' = history db ->
  _is_in_silence_mode cfg db' uid now = _is_in_silence_mode cfg db uid now.
Proof.
  intros Hi Ha Hh.
  unfold _is_in_silence_mode, ignored_count, avg_length, stress_count,
    recent_emotions.
  by rewrite Hi, Ha, Hh.
Qed.

Lemma cancel_overdue_idem now row :
  let f := fun row =>
             if status_eqb (status row) PENDING
                && (scheduled_at row <? now - 48 * HOUR)
             then cancel_row row else row in
  f (f row) = f row.
Proof.
  cbv zeta beta.
  destruct (status_eqb (status row) PENDING
            && (scheduled_at row <? now - 48 * HOUR)) eqn:H; [| by rewrite H].
  reflexivity.
Qed.

(** X17.  The daily clean-up leaves no pending initiation that is more than
    48 hours overdue, touches no other row, deletes only log entries older
    than 30 days, and so changes the answer of the silence check for no user
    at any instant from 23 days before it on, nor the entry that a later
    response is correlated with; running it twice is running it once. *)
Theorem cleanup_old_initiations_spec db now :
  (forall id row,
     initiation_schedule (cleanup_old_initiations db now) !! id = Some row ->
     status row = PENDING ->
     now - 48 * HOUR <= scheduled_at row
     /\ initiation_schedule db !! id = Some row)
  /\ (forall id row,
        initiation_schedule db !! id = Some row ->
        status row <> PENDING \/ now - 48 * HOUR <= scheduled_at row ->
        initiation_schedule (cleanup_old_initiations db now) !! id
        = Some row)
  /\ (forall id entry,
        initiation_logs db !! id = Some entry ->
        now - 30 * DAY <= log_created_at entry ->
        initiation_logs (cleanup_old_initiations db now) !! id = Some entry)
  /\ (forall cfg uid now',
        now - 23 * DAY <= now' ->
        _is_in_silence_mode cfg (cleanup_old_initiations db now) uid now'
        = _is_in_silence_mode cfg db uid now')
  /\ (forall uid now',
        now <= now' ->
        latest_unresponded (cleanup_old_initiations db now) uid now'
        = latest_unresponded db uid now')
  /\ cleanup_old_initiations (cleanup_old_initiations db now) now
     = cleanup_old_initiations db now.
Proof.
  split; [| split; [| split; [| split; [| split]]]].
  - intros id row Hrow Hp. unfold cleanup_old_initiations in Hrow.
    cbn [initiation_schedule] in Hrow. rewrite lookup_fmap in Hrow.
    destruct (initiation_schedule db !! id) as [row0 |]; [| done].
    injection Hrow as <-.
    destruct (status_eqb (status row0) PENDING) eqn:Hs; cbn [andb] in *.
    + destruct (scheduled_at row0 <? now - 48 * HOUR) eqn:Ht.
      * cbn [status cancel_row] in Hp. done.
      * apply Z.ltb_ge in Ht. by split.
    + rewrite Hp in Hs. done.
  - intros id row Hrow Hkept. unfold cleanup_old_initiations.
    cbn [initiation_schedule]. rewrite lookup_fmap, Hrow. cbn.
    destruct Hkept as [Hs | Ht].
    + by destruct (status row).
    + apply Z.ltb_ge in Ht as ->. by rewrite andb_false_r.
  - intros id entry Hentry Hkeep. unfold cleanup_old_initiations.
    cbn [initiation_logs]. by apply map_lookup_filter_Some_2.
  - intros cfg uid now' Hsoon. apply silence_mode_ext; [| | done].
    + unfold cleanup_old_initiations. cbn [initiation_logs].
      rewrite map_filter_filter. apply map_filter_ext.
      intros id entry _. cbn [snd]. unfold ignored_recently. cbn [snd].
      unfold DAY, HOUR, MINUTE in *. split; [tauto |].
      intros (? & ? & ?). repeat split; try done. lia.
    + unfold cleanup_old_initiations. cbn [initiation_logs].
      rewrite map_filter_filter. apply map_filter_ext.
      intros id entry _. cbn [snd]. unfold answered_recently. cbn [snd].
      unfold DAY, HOUR, MINUTE in *. split; [tauto |].
      intros (? & ? & ?). repeat split; try done. lia.
  - intros uid now' Hlater. unfold latest_unresponded. do 3 f_equal.
    unfold cleanup_old_initiations. cbn [initiation_logs].
    rewrite map_filter_filter. apply map_filter_ext.
    intros id entry _. cbn [snd]. unfold unresponded_recent. cbn [snd].
    unfold DAY, HOUR, MINUTE in *. split; [tauto |].
    intros (? & ? & ?). repeat split; try done. lia.
  - unfold cleanup_old_initiations.
    cbn [users user_proactivity_settings initiation_schedule initiation_logs
         history].
    f_equal.
    + rewrite <- map_fmap_compose. apply map_fmap_ext.
      intros id row _. apply cancel_overdue_idem.
    + rewrite map_filter_filter. apply map_filter_ext.
      intros id entry _. cbn [snd]. tauto.
Qed.

End Cleanup.

Section Gate.
Import Proactive Scheduler.

Lemma sql_max_Some (values : list Z) (m : Z) :
  sql_max values = Some m -> m ∈ values.
Proof.
  destruct values as [| v vs]; [done |]. intros [= <-].
  induction vs as [| w vs IH]; cbn [fold_right]; [by left |].
  destruct (Z.max_spec w (fold_right Z.max v vs)) as [[_ ->] | [_ ->]].
  - apply elem_of_cons in IH as [-> | IH]; [by left |].
    right. by right.
  - right. by left.
Qed.

(** X18.  An initiation is scheduled only for a user with fewer than the
    daily maximum of pending or sent initiations today, who wrote within the
    inactivity limit, who ignored fewer initiations in the last week than
    the silence threshold, and who shows fewer than three stress emotions;
    and only when the latest pending or sent initiation is the minimum
    interval back. *)
Theorem scheduling_gate cfg db uid now :
  _should_schedule_initiation cfg db uid now = true ->
  _get_today_initiation_count db uid now < MAX_INITIATIONS_PER_DAY cfg
  /\ (exists k row,
        history db !! k = Some row
        /\ h_user_id row = uid
        /\ h_role row = "user"
        /\ now - h_created_at row < (SILENCE_INACTIVITY_DAYS cfg + 1) * DAY)
  /\ ignored_count db uid now < SILENCE_AFTER_IGNORED_COUNT cfg
  /\ stress_count db uid now < 3
  /\ (forall last,
        _get_last_initiation_time db uid = Some last ->
        (hours_passed now last
         <? Py.float_of_int (MIN_INITIATION_INTERVAL_HOURS cfg))%float
        = false).
Proof.
  unfold _should_schedule_initiation.
  destruct (_ <=? _) eqn:Hcount; [done |]. apply Z.leb_gt in Hcount.
  destruct (_get_last_user_activity db uid) as [last_activity |] eqn:Hact;
    [| done].
  destruct (_ <? _) eqn:Hdays; [done |]. apply Z.ltb_ge in Hdays.
  destruct (_is_in_silence_mode cfg db uid now) eqn:Hsilence; [done |].
  intros Hlast. split; [done |]. split; [| split; [| split]].
  - unfold _get_last_user_activity in Hact. apply sql_max_Some in Hact.
    apply list_elem_of_fmap in Hact as ([k row] & -> & Hin).
    apply elem_of_map_to_list, map_lookup_filter_Some in Hin
      as [Hrow [Hu Hr]].
    exists k, row. cbn [snd] in *. repeat split; try done.
    unfold days_since in Hdays.
    assert (0 < DAY) as Hday by (unfold DAY, HOUR, MINUTE; lia).
    pose proof (Z.mul_succ_div_gt (now - h_created_at row) DAY Hday).
    nia.
  - unfold _is_in_silence_mode in Hsilence.
    destruct (_ <=? _) eqn:Hign in Hsilence; [done |].
    by apply Z.leb_gt in Hign.
  - unfold _is_in_silence_mode in Hsilence.
    destruct (_ <=? _) in Hsilence; [done |].
    destruct (3 <=? stress_count db uid now) eqn:Hstress.
    + by destruct (avg_length db uid now) as [avg |];
        [destruct (negb _ && _) |].
    + by apply Z.leb_gt in Hstress.
  - intros last Hl. rewrite Hl in Hlast.
    by destruct (_ <? _)%float.
Qed.

(** X19.  Scheduling adds one pending row under a fresh key.  When its time
    lies in the current day, the user's count for the day rises by one, and
    the gate refuses the user as soon as that count reaches the daily
    maximum. *)
Theorem schedule_counts_toward_cap cfg db candidate scheduled_time now :
  today_start now <= scheduled_time < today_start now + DAY ->
  initiation_schedule db !! next_id (initiation_schedule db) = None
  /\ (exists row,
        initiation_schedule
          (_schedule_initiation db candidate scheduled_time)
          !! next_id (initiation_schedule db) = Some row
        /\ status row = PENDING
        /\ sched_user_id row = user_id candidate
        /\ scheduled_at row = scheduled_time)
  /\ _get_today_initiation_count
       (_schedule_initiation db candidate scheduled_time)
       (user_id candidate) now
     = _get_today_initiation_count db (user_id candidate) now + 1
  /\ (MAX_INITIATIONS_PER_DAY cfg
      <= _get_today_initiation_count db (user_id candidate) now + 1 ->
      _should_schedule_initiation cfg
        (_schedule_initiation db candidate scheduled_time)
        (user_id candidate) now = false).
Proof.
  intros Htoday.
  assert (_get_today_initiation_count
            (_schedule_initiation db candidate scheduled_time)
            (user_id candidate) now
          = _get_today_initiation_count db (user_id candidate) now + 1)
    as Hcount.
  { unfold _get_today_initiation_count, _schedule_initiation.
    cbn [initiation_schedule with_schedule].
    rewrite map_filter_insert_True.
    - rewrite map_size_insert_None; [lia |].
      apply map_lookup_filter_None. left. apply next_id_fresh.
    - repeat split; try done; cbn [snd scheduled_at]; try lia. by left. }
  split; [apply next_id_fresh |]. split; [| split; [done |]].
  - unfold _schedule_initiation. cbn [initiation_schedule with_schedule].
    rewrite lookup_insert_eq. by eexists.
  - intros Hfull. unfold _should_schedule_initiation. rewrite Hcount.
    by apply Z.leb_le in Hfull as ->.
Qed.

End Gate.

Lemma scheduling_gate_witness :
  Scheduler._get_today_initiation_count Scenario.active_user 7
    ProactiveSample.T0
  < Proactive.MAX_INITIATIONS_PER_DAY Proactive.default_settings.
Proof.
  refine (proj1 (scheduling_gate Proactive.default_settings
                   Scenario.active_user 7 ProactiveSample.T0 _)).
  vm_compute. reflexivity.
Defined.

Lemma schedule_counts_toward_cap_witness :
  Scheduler._get_today_initiation_count
    (Scheduler._schedule_initiation ProactiveSample.one_due
       Scenario.support_candidate (ProactiveSample.T0 + Proactive.HOUR))
    7 ProactiveSample.T0
  = Scheduler._get_today_initiation_count ProactiveSample.one_due 7
      ProactiveSample.T0 + 1.
Proof.
  refine (proj1 (proj2 (proj2
            (schedule_counts_toward_cap Proactive.default_settings
               ProactiveSample.one_due Scenario.support_candidate
               (ProactiveSample.T0 + Proactive.HOUR) ProactiveSample.T0 _)))).
  vm_compute. split; [discriminate | reflexivity].
Defined.


Section Support.
Import Proactive Scheduler.
Local Open Scope float_scope.

(** X20.  The supportive miner on the trajectory of a history.  At most one
    candidate comes out.  One comes out exactly when, among the first ten
    emotion-tagged user turns of the history, the negative ones outnumber
    twice the positive ones, or there are at least three negative ones, the
    positive ones do not outnumber twice the negative ones, and a memory is
    relevant.  Its quality is 0.9 in the first case and 0.8 in the second,
    which passes the default quality threshold, and it cites at most two
    memories. *)
Theorem supportive_candidates_spec uid memories history :
  (forall c,
     c ∈ supportive_candidates uid memories history ->
     supportive_candidates uid memories history = [c]
     /\ initiation_type c = SUPPORTIVE
     /\ user_id c = uid
     /\ priority_score c = estimated_quality c
     /\ estimated_quality c
        = (if (positive_count (user_emotions history) * 2
               <? negative_count (user_emotions history))%Z
           then 0.9 else 0.8)
     /\ (INITIATION_MIN_QUALITY_SCORE default_settings
         <=? estimated_quality c) = true
     /\ (length (source_memories c) <= 2)%nat)
  /\ ((exists c, c ∈ supportive_candidates uid memories history)
      <-> exists current rest,
            user_emotions history = current :: rest
            /\ ((positive_count (user_emotions history) * 2
                 < negative_count (user_emotions history))%Z
                \/ ((positive_count (user_emotions history)
                     <= negative_count (user_emotions history) * 2)%Z
                    /\ (3 <= negative_count (user_emotions history))%Z
                    /\ exists memory,
                         memory ∈ memories
                         /\ is_relevant current memory = true))).
Proof.
  unfold supportive_candidates, _analyze_emotion_trajectory.
  destruct (user_emotions history) as [| current rest] eqn:Hemotions.
  { cbn. split.
    - intros c Hc. by apply elem_of_nil in Hc.
    - split.
      + intros [c Hc]. by apply elem_of_nil in Hc.
      + intros (? & ? & ? & _). done. }
  set (N := negative_count (current :: rest)).
  set (P := positive_count (current :: rest)).
  unfold _find_supportive_opportunities.
  destruct (P * 2 <? N)%Z eqn:Hdecl.
  { cbn [needs_support trend current_emotion]. rewrite orb_true_r.
    cbn [String.eqb Ascii.eqb Bool.eqb andb].
    split.
    - intros c Hc. apply list_elem_of_singleton in Hc as ->.
      repeat split; try reflexivity.
      cbn [source_memories]. rewrite length_map, length_take. lia.
    - split.
      + intros _. exists current, rest. split; [done |]. left.
        by apply Z.ltb_lt.
      + intros _. eexists. by apply list_elem_of_singleton. }
  apply Z.ltb_ge in Hdecl.
  destruct (N * 2 <? P)%Z eqn:Himpr.
  { cbn [needs_support]. apply Z.ltb_lt in Himpr. split.
    - intros c Hc. by apply elem_of_nil in Hc.
    - split.
      + intros [c Hc]. by apply elem_of_nil in Hc.
      + intros (? & ? & [= <- <-] & [? | (? & ? & _)]); lia. }
  apply Z.ltb_ge in Himpr.
  cbn [needs_support trend current_emotion].
  destruct (3 <=? N)%Z eqn:Hthree.
  2:{ apply Z.leb_gt in Hthree. split.
      - intros c Hc. by apply elem_of_nil in Hc.
      - split.
        + intros [c Hc]. by apply elem_of_nil in Hc.
        + intros (? & ? & [= <- <-] & [? | (? & ? & _)]); lia. }
  apply Z.leb_le in Hthree.
  replace (String.eqb "stable" "declining") with false by reflexivity.
  rewrite orb_false_r.
  destruct (List.filter (is_relevant current) memories)
    as [| m relevant] eqn:Hrel.
  - cbn [negb]. split.
    + intros c Hc. by apply elem_of_nil in Hc.
    + split.
      * intros [c Hc]. by apply elem_of_nil in Hc.
      * intros (? & ? & [= <- <-] & [? | (_ & _ & memory & Hin & Hm)]);
          [lia |].
        assert (memory ∈ List.filter (is_relevant current) memories) as Hbad.
        { apply list_elem_of_In, filter_In. split; [| done].
          by apply list_elem_of_In. }
        rewrite Hrel in Hbad. by apply elem_of_nil in Hbad.
  - cbn [negb]. split.
    + intros c Hc. apply list_elem_of_singleton in Hc as ->.
      repeat split; try reflexivity.
      cbn [source_memories]. rewrite length_map, length_take. lia.
    + split.
      * intros _. exists current, rest. split; [done |]. right.
        repeat split; try done. exists m.
        assert (m ∈ List.filter (is_relevant current) memories) as Hm
          by (rewrite Hrel; by left).
        apply list_elem_of_In, filter_In in Hm as [Hin Hm].
        split; [by apply list_elem_of_In | done].
      * intros _. eexists. by apply list_elem_of_singleton.
Qed.

End Support.

Section Response.
Import Proactive.
Variable str_lower : string -> string.

(** X23.  A response that is correlated settles the newest unanswered
    entry of the user from the last 24 hours and no other log entry, and
    lowers the count of initiations that the silence check takes as
    ignored by one. *)
Theorem response_settles_newest db uid message emotion now :
  fst (process_user_response str_lower db uid message emotion now) = true ->
  exists log_id entry,
    initiation_logs db !! log_id = Some entry
    /\ log_user_id entry = uid
    /\ user_responded entry = false
    /\ now - 24 * HOUR < log_created_at entry
    /\ (forall id other,
          initiation_logs db !! id = Some other ->
          log_user_id other = uid ->
          user_responded other = false ->
          now - 24 * HOUR < log_created_at other ->
          log_created_at other <= log_created_at entry)
    /\ (exists entry',
          initiation_logs
            (snd (process_user_response str_lower db uid message emotion
                    now)) !! log_id = Some entry'
          /\ user_responded entry' = true
          /\ user_response_length entry' = Some (Py.len message))
    /\ (forall id,
          id <> log_id ->
          initiation_logs
            (snd (process_user_response str_lower db uid message emotion
                    now)) !! id
          = initiation_logs db !! id)
    /\ ignored_count
         (snd (process_user_response str_lower db uid message emotion now))
         uid now
       = ignored_count db uid now - 1.
Proof.
  unfold process_user_response.
  destruct (latest_unresponded db uid now) as [[log_id entry] |] eqn:Hlatest;
    [| done].
  destruct (response_minutes now (log_created_at entry)) as [minutes |];
    [| done].
  intros _. cbn [snd initiation_logs].
  unfold latest_unresponded in Hlatest.
  set (sorted := order_by_desc _ _) in Hlatest.
  assert (forall id other,
            (id, other) ∈ sorted
            <-> initiation_logs db !! id = Some other
                /\ log_user_id other = uid
                /\ user_responded other = false
                /\ now - 24 * HOUR < log_created_at other) as Hmem.
  { intros id other. unfold sorted. rewrite order_by_desc_perm.
    rewrite elem_of_map_to_list, map_lookup_filter_Some. done. }
  pose proof (order_by_desc_sorted
                (fun kv : Z * LogRow => log_created_at (snd kv))
                (map_to_list (filter (unresponded_recent uid now)
                                     (initiation_logs db)))) as Hsorted.
  fold sorted in Hsorted.
  destruct sorted as [| first rest] eqn:Hlist; [done |].
  injection Hlatest as ->.
  assert (initiation_logs db !! log_id = Some entry
          /\ log_user_id entry = uid
          /\ user_responded entry = false
          /\ now - 24 * HOUR < log_created_at entry)
    as (Hentry & Huser & Hopen & Hrecent) by (apply Hmem; by left).
  exists log_id, entry. repeat split; try done.
  - intros id other Hother Hu Ho Hr.
    assert ((id, other) ∈ (log_id, entry) :: rest) as Hin
      by (by apply Hmem).
    apply StronglySorted_cons in Hsorted as [Hfirst _].
    apply elem_of_cons in Hin as [[= -> ->] | Hin]; [lia |].
    apply (proj1 (Forall_forall _ _) Hfirst (id, other) Hin).
  - eexists. rewrite lookup_insert_eq. by split.
  - intros id Hne. by rewrite lookup_insert_ne.
  - unfold ignored_count. cbn [initiation_logs].
    rewrite map_filter_insert_False
      by (intros (_ & _ & Hresp); cbn [snd user_responded] in Hresp; done).
    rewrite map_filter_delete.
    assert (filter (ignored_recently uid now) (initiation_logs db) !! log_id
            = Some entry) as Hin.
    { apply map_lookup_filter_Some. split; [done |].
      repeat split; try done. cbn [snd]. unfold DAY, HOUR, MINUTE in *.
      lia. }
    rewrite map_size_delete_Some by (by eexists).
    assert (size (filter (ignored_recently uid now) (initiation_logs db))
            <> 0%nat) as Hpos.
    { apply map_size_non_empty_iff. intros Hempty.
      by rewrite Hempty, lookup_empty in Hin. }
    lia.
Qed.

End Response.

Lemma response_settles_newest_witness :
  Proactive.ignored_count
    (snd (Proactive.process_user_response id ProactiveSample.waiting 7
            "спасибо" (Some "joy")
            (ProactiveSample.T0 + 12 * Proactive.MINUTE)))
    7 (ProactiveSample.T0 + 12 * Proactive.MINUTE)
  = Proactive.ignored_count ProactiveSample.waiting 7
      (ProactiveSample.T0 + 12 * Proactive.MINUTE) - 1.
Proof.
  destruct (response_settles_newest id ProactiveSample.waiting 7 "спасибо"
              (Some "joy") (ProactiveSample.T0 + 12 * Proactive.MINUTE))
    as (log_id & entry & _ & _ & _ & _ & _ & _ & _ & Hcount).
  - vm_compute. reflexivity.
  - exact Hcount.
Defined.


Section FloatOrder.

Lemma SFcompare_Lt_swap (a b : spec_float) :
  SFcompare a b = Some Lt -> SFcompare b a = Some Gt.
Proof.
  destruct a as [sa | sa | | sa ma ea], b as [sb | sb | | sb mb eb];
    simpl; try discriminate;
    try (destruct sa; discriminate || reflexivity);
    try (destruct sb; discriminate || reflexivity);
    try (destruct sa, sb; discriminate || reflexivity).
  destruct sa, sb; try discriminate; try reflexivity.
  - rewrite (Z.compare_antisym ea eb).
    destruct (ea ?= eb) eqn:He; simpl; try discriminate; try reflexivity.
    change (Pos.compare_cont Eq mb ma) with (Pos.compare mb ma).
    change (Pos.compare_cont Eq ma mb) with (Pos.compare ma mb).
    rewrite (Pos.compare_antisym ma mb).
    destruct (ma ?= mb)%positive; simpl; discriminate || reflexivity.
  - rewrite (Z.compare_antisym ea eb).
    destruct (ea ?= eb) eqn:He; simpl; try discriminate; try reflexivity.
    change (Pos.compare_cont Eq mb ma) with (Pos.compare mb ma).
    change (Pos.compare_cont Eq ma mb) with (Pos.compare ma mb).
    rewrite (Pos.compare_antisym ma mb).
    destruct (ma ?= mb)%positive; simpl; discriminate || reflexivity.
Qed.

Lemma ltb_asym (x y : float) :
  (x <? y)%float = true -> (y <? x)%float = false.
Proof.
  rewrite !FloatAxioms.ltb_spec. unfold SFltb.
  destruct (SFcompare (Prim2SF x) (Prim2SF y)) as [[| |] |] eqn:H;
    try discriminate.
  intros _. by rewrite (SFcompare_Lt_swap _ _ H).
Qed.

Lemma SFcompare_Lt_trans (a b c : spec_float) :
  SFcompare a b = Some Lt -> SFcompare b c = Some Lt ->
  SFcompare a c = Some Lt.
Proof.
  destruct a as [sa | sa | | sa ma ea], b as [sb | sb | | sb mb eb],
    c as [sc | sc | | sc mc ec];
    simpl; try discriminate;
    try (destruct sa; try discriminate; destruct sb; try discriminate;
         destruct sc; discriminate || reflexivity);
    try (destruct sa; try discriminate; destruct sb; try discriminate;
         reflexivity || discriminate);
    try (destruct sa; try discriminate; destruct sc; try discriminate;
         reflexivity || discriminate);
    try (destruct sb; try discriminate; destruct sc; try discriminate;
         reflexivity || discriminate).
  all: destruct sa, sb, sc; try discriminate; try reflexivity.
  all: change (Pos.compare_cont Eq) with Pos.compare.
  all: destruct (Z.compare_spec ea eb); try discriminate;
       destruct (Z.compare_spec eb ec); try discriminate;
       destruct (Z.compare_spec ea ec); try lia; try reflexivity; subst.
  all: destruct (Pos.compare_spec ma mb); try discriminate;
       destruct (Pos.compare_spec mb mc); try discriminate;
       destruct (Pos.compare_spec ma mc); simpl; try lia; try reflexivity.
Qed.

Lemma ltb_trans (x y z : float) :
  (x <? y)%float = true -> (y <? z)%float = true -> (x <? z)%float = true.
Proof.
  rewrite !FloatAxioms.ltb_spec. unfold SFltb.
  destruct (SFcompare (Prim2SF x) (Prim2SF y)) as [[| |] |] eqn:H1;
    try discriminate.
  destruct (SFcompare (Prim2SF y) (Prim2SF z)) as [[| |] |] eqn:H2;
    try discriminate.
  intros _ _. by rewrite (SFcompare_Lt_trans _ _ _ H1 H2).
Qed.

Lemma ltb_irrefl (x : float) : (x <? x)%float = false.
Proof.
  destruct (x <? x)%float eqn:H; [| done].
  by rewrite (ltb_asym _ _ H) in H.
Qed.

End FloatOrder.

Section Choice.
Import Proactive Scheduler.
Local Open Scope float_scope.

Lemma max_by_spec {A} (key : A -> float) (rest : list A) :
  forall best seen,
    (forall x, x ∈ seen -> (key best <? key x) = false) ->
    best ∈ seen ->
    max_by key best rest ∈ (seen ++ rest)%list
    /\ forall x, x ∈ (seen ++ rest)%list ->
                 (key (max_by key best rest) <? key x) = false.
Proof.
  induction rest as [| item rest IH]; intros best seen Hbest Hin.
  { cbn [max_by]. rewrite app_nil_r. by split. }
  cbn [max_by].
  replace (seen ++ item :: rest)%list with ((seen ++ [item]) ++ rest)%list
    by (by rewrite <- app_assoc).
  apply IH.
  - intros x Hx. apply elem_of_app in Hx as [Hx | Hx].
    + destruct (key best <? key item) eqn:Hlt; [| by apply Hbest].
      destruct (key item <? key x) eqn:Hgt; [| done].
      pose proof (ltb_trans _ _ _ Hlt Hgt) as Hbad.
      by rewrite (Hbest x Hx) in Hbad.
    + apply list_elem_of_singleton in Hx as ->.
      destruct (key best <? key item) eqn:Hlt; [apply ltb_irrefl | done].
  - destruct (key best <? key item).
    + apply elem_of_app. right. by apply list_elem_of_singleton.
    + apply elem_of_app. by left.
Qed.

(** X21.  The chosen candidate is one of the candidates and none of them has
    a greater final score; no candidate is chosen only when there is none. *)
Theorem select_best_candidate_maximal db now candidates :
  match _select_best_candidate db now candidates with
  | Some best =>
      best ∈ candidates
      /\ forall c, c ∈ candidates ->
                   (final_score db now best <? final_score db now c) = false
  | None => candidates = []
  end.
Proof.
  unfold _select_best_candidate.
  destruct candidates as [| first rest]; [done |].
  apply (max_by_spec (final_score db now) rest first [first]).
  - intros x Hx. apply list_elem_of_singleton in Hx as ->. apply ltb_irrefl.
  - by apply list_elem_of_singleton.
Qed.

End Choice.

Section Sentiment.
Import Proactive.
Local Open Scope float_scope.
Variable str_lower : string -> string.

Lemma clamp_range (x : float) :
  (1 <? Py.max (-1) (Py.min 1 x)) = false
  /\ (Py.max (-1) (Py.min 1 x) <? -1) = false.
Proof.
  unfold Py.max, Py.min.
  destruct (x <? 1) eqn:Hx.
  - destruct (-1 <? x) eqn:Hlo.
    + split; by apply ltb_asym.
    + by split.
  - by split.
Qed.

(** X22.  The sentiment stored with a response is always a number between -1
    and 1, whatever the message and the emotion label. *)
Theorem response_sentiment_range message emotion :
  (1 <? _analyze_response_sentiment str_lower message emotion) = false
  /\ (_analyze_response_sentiment str_lower message emotion <? -1) = false
  /\ (_analyze_response_sentiment str_lower message emotion
      =? _analyze_response_sentiment str_lower message emotion) = true.
Proof.
  unfold _analyze_response_sentiment.
  set (x := _ * 0.7 + _ * 0.3).
  destruct (clamp_range x) as [Hhi Hlo]. split; [done |]. split; [done |].
  clearbody x. unfold Py.max, Py.min.
  destruct (x <? 1) eqn:Hx.
  - destruct (-1 <? x) eqn:Hl; [| done].
    rewrite FloatAxioms.eqb_spec. rewrite FloatAxioms.ltb_spec in Hx.
    unfold SFltb in Hx.
    unfold SFeqb. destruct (Prim2SF x) as [s | s | | s m e]; try done.
    + by destruct s.
    + simpl. destruct s; rewrite Z.compare_refl;
        change (Pos.compare_cont Eq m m) with (Pos.compare m m);
        by rewrite Pos.compare_refl.
  - destruct (-1 <? 1); done.
Qed.

End Sentiment.

Section RunOfScheduler.
Import Proactive Scheduler SchedulerRun.
Variable candidates_of : Z -> list InitiationCandidate.
Variable time_of : Z -> Z.

(** The gate reads the schedule only through the rows of the user. *)
Lemma gate_ext cfg db db' uid now :
  initiation_logs db' = initiation_logs db ->
  history db' = history db ->
  (forall id row,
     sched_user_id row = uid ->
     initiation_schedule db' !! id = Some row
     <-> initiation_schedule db !! id = Some row) ->
  _should_schedule_initiation cfg db' uid now
  = _should_schedule_initiation cfg db uid now.
Proof.
  intros Hlogs Hhist Hrows.
  assert (filter (counts_today uid now) (initiation_schedule db')
          = filter (counts_today uid now) (initiation_schedule db)) as Htoday.
  { apply map_filter_strong_ext_1. intros id row. cbn [snd].
    split; intros [Hp Hrow]; (split; [done |]);
      apply (Hrows id row); try done; by destruct Hp. }
  assert (filter (sent_or_pending uid) (initiation_schedule db')
          = filter (sent_or_pending uid) (initiation_schedule db)) as Hlast.
  { apply map_filter_strong_ext_1. intros id row. cbn [snd].
    split; intros [Hp Hrow]; (split; [done |]);
      apply (Hrows id row); try done; by destruct Hp. }
  unfold _should_schedule_initiation, _get_today_initiation_count,
    _get_last_user_activity, _get_last_initiation_time.
  rewrite Htoday, Hlast, Hhist.
  by rewrite (silence_mode_ext cfg db db' uid now)
    by (by rewrite ?Hlogs, ?Hhist).
Qed.

Lemma max_by_ext {A} (key key' : A -> float) (rest : list A) (best : A) :
  (forall x, key' x = key x) ->
  max_by key' best rest = max_by key best rest.
Proof.
  intros H. revert best. induction rest as [| item rest IH]; intros best;
    [done |].
  cbn [max_by]. by rewrite !H, IH.
Qed.

(** The choice reads the schedule only through the sent rows. *)
Lemma select_best_ext db db' now candidates :
  (forall id row,
     status row = SENT ->
     initiation_schedule db' !! id = Some row
     <-> initiation_schedule db !! id = Some row) ->
  _select_best_candidate db' now candidates
  = _select_best_candidate db now candidates.
Proof.
  intros Hrows. unfold _select_best_candidate.
  destruct candidates as [| first rest]; [done |]. f_equal.
  apply max_by_ext. intros c. unfold final_score, _get_last_initiation_type.
  assert (filter (was_sent_to (user_id c)) (initiation_schedule db')
          = filter (was_sent_to (user_id c)) (initiation_schedule db)) as ->;
    [| done].
  apply map_filter_strong_ext_1. intros id row. cbn [snd].
  split; intros [Hp Hrow]; (split; [done |]);
    apply (Hrows id row); try done; by destruct Hp.
Qed.

Lemma select_best_member db now candidates best :
  _select_best_candidate db now candidates = Some best -> best ∈ candidates.
Proof.
  unfold _select_best_candidate.
  destruct candidates as [| first rest]; [done |]. intros [= <-].
  apply (max_by_spec (final_score db now) rest first [first]).
  - intros x Hx. apply list_elem_of_singleton in Hx as ->. apply ltb_irrefl.
  - by apply list_elem_of_singleton.
Qed.

Lemma run_state_step cfg db now done current uid :
  (forall u c, c ∈ candidates_of u -> user_id c = u) ->
  uid ∈ _get_eligible_users db now ->
  uid ∉ done ->
  run_state candidates_of time_of cfg db now done current ->
  run_state candidates_of time_of cfg db now (done ++ [uid])
    (schedule_for_user candidates_of time_of cfg now current uid).
Proof.
  intros Hown Heligible Hfresh (Hsame & Hold & Hnew & Huniq).
  assert (forall id row,
            sched_user_id row = uid ->
            initiation_schedule current !! id = Some row
            <-> initiation_schedule db !! id = Some row) as Hmine.
  { intros id row Hu. split; [| apply Hold].
    intros Hrow. destruct (initiation_schedule db !! id) as [row0 |] eqn:H0.
    - apply Hold in H0. congruence.
    - destruct (Hnew id row H0 Hrow) as [Hdone _]. by rewrite Hu in Hdone. }
  assert (forall id row,
            status row = SENT ->
            initiation_schedule current !! id = Some row
            <-> initiation_schedule db !! id = Some row) as Hsent.
  { intros id row Hs. split; [| apply Hold].
    intros Hrow. destruct (initiation_schedule db !! id) as [row0 |] eqn:H0.
    - apply Hold in H0. congruence.
    - destruct (Hnew id row H0 Hrow) as [_ (Hp & _)]. congruence. }
  assert (forall other, other ∈ done -> other ∈ (done ++ [uid])%list)
    as Hgrow by (intros other Ho; apply elem_of_app; by left).
  unfold schedule_for_user.
  rewrite (gate_ext cfg db current uid now)
    by (try done; by rewrite Hsame).
  rewrite (select_best_ext db current now) by done.
  destruct (_should_schedule_initiation cfg db uid now) eqn:Hgate.
  2:{ split; [done |]. split; [done |]. split; [| done].
      intros id row H0 Hrow. destruct (Hnew id row H0 Hrow) as [Hd Hr].
      split; [by apply Hgrow | done]. }
  destruct (_select_best_candidate db now (candidates_of uid))
    as [best |] eqn:Hbest.
  2:{ split; [done |]. split; [done |]. split; [| done].
      intros id row H0 Hrow. destruct (Hnew id row H0 Hrow) as [Hd Hr].
      split; [by apply Hgrow | done]. }
  assert (user_id best = uid) as Hbest_user
    by (by apply (Hown uid), (select_best_member db now)).
  pose proof (next_id_fresh (initiation_schedule current)) as Hnext.
  unfold _schedule_initiation, run_state.
  cbn [initiation_schedule with_schedule].
  split; [| split; [| split]].
  - rewrite Hsame at 1. reflexivity.
  - intros id row Hrow. rewrite lookup_insert_ne; [by apply Hold |].
    intros <-. apply Hold in Hrow. congruence.
  - intros id row H0 Hrow.
    destruct (decide (id = next_id (initiation_schedule current)))
      as [-> | Hne].
    + rewrite lookup_insert_eq in Hrow. injection Hrow as <-.
      unfold scheduled_by_run.
      cbn [status sched_user_id scheduled_at sched_initiation_type].
      rewrite Hbest_user. split.
      * apply elem_of_app. right. by apply list_elem_of_singleton.
      * repeat split; try done. by exists best.
    + rewrite lookup_insert_ne in Hrow by done.
      destruct (Hnew id row H0 Hrow) as [Hd Hr].
      split; [by apply Hgrow | done].
  - intros id1 id2 row1 row2 H1 Hrow1 H2 Hrow2 Hu.
    destruct (decide (id1 = next_id (initiation_schedule current)))
      as [-> | Hne1];
      destruct (decide (id2 = next_id (initiation_schedule current)))
        as [-> | Hne2]; [done | | |].
    + rewrite lookup_insert_eq in Hrow1. injection Hrow1 as <-.
      rewrite lookup_insert_ne in Hrow2 by done.
      destruct (Hnew id2 row2 H2 Hrow2) as [Hd _].
      cbn [sched_user_id] in Hu. rewrite Hbest_user in Hu.
      by rewrite <- Hu in Hd.
    + rewrite lookup_insert_eq in Hrow2. injection Hrow2 as <-.
      rewrite lookup_insert_ne in Hrow1 by done.
      destruct (Hnew id1 row1 H1 Hrow1) as [Hd _].
      cbn [sched_user_id] in Hu. rewrite Hbest_user in Hu.
      by rewrite Hu in Hd.
    + rewrite lookup_insert_ne in Hrow1, Hrow2 by done.
      by apply (Huniq id1 id2 row1 row2).
Qed.

Lemma run_state_fold cfg db now (todo : list Z) :
  (forall u c, c ∈ candidates_of u -> user_id c = u) ->
  forall done current,
    NoDup todo ->
    (forall u, u ∈ todo -> u ∈ _get_eligible_users db now /\ u ∉ done) ->
    run_state candidates_of time_of cfg db now done current ->
    run_state candidates_of time_of cfg db now (done ++ todo)
      (fold_left (schedule_for_user candidates_of time_of cfg now) todo
                 current).
Proof.
  intros Hown. induction todo as [| uid todo IH];
    intros done current Hnd Htodo Hstate.
  { by rewrite app_nil_r. }
  cbn [fold_left]. apply NoDup_cons in Hnd as [Huid Hnd].
  replace (done ++ uid :: todo)%list with ((done ++ [uid]) ++ todo)%list
    by (by rewrite <- app_assoc).
  apply IH; [done | |].
  - intros u Hu. destruct (Htodo u) as [He Hd]; [by right |].
    split; [done |]. intros [Hin | Hin]%elem_of_app; [done |].
    apply list_elem_of_singleton in Hin as ->. done.
  - destruct (Htodo uid) as [He Hd]; [by left |].
    by apply run_state_step.
Qed.

(** X24.  A run of the scheduler changes nothing but the schedule and no
    row that was there.  Every row it adds is pending, for an eligible user
    that passed the scheduling gate at the start of the run, at the time
    drawn for that user, of the type of the best candidate; and it adds at
    most one row per user. *)
Theorem scheduler_run_spec cfg db now :
  (forall u c, c ∈ candidates_of u -> user_id c = u) ->
  check_and_schedule_initiations candidates_of time_of cfg db now
  = with_schedule db
      (initiation_schedule
         (check_and_schedule_initiations candidates_of time_of cfg db now))
  /\ (forall id row,
        initiation_schedule db !! id = Some row ->
        initiation_schedule
          (check_and_schedule_initiations candidates_of time_of cfg db now)
          !! id = Some row)
  /\ (forall id row,
        initiation_schedule db !! id = None ->
        initiation_schedule
          (check_and_schedule_initiations candidates_of time_of cfg db now)
          !! id = Some row ->
        scheduled_by_run candidates_of time_of cfg db now row)
  /\ (forall id1 id2 row1 row2,
        initiation_schedule db !! id1 = None ->
        initiation_schedule
          (check_and_schedule_initiations candidates_of time_of cfg db now)
          !! id1 = Some row1 ->
        initiation_schedule db !! id2 = None ->
        initiation_schedule
          (check_and_schedule_initiations candidates_of time_of cfg db now)
          !! id2 = Some row2 ->
        sched_user_id row1 = sched_user_id row2 ->
        id1 = id2).
Proof.
  intros Hown.
  assert (run_state candidates_of time_of cfg db now
            (_get_eligible_users db now)
            (check_and_schedule_initiations candidates_of time_of cfg db
               now)) as (Hsame & Hold & Hnew & Huniq).
  { unfold check_and_schedule_initiations.
    apply (run_state_fold cfg db now (_get_eligible_users db now) Hown []).
    - unfold _get_eligible_users. apply NoDup_fst_map_to_list.
    - intros u Hu. split; [done |]. apply not_elem_of_nil.
    - split; [by destruct db |]. split; [done |].
      split; [| intros; congruence]. intros id row H0 Hrow. congruence. }
  split; [done |]. split; [done |]. split; [| done].
  intros id row H0 Hrow. by destruct (Hnew id row H0 Hrow).
Qed.

End RunOfScheduler.

Lemma scheduler_run_spec_witness :
  SchedulerRun.scheduled_by_run (fun u => [Scenario.support_for u])
    (fun _ => ProactiveSample.T0 + Proactive.HOUR)
    Proactive.default_settings Scenario.active_user ProactiveSample.T0
    Scenario.support_row.
Proof.
  refine (proj1 (proj2 (proj2
            (scheduler_run_spec (fun u => [Scenario.support_for u])
               (fun _ => ProactiveSample.T0 + Proactive.HOUR)
               Proactive.default_settings Scenario.active_user
               ProactiveSample.T0 _))) 1 Scenario.support_row _ _).
  - intros u c Hc. by apply list_elem_of_singleton in Hc as ->.
  - reflexivity.
  - vm_compute. reflexivity.
Defined.
